(** * Arduino-Triage: state machine and triage decision engine

    A shallow embedding of

    - [src/linux/core/state_machine.py]   ([SystemStateMachine]),
    - [src/linux/triage/decision_engine.py] ([TriageDecisionEngine]),
    - [src/linux/core/system_manager.py]  ([SystemManager]: starting and
      stopping an examination, the capture callback, the processing of the
      capture, the display of the results, the sensor messages),

    followed by the properties of the specification that concern them, and
    by further properties of the same code.

    Modelling conventions.
    - Python values that travel in dictionaries (sensor snapshots,
      classifier results, decisions) are terms of [pyval]; a dictionary is
      an association list in insertion order, read at the first match.
    - A Python [float] is an exact rational kept in lowest terms; [inf] and
      [nan] are outside the model, and so is binary64 rounding. Where a
      property depends on the rounding, the method is embedded a second
      time on binary64 floats (module [Binary64]), and the property is
      stated of that embedding.
    - A raised exception is the [Raise] constructor of [result]; a
      [try/except Exception] is a [match] on it.
    - [time.time()] and [datetime.now()] are an argument [now] of every
      operation that reads the clock: one call is one instant (the calls hold
      the machine's lock).
    - What a call hands to the logger, and the callbacks it invokes, are
      recorded in the machine's [effects]. A registered callback gets the
      state and the context, may raise, and does not call back into the
      machine (the repository registers none).
    - [self.transitions] is written once, by [__init__]; it is the constant
      [transitions].
    - A coroutine of [SystemManager] is a function on the [Station]; what
      the rest of the program does while it sleeps is a parameter. *)

From Stdlib Require Import Floats ZArith QArith Qround Qabs String Ascii List Bool
  Lia Lqa.
From stdpp Require Import base option gmap strings pretty.
Import ListNotations.

Set Warnings "-register-all".
Set Warnings "-inexact-float".
Open Scope string_scope.

(* ===================================================================== *)
(** * Python values                                                       *)
(* ===================================================================== *)

Module Py.

Inductive pyval : Type :=
| PNone
| PBool (b : bool)
| PInt (z : Z)
| PFloat (q : Q)
| PStr (s : string)
| PList (l : list pyval)
| PDict (d : list (string * pyval)).

(** Exceptions, with the text [str(e)] gives. *)
Inductive pyexn : Type :=
| AttributeError (msg : string)
| TypeError (msg : string)
| ValueError (msg : string)
| KeyError (msg : string).

Definition exn_str (e : pyexn) : string :=
  match e with
  | AttributeError m | TypeError m | ValueError m | KeyError m => m
  end.

Inductive result (A : Type) : Type :=
| Ok (a : A)
| Raise (e : pyexn).
Arguments Ok {A} a.
Arguments Raise {A} e.

Definition bind {A B} (r : result A) (k : A -> result B) : result B :=
  match r with
  | Ok a => k a
  | Raise e => Raise e
  end.

Notation "'let*' x := r 'in' k" := (bind r (fun x => k))
  (at level 10, x name, r at level 100, k at level 200).

(** [type(v).__name__] *)
Definition type_name (v : pyval) : string :=
  match v with
  | PNone => "NoneType"
  | PBool _ => "bool"
  | PInt _ => "int"
  | PFloat _ => "float"
  | PStr _ => "str"
  | PList _ => "list"
  | PDict _ => "dict"
  end.

(** [bool(v)] *)
Definition truthy (v : pyval) : bool :=
  match v with
  | PNone => false
  | PBool b => b
  | PInt z => negb (z =? 0)%Z
  | PFloat q => negb (Qeq_bool q 0%Q)
  | PStr s => negb (String.eqb s "")
  | PList l => match l with [] => false | _ => true end
  | PDict d => match d with [] => false | _ => true end
  end.

(** The number a [bool], [int] or [float] stands for in arithmetic. *)
Definition as_number (v : pyval) : option Q :=
  match v with
  | PBool b => Some (if b then 1%Q else 0%Q)
  | PInt z => Some (inject_Z z)
  | PFloat q => Some q
  | _ => None
  end.

(** ** Dictionaries: insertion-ordered association lists *)

Fixpoint dict_get {V} (d : list (string * V)) (k : string) : option V :=
  match d with
  | [] => None
  | (k', v) :: d' => if String.eqb k' k then Some v else dict_get d' k
  end.

(** [d[k] = v] *)
Fixpoint dict_set {V} (d : list (string * V)) (k : string) (v : V)
  : list (string * V) :=
  match d with
  | [] => [(k, v)]
  | (k', v') :: d' =>
      if String.eqb k' k then (k', v) :: d' else (k', v') :: dict_set d' k v
  end.

Fixpoint dict_remove {V} (d : list (string * V)) (k : string)
  : list (string * V) :=
  match d with
  | [] => []
  | (k', v) :: d' =>
      if String.eqb k' k then dict_remove d' k else (k', v) :: dict_remove d' k
  end.

(** [v.get(k, default)]: only a dict has the method. *)
Definition py_get (v : pyval) (k : string) (default : pyval) : result pyval :=
  match v with
  | PDict d => Ok (match dict_get d k with Some x => x | None => default end)
  | _ => Raise (AttributeError
                  ("'" ++ type_name v ++ "' object has no attribute 'get'"))
  end.

(** [d[k]] on a configuration dictionary. *)
Definition py_index {V} (d : gmap string V) (k : string) : result V :=
  match d !! k with
  | Some v => Ok v
  | None => Raise (KeyError ("'" ++ k ++ "'"))
  end.

(** ** Floats *)

Definition fadd (a b : Q) : Q := Qred (a + b)%Q.
Definition fsub (a b : Q) : Q := Qred (a - b)%Q.
Definition fmul (a b : Q) : Q := Qred (a * b)%Q.
Definition fdiv (a b : Q) : Q := Qred (a / b)%Q.

Definition cmp_error (op : string) (a b : pyval) : pyexn :=
  TypeError ("'" ++ op ++ "' not supported between instances of '"
             ++ type_name a ++ "' and '" ++ type_name b ++ "'").

(** [a < b], [a > b], [a >= b] for a value against a number. *)
Definition py_lt (a : pyval) (b : pyval) : result bool :=
  match as_number a, as_number b with
  | Some x, Some y => Ok (negb (Qle_bool y x))
  | _, _ => Raise (cmp_error "<" a b)
  end.

Definition py_gt (a : pyval) (b : pyval) : result bool :=
  match as_number a, as_number b with
  | Some x, Some y => Ok (negb (Qle_bool x y))
  | _, _ => Raise (cmp_error ">" a b)
  end.

Definition py_ge (a : pyval) (b : pyval) : result bool :=
  match as_number a, as_number b with
  | Some x, Some y => Ok (Qle_bool y x)
  | _, _ => Raise (cmp_error ">=" a b)
  end.

(** [c * v] for a float literal [c]. *)
Definition py_float_mul (c : Q) (v : pyval) : result Q :=
  match as_number v with
  | Some x => Ok (fmul c x)
  | None =>
      Raise (TypeError
               match v with
               | PStr _ | PList _ =>
                   "can't multiply sequence by non-int of type 'float'"
               | _ => "unsupported operand type(s) for *: 'float' and '"
                      ++ type_name v ++ "'"
               end)
  end.

(** ** Strings *)

Fixpoint starts_with (p s : string) : bool :=
  match p, s with
  | EmptyString, _ => true
  | String a p', String b s' => Ascii.eqb a b && starts_with p' s'
  | String _ _, EmptyString => false
  end.

(** [p in s] *)
Fixpoint contains (p s : string) : bool :=
  starts_with p s ||
  match s with
  | EmptyString => false
  | String _ s' => contains p s'
  end.

Definition lower_ascii (c : ascii) : ascii :=
  let n := nat_of_ascii c in
  if (65 <=? n)%nat && (n <=? 90)%nat then ascii_of_nat (n + 32) else c.

(** [s.lower()] on the ASCII letters. *)
Fixpoint lower (s : string) : string :=
  match s with
  | EmptyString => EmptyString
  | String c s' => String (lower_ascii c) (lower s')
  end.

(** ["sep".join(parts)] *)
Fixpoint join (sep : string) (parts : list string) : string :=
  match parts with
  | [] => ""
  | [p] => p
  | p :: ps => p ++ sep ++ join sep ps
  end.

Definition newline : string := String (ascii_of_nat 10) EmptyString.

(** Round half to even. *)
Definition round_half_even (q : Q) : Z :=
  let f := Qfloor q in
  let r := (q - inject_Z f)%Q in
  if Qle_bool r (1 # 2)
  then if Qeq_bool r (1 # 2) then (if Z.even f then f else f + 1)%Z else f
  else (f + 1)%Z.

Fixpoint zero_pad (width : nat) (s : string) : string :=
  match width with
  | O => s
  | S w => if (String.length s <? S w)%nat then zero_pad w ("0" ++ s) else s
  end.

(** [f"{q:.<d>f}"] for [d >= 1]: fixed notation with [d] digits. *)
Definition format_fixed (d : nat) (q : Q) : string :=
  let scale := (10 ^ Z.of_nat d)%Z in
  let n := round_half_even (Qabs q * inject_Z scale)%Q in
  let sign := if Qle_bool 0%Q q then "" else "-" in
  sign ++ pretty (n / scale)%Z ++ "." ++ zero_pad d (pretty (n mod scale)%Z).

Definition py_format_fixed (d : nat) (v : pyval) : result string :=
  match v, as_number v with
  | _, Some x => Ok (format_fixed d x)
  | PStr _, _ =>
      Raise (ValueError "Unknown format code 'f' for object of type 'str'")
  | _, _ =>
      Raise (TypeError ("unsupported format string passed to "
                        ++ type_name v ++ ".__format__"))
  end.

End Py.

Import Py.

(* ===================================================================== *)
(** * The system state machine ([core/state_machine.py])                  *)
(* ===================================================================== *)

Module StateMachine.

Inductive SystemState : Type :=
| INITIALIZING
| IDLE
| CALIBRATING
| EXAMINING
| PROCESSING
| SHOWING_RESULTS
| ERROR
| MAINTENANCE
| SHUTDOWN.

#[global] Instance SystemState_eq_dec : EqDecision SystemState.
Proof. solve_decision. Defined.

(** [auto()] numbers the members from 1. *)
Definition state_value (s : SystemState) : nat :=
  match s with
  | INITIALIZING => 1 | IDLE => 2 | CALIBRATING => 3 | EXAMINING => 4
  | PROCESSING => 5 | SHOWING_RESULTS => 6 | ERROR => 7 | MAINTENANCE => 8
  | SHUTDOWN => 9
  end.

Definition state_of_value (n : nat) : SystemState :=
  match n with
  | 1 => INITIALIZING | 2 => IDLE | 3 => CALIBRATING | 4 => EXAMINING
  | 5 => PROCESSING | 6 => SHOWING_RESULTS | 7 => ERROR | 8 => MAINTENANCE
  | _ => SHUTDOWN
  end%nat.

#[global] Instance SystemState_countable : Countable SystemState.
Proof.
  refine (inj_countable' state_value state_of_value _).
  intros []; reflexivity.
Defined.

(** [__str__]: the member's name. *)
Definition state_name (s : SystemState) : string :=
  match s with
  | INITIALIZING => "INITIALIZING" | IDLE => "IDLE"
  | CALIBRATING => "CALIBRATING" | EXAMINING => "EXAMINING"
  | PROCESSING => "PROCESSING" | SHOWING_RESULTS => "SHOWING_RESULTS"
  | ERROR => "ERROR" | MAINTENANCE => "MAINTENANCE" | SHUTDOWN => "SHUTDOWN"
  end.

Definition is_operational (s : SystemState) : bool :=
  bool_decide (s ∈ [IDLE; EXAMINING; PROCESSING; SHOWING_RESULTS]).

Definition is_busy (s : SystemState) : bool :=
  bool_decide
    (s ∈ [INITIALIZING; CALIBRATING; EXAMINING; PROCESSING; MAINTENANCE;
          SHUTDOWN]).

(** [context: Dict[str, Any] = None] *)
Definition Context : Type := option pyval.

(** [context or {}] *)
Definition context_or_empty (context : Context) : pyval :=
  match context with
  | Some v => if truthy v then v else PDict []
  | None => PDict []
  end.

(** What a call does besides changing the machine's fields: the lines it
    hands to the logger and the registered callbacks it invokes, oldest
    first. *)
Inductive LogLevel : Type := LInfo | LWarning | LError.

Inductive Effect : Type :=
| Logged (level : LogLevel) (msg : string)
| Called (callback : string) (state : SystemState) (context : Context).

(** A registered callback [callback(state, context)]: it is run for its
    effect outside the machine, and may raise. *)
Record Callback : Type := {
  cb_name : string;
  cb_raises : SystemState -> Context -> option pyexn
}.

(** One entry of [state_history]; a key the dictionary does not have is
    [None]. *)
Record HistoryRecord : Type := {
  h_from_state : SystemState;
  h_to_state : SystemState;
  h_timestamp : Q;
  h_context : option Context;
  h_forced : option bool;
  h_reason : option string
}.

Record SystemStateMachine : Type := {
  current_state : SystemState;
  previous_state : option SystemState;
  state_data : gmap string pyval;
  state_history : list HistoryRecord;
  state_enter_callbacks : gmap SystemState (list Callback);
  state_exit_callbacks : gmap SystemState (list Callback);
  state_enter_time : Q;
  effects : list Effect
}.

Definition with_state_data (f : gmap string pyval -> gmap string pyval)
    (m : SystemStateMachine) : SystemStateMachine :=
  {| current_state := current_state m;
     previous_state := previous_state m;
     state_data := f (state_data m);
     state_history := state_history m;
     state_enter_callbacks := state_enter_callbacks m;
     state_exit_callbacks := state_exit_callbacks m;
     state_enter_time := state_enter_time m;
     effects := effects m |}.

Definition emit (e : Effect) (m : SystemStateMachine) : SystemStateMachine :=
  {| current_state := current_state m;
     previous_state := previous_state m;
     state_data := state_data m;
     state_history := state_history m;
     state_enter_callbacks := state_enter_callbacks m;
     state_exit_callbacks := state_exit_callbacks m;
     state_enter_time := state_enter_time m;
     effects := effects m ++ [e] |}.

Definition log (level : LogLevel) (msg : string) : SystemStateMachine -> SystemStateMachine :=
  emit (Logged level msg).

Definition append_history (r : HistoryRecord) (m : SystemStateMachine)
  : SystemStateMachine :=
  {| current_state := current_state m;
     previous_state := previous_state m;
     state_data := state_data m;
     state_history := state_history m ++ [r];
     state_enter_callbacks := state_enter_callbacks m;
     state_exit_callbacks := state_exit_callbacks m;
     state_enter_time := state_enter_time m;
     effects := effects m |}.

(** [previous_state = current_state; current_state = new_state;
    state_enter_time = time.time()] *)
Definition enter (new_state : SystemState) (now : Q) (m : SystemStateMachine)
  : SystemStateMachine :=
  {| current_state := new_state;
     previous_state := Some (current_state m);
     state_data := state_data m;
     state_history := state_history m;
     state_enter_callbacks := state_enter_callbacks m;
     state_exit_callbacks := state_exit_callbacks m;
     state_enter_time := now;
     effects := effects m |}.

(** ** The shared data store *)

Definition set_data (key : string) (value : pyval) : SystemStateMachine -> SystemStateMachine :=
  with_state_data (fun d => <[key := value]> d).

Definition get_data (m : SystemStateMachine) (key : string) (default : pyval)
  : pyval :=
  match state_data m !! key with
  | Some v => v
  | None => default
  end.

Definition clear_data (key : option string) : SystemStateMachine -> SystemStateMachine :=
  with_state_data
    (fun d => match key with
              | None => ∅
              | Some k => delete k d
              end).

(** ** Transition conditions *)

Definition _can_start_examination (m : SystemStateMachine) (context : pyval)
  : result pyval :=
  let sensor_data := get_data m "latest_sensor_data" (PDict []) in
  let* distance_data := py_get sensor_data "distance" (PDict []) in
  let* valid := py_get distance_data "valid" (PBool false) in
  if negb (truthy valid) then Ok (PBool false) else
  let* movement_data := py_get sensor_data "movement" (PDict []) in
  let* detected := py_get movement_data "detected" (PBool true) in
  if truthy detected then Ok (PBool false) else
  let* knob_data := py_get sensor_data "knob" (PDict []) in
  let* mode := py_get knob_data "mode" (PInt (-1)) in
  let* below := py_lt mode (PInt 0) in
  if below then Ok (PBool false) else
  let* above := py_gt mode (PInt 2) in
  if above then Ok (PBool false) else
  Ok (PBool true).

Definition _processing_complete (m : SystemStateMachine) (context : pyval)
  : result pyval :=
  Ok (get_data m "processing_complete" (PBool false)).

Definition _error_resolved (m : SystemStateMachine) (context : pyval)
  : result pyval :=
  Ok (get_data m "error_resolved" (PBool false)).

(** ** Transition actions (none of them can raise) *)

Definition _on_examination_start (now : Q) (m : SystemStateMachine)
    (context : pyval) : SystemStateMachine :=
  let m := log LInfo "Examination started" m in
  let m := set_data "examination_start_time" (PFloat now) m in
  let m := clear_data (Some "processing_complete") m in
  clear_data (Some "examination_results") m.

Definition _on_results_ready (now : Q) (m : SystemStateMachine)
    (context : pyval) : SystemStateMachine :=
  let m := log LInfo "Results ready for display" m in
  set_data "results_display_time" (PFloat now) m.

Definition _on_return_to_idle (now : Q) (m : SystemStateMachine)
    (context : pyval) : SystemStateMachine :=
  let m := log LInfo "Returning to idle state" m in
  let m := clear_data (Some "examination_start_time") m in
  let m := clear_data (Some "results_display_time") m in
  clear_data (Some "processing_complete") m.

Definition _on_error_recovery (now : Q) (m : SystemStateMachine)
    (context : pyval) : SystemStateMachine :=
  let m := log LInfo "Recovering from error state" m in
  let m := clear_data (Some "error_resolved") m in
  clear_data (Some "error_message") m.

(** ** [StateTransition] *)

Record StateTransition : Type := {
  from_state : SystemState;
  to_state : SystemState;
  condition : option (SystemStateMachine -> pyval -> result pyval);
  action : option (Q -> SystemStateMachine -> pyval -> SystemStateMachine);
  timeout : option Q
}.

(** [can_transition]: no condition allows; a condition that raises forbids. *)
Definition can_transition (t : StateTransition) (m : SystemStateMachine)
    (context : Context) : pyval :=
  match condition t with
  | None => PBool true
  | Some c =>
      match c m (context_or_empty context) with
      | Ok v => v
      | Raise _ => PBool false
      end
  end.

Definition execute_action (t : StateTransition) (now : Q)
    (m : SystemStateMachine) (context : Context) : SystemStateMachine :=
  match action t with
  | Some a => a now m (context_or_empty context)
  | None => m
  end.

(** ** The declared graph *)

Definition valid_transitions : list (SystemState * SystemState) :=
  [ (INITIALIZING, IDLE); (INITIALIZING, ERROR);
    (IDLE, CALIBRATING); (IDLE, EXAMINING); (IDLE, MAINTENANCE);
    (IDLE, ERROR); (IDLE, SHUTDOWN);
    (CALIBRATING, IDLE); (CALIBRATING, ERROR);
    (EXAMINING, PROCESSING); (EXAMINING, IDLE); (EXAMINING, ERROR);
    (PROCESSING, SHOWING_RESULTS); (PROCESSING, ERROR);
    (SHOWING_RESULTS, IDLE); (SHOWING_RESULTS, ERROR);
    (ERROR, IDLE); (ERROR, MAINTENANCE); (ERROR, SHUTDOWN);
    (MAINTENANCE, IDLE); (MAINTENANCE, ERROR); (MAINTENANCE, SHUTDOWN);
    (INITIALIZING, SHUTDOWN); (IDLE, SHUTDOWN); (CALIBRATING, SHUTDOWN);
    (EXAMINING, SHUTDOWN); (PROCESSING, SHUTDOWN);
    (SHOWING_RESULTS, SHUTDOWN); (ERROR, SHUTDOWN); (MAINTENANCE, SHUTDOWN) ].

(** The body of the loop of [_setup_transitions] that picks condition,
    action and timeout of an edge. *)
Definition make_transition (from_state to_state : SystemState)
  : StateTransition :=
  let plain c a t :=
    {| from_state := from_state; to_state := to_state;
       condition := c; action := a; timeout := t |} in
  if bool_decide (from_state = IDLE ∧ to_state = EXAMINING) then
    plain (Some _can_start_examination) (Some _on_examination_start) None
  else if bool_decide (from_state = PROCESSING ∧ to_state = SHOWING_RESULTS) then
    plain (Some _processing_complete) (Some _on_results_ready) None
  else if bool_decide (from_state = SHOWING_RESULTS ∧ to_state = IDLE) then
    plain None (Some _on_return_to_idle) (Some 10%Q)
  else if bool_decide (from_state = ERROR ∧ to_state = IDLE) then
    plain (Some _error_resolved) (Some _on_error_recovery) None
  else
    plain None None None.

Definition _setup_transitions : gmap SystemState (list StateTransition) :=
  fold_left
    (fun (ts : gmap SystemState (list StateTransition)) '(from_state, to_state) =>
       let ts := match ts !! from_state with
                 | None => <[from_state := []]> ts
                 | Some _ => ts
                 end in
       alter (fun l => (l ++ [make_transition from_state to_state])%list)
         from_state ts)
    valid_transitions ∅.

(** [self.transitions]: filled once by [__init__], never written again. *)
Definition transitions : gmap SystemState (list StateTransition) :=
  _setup_transitions.

Definition _is_valid_transition (from_state to_state : SystemState) : bool :=
  match transitions !! from_state with
  | None => false
  | Some ts => existsb (fun t => bool_decide (StateMachine.to_state t = to_state)) ts
  end.

Definition _find_transition (from_state to_state : SystemState)
  : option StateTransition :=
  match transitions !! from_state with
  | None => None
  | Some ts => find (fun t => bool_decide (StateMachine.to_state t = to_state)) ts
  end.

(** ** Callbacks *)

Definition register_state_enter_callback (state : SystemState)
    (callback : Callback) (m : SystemStateMachine) : SystemStateMachine :=
  {| current_state := current_state m;
     previous_state := previous_state m;
     state_data := state_data m;
     state_history := state_history m;
     state_enter_callbacks :=
       <[state := (default [] (state_enter_callbacks m !! state)
                   ++ [callback])%list]> (state_enter_callbacks m);
     state_exit_callbacks := state_exit_callbacks m;
     state_enter_time := state_enter_time m;
     effects := effects m |}.

Definition register_state_exit_callback (state : SystemState)
    (callback : Callback) (m : SystemStateMachine) : SystemStateMachine :=
  {| current_state := current_state m;
     previous_state := previous_state m;
     state_data := state_data m;
     state_history := state_history m;
     state_enter_callbacks := state_enter_callbacks m;
     state_exit_callbacks :=
       <[state := (default [] (state_exit_callbacks m !! state)
                   ++ [callback])%list]> (state_exit_callbacks m);
     state_enter_time := state_enter_time m;
     effects := effects m |}.

(** One [try: callback(state, context) except Exception as e: log]. *)
Definition run_callback (what : string) (state : SystemState)
    (context : Context) (m : SystemStateMachine) (cb : Callback)
  : SystemStateMachine :=
  let m := emit (Called (cb_name cb) state context) m in
  match cb_raises cb state context with
  | Some e => log LError ("Error in state " ++ what ++ " callback: " ++ exn_str e) m
  | None => m
  end.

Definition _execute_state_enter_callbacks (state : SystemState)
    (context : Context) (m : SystemStateMachine) : SystemStateMachine :=
  match state_enter_callbacks m !! state with
  | Some cbs => fold_left (run_callback "enter" state context) cbs m
  | None => m
  end.

Definition _execute_state_exit_callbacks (state : SystemState)
    (context : Context) (m : SystemStateMachine) : SystemStateMachine :=
  match state_exit_callbacks m !! state with
  | Some cbs => fold_left (run_callback "exit" state context) cbs m
  | None => m
  end.

(** ** Operations *)

(** [__init__] *)
Definition init (now : Q) : SystemStateMachine :=
  log LInfo "State machine initialized"
    {| current_state := INITIALIZING;
       previous_state := None;
       state_data := ∅;
       state_history := [];
       state_enter_callbacks := ∅;
       state_exit_callbacks := ∅;
       state_enter_time := now;
       effects := [] |}.

Definition transition_to (m : SystemStateMachine) (new_state : SystemState)
    (context : Context) (now : Q) : bool * SystemStateMachine :=
  if negb (_is_valid_transition (current_state m) new_state) then
    (false,
     log LWarning ("Invalid transition from " ++ state_name (current_state m)
                   ++ " to " ++ state_name new_state) m)
  else
    match _find_transition (current_state m) new_state with
    | None =>
        (false,
         log LError ("No transition found from " ++ state_name (current_state m)
                     ++ " to " ++ state_name new_state) m)
    | Some transition =>
        if negb (truthy (can_transition transition m context)) then
          (false,
           log LWarning ("Transition condition failed for "
                         ++ state_name (current_state m) ++ " -> "
                         ++ state_name new_state) m)
        else
          let old_state := current_state m in
          let m := _execute_state_exit_callbacks old_state context m in
          let m := append_history
                     {| h_from_state := old_state;
                        h_to_state := new_state;
                        h_timestamp := now;
                        h_context := Some context;
                        h_forced := None;
                        h_reason := None |} m in
          let m := enter new_state now m in
          let m := execute_action transition now m context in
          let m := _execute_state_enter_callbacks new_state context m in
          let m := log LInfo ("State transition: " ++ state_name old_state
                              ++ " -> " ++ state_name new_state) m in
          (true, m)
    end.

(** [transition.timeout and time_in_state >= transition.timeout and
    transition.can_transition()] *)
Definition timeout_due (t : StateTransition) (m : SystemStateMachine)
    (time_in_state : Q) : bool :=
  match timeout t with
  | None => false
  | Some limit =>
      negb (Qeq_bool limit 0) && Qle_bool limit time_in_state
      && truthy (can_transition t m None)
  end.

(** The [for ... break] of [process] over the edges of the current state. *)
Fixpoint process_scan (ts : list StateTransition) (m : SystemStateMachine)
    (time_in_state now : Q) : SystemStateMachine :=
  match ts with
  | [] => m
  | t :: rest =>
      if timeout_due t m time_in_state then
        let m := log LInfo ("Automatic transition due to timeout: "
                            ++ state_name (current_state m) ++ " -> "
                            ++ state_name (to_state t)) m in
        snd (transition_to m (to_state t) None now)
      else process_scan rest m time_in_state now
  end.

Definition process (m : SystemStateMachine) (now : Q) : SystemStateMachine :=
  let time_in_state := fsub now (state_enter_time m) in
  match transitions !! current_state m with
  | Some ts => process_scan ts m time_in_state now
  | None => m
  end.

Definition get_valid_transitions (m : SystemStateMachine) : list SystemState :=
  match transitions !! current_state m with
  | None => []
  | Some ts =>
      map to_state (filter (fun t => truthy (can_transition t m None) = true) ts)
  end.

Definition get_time_in_state (m : SystemStateMachine) (now : Q) : Q :=
  fsub now (state_enter_time m).

Definition force_state (m : SystemStateMachine) (new_state : SystemState)
    (reason : string) (now : Q) : SystemStateMachine :=
  let m := log LWarning ("Forced state transition to " ++ state_name new_state
                         ++ ": " ++ reason) m in
  let m := append_history
             {| h_from_state := current_state m;
                h_to_state := new_state;
                h_timestamp := now;
                h_context := None;
                h_forced := Some true;
                h_reason := Some reason |} m in
  enter new_state now m.

Definition reset (m : SystemStateMachine) (now : Q) : SystemStateMachine :=
  let m := log LInfo "Resetting state machine" m in
  {| current_state := INITIALIZING;
     previous_state := None;
     state_data := ∅;
     state_history := [];
     state_enter_callbacks := state_enter_callbacks m;
     state_exit_callbacks := state_exit_callbacks m;
     state_enter_time := now;
     effects := effects m |}.

(** ** The history, read back *)

(** [l[start:]] *)
Definition slice_from {A} (start : Z) (l : list A) : list A :=
  let n := Z.of_nat (length l) in
  let first := if (start <? 0)%Z then Z.max (start + n) 0 else Z.min start n in
  drop (Z.to_nat first) l.

(** [self.state_history[-limit:] if self.state_history else []] *)
Definition get_state_history (m : SystemStateMachine) (limit : Z)
  : list HistoryRecord :=
  match state_history m with
  | [] => []
  | _ => slice_from (- limit) (state_history m)
  end.

End StateMachine.

Import StateMachine.

(* ===================================================================== *)
(** * The triage decision engine ([triage/decision_engine.py])            *)
(* ===================================================================== *)

Module Triage.

(** The engine reads its configuration and its arguments and returns a
    dictionary; the lines it logs on the way are left out. *)

(** ** What the engine borrows from Python and NumPy *)

(** Drops the zeros that end the reversed digits, keeping one after the
    point. *)
Fixpoint strip_zeros_rev (s : list ascii) : list ascii :=
  match s with
  | c :: (c' :: _) as rest =>
      if Ascii.eqb c "0" && negb (Ascii.eqb c' ".")
      then strip_zeros_rev rest else s
  | _ => s
  end.

(** [repr] of a float: its decimal digits, at most 17 after the point (the
    shortest digits that Python picks for a binary64 are not modelled). *)
Definition float_repr (q : Q) : string :=
  let s := format_fixed 17 q in
  string_of_list_ascii (rev (strip_zeros_rev (rev (list_ascii_of_string s)))).

Fixpoint py_repr (v : pyval) : string :=
  match v with
  | PNone => "None"
  | PBool b => if b then "True" else "False"
  | PInt z => pretty z
  | PFloat q => float_repr q
  | PStr s => "'" ++ s ++ "'"
  | PList l => "[" ++ join ", " (map py_repr l) ++ "]"
  | PDict d =>
      "{" ++ join ", " (map (fun kv => "'" ++ fst kv ++ "': " ++ py_repr (snd kv)) d)
      ++ "}"
  end.

(** [str(v)], as an f-string field prints it. *)
Definition py_str (v : pyval) : string :=
  match v with
  | PStr s => s
  | _ => py_repr v
  end.

(** [v != 'text'] *)
Definition differs_from_str (v : pyval) (text : string) : bool :=
  match v with
  | PStr s => negb (String.eqb s text)
  | _ => true
  end.

(** [np.sqrt], truncated to 52 binary digits after the point (NumPy rounds
    to the nearest binary64). *)
Definition np_sqrt (q : Q) : Q :=
  if Qle_bool q 0 then 0%Q
  else Qred (Z.sqrt (Qfloor (q * inject_Z (2 ^ 104))%Q) # 2 ^ 52).

Definition fsum (xs : list Q) : Q := fold_left fadd xs 0%Q.

(** [np.mean] and [np.std] of a non-empty list. *)
Definition np_mean (xs : list Q) : Q :=
  fdiv (fsum xs) (inject_Z (Z.of_nat (length xs))).

Definition np_std (xs : list Q) : Q :=
  let mu := np_mean xs in
  np_sqrt (np_mean (map (fun x => fmul (fsub x mu) (fsub x mu)) xs)).

Definition fmin (a b : Q) : Q := if Qle_bool b a then b else a.

(** ** The engine *)

Record TriageDecisionEngine : Type := {
  thresholds : gmap string Q;
  fusion_weights : gmap string Q;
  risk_factors : gmap string pyval
}.

Definition default_thresholds : gmap string Q :=
  list_to_map
    [ ("ml_confidence", 7 # 10); ("temperature_fever", 38 # 1);
      ("heart_rate_high", 100 # 1); ("heart_rate_low", 50 # 1);
      ("respiratory_rate_high", 25 # 1); ("respiratory_rate_low", 10 # 1) ]%Q.

Definition default_fusion_weights : gmap string Q :=
  list_to_map
    [ ("ml_prediction", 1 # 2); ("audio_analysis", 3 # 10);
      ("vital_signs", 1 # 5) ]%Q.

(** [given or default]: [None] and the empty dictionary are falsy. *)
Definition or_default {V} (given : option (gmap string V))
    (fallback : gmap string V) : gmap string V :=
  match given with
  | Some d => if bool_decide (dom d = ∅) then fallback else d
  | None => fallback
  end.

(** [__init__] *)
Definition init (thresholds fusion_weights : option (gmap string Q))
    (risk_factors : option (gmap string pyval)) : TriageDecisionEngine :=
  {| thresholds := or_default thresholds default_thresholds;
     fusion_weights := or_default fusion_weights default_fusion_weights;
     risk_factors := or_default risk_factors ∅ |}.

Definition default_engine : TriageDecisionEngine := init None None None.

(** The dictionary each [_analyze_*] returns. *)
Record Analysis : Type := {
  score : Q;
  factors : list string;
  recommendations : list string
}.

Definition _analyze_heart_prediction (self : TriageDecisionEngine)
    (heart_result : pyval) : result Analysis :=
  let* predicted_class := py_get heart_result "predicted_class" (PStr "Normal") in
  let* confidence := py_get heart_result "confidence" (PFloat 0) in
  if differs_from_str predicted_class "Normal" then
    let* risk_score := py_float_mul (8 # 10) confidence in
    Ok {| score := risk_score;
          factors := ["Abnormal heart sound detected"];
          recommendations :=
            [ "Cardiac evaluation by physician recommended";
              "Consider ECG and echocardiography";
              "Monitor for symptoms: chest pain, palpitations, shortness of breath" ] |}
  else
    let* limit := py_index (thresholds self) "ml_confidence" in
    let* low := py_lt confidence (PFloat limit) in
    if low then
      let* shown := py_format_fixed 2 confidence in
      Ok {| score := 3 # 10;
            factors := ["Low confidence in normal classification (" ++ shown ++ ")"];
            recommendations := [] |}
    else
      Ok {| score := 1 # 10; factors := []; recommendations := [] |}.

Definition _analyze_lung_prediction (self : TriageDecisionEngine)
    (lung_result : pyval) : result Analysis :=
  let* predicted_class := py_get lung_result "predicted_class" (PStr "Normal") in
  let* confidence := py_get lung_result "confidence" (PFloat 0) in
  if differs_from_str predicted_class "Normal" then
    let* risk_score := py_float_mul (7 # 10) confidence in
    let found := ["Abnormal lung sound detected: " ++ py_str predicted_class] in
    if negb (differs_from_str predicted_class "Wheeze") then
      Ok {| score := risk_score; factors := found;
            recommendations :=
              [ "Possible asthma or bronchospasm";
                "Consider bronchodilator therapy";
                "Pulmonary function testing if persistent" ] |}
    else if negb (differs_from_str predicted_class "Crackle") then
      Ok {| score := risk_score; factors := found;
            recommendations :=
              [ "Possible pneumonia or pulmonary edema";
                "Chest X-ray recommended";
                "Monitor for fever and respiratory distress" ] |}
    else if negb (differs_from_str predicted_class "Both") then
      let* risk_score := py_float_mul (9 # 10) confidence in
      Ok {| score := risk_score; factors := found;
            recommendations :=
              [ "Multiple abnormalities detected";
                "Urgent pulmonary evaluation recommended" ] |}
    else
      Ok {| score := risk_score; factors := found; recommendations := [] |}
  else
    let* limit := py_index (thresholds self) "ml_confidence" in
    let* low := py_lt confidence (PFloat limit) in
    if low then
      let* shown := py_format_fixed 2 confidence in
      Ok {| score := 3 # 10;
            factors := ["Low confidence in normal classification (" ++ shown ++ ")"];
            recommendations := [] |}
    else
      Ok {| score := 1 # 10; factors := []; recommendations := [] |}.

(** [factors.append(factor); recommendations.append(recommendation)] *)
Definition noting (a : Analysis) (factor recommendation : string) : Analysis :=
  {| score := score a;
     factors := factors a ++ [factor];
     recommendations := recommendations a ++ [recommendation] |}.

(** [risk_score += extra] *)
Definition raised (extra : Q) (a : Analysis) : Analysis :=
  {| score := fadd (score a) extra;
     factors := factors a;
     recommendations := recommendations a |}.

Definition _analyze_vital_signs (self : TriageDecisionEngine)
    (sensor_data : pyval) : result Analysis :=
  let a := {| score := 0; factors := []; recommendations := [] |} in
  let* temp_data := py_get sensor_data "temperature" (PDict []) in
  let* valid := py_get temp_data "valid" PNone in
  let* a :=
    if truthy valid then
      let* temp_celsius := py_get temp_data "celsius" (PInt 0) in
      let* fever_limit := py_index (thresholds self) "temperature_fever" in
      let* fever := py_ge temp_celsius (PFloat fever_limit) in
      if fever then
        let* shown := py_format_fixed 1 temp_celsius in
        Ok (noting (raised (3 # 10) a) ("Fever detected: " ++ shown ++ "°C")
              "Fever management and infection workup")
      else
        let* cold := py_lt temp_celsius (PFloat 35) in
        if cold then
          let* shown := py_format_fixed 1 temp_celsius in
          Ok (noting (raised (2 # 10) a)
                ("Hypothermia detected: " ++ shown ++ "°C")
                "Warming measures and evaluation")
        else Ok a
    else Ok a in
  let* movement_data := py_get sensor_data "movement" (PDict []) in
  let* detected := py_get movement_data "detected" PNone in
  let a :=
    if truthy detected then
      noting a "Patient movement detected during examination"
        "Repeat examination when patient is stable"
    else a in
  let* distance_data := py_get sensor_data "distance" (PDict []) in
  let* in_range := py_get distance_data "in_range" PNone in
  let a :=
    if negb (truthy in_range) then
      noting a "Suboptimal stethoscope placement"
        "Ensure proper contact for accurate assessment"
    else a in
  Ok a.

Definition _calculate_overall_risk (self : TriageDecisionEngine)
    (risk_scores : list (string * Q)) : result Q :=
  match risk_scores with
  | [] => Ok 0%Q
  | _ =>
      let* sums :=
        fold_left
          (fun (acc : result (Q * Q)) '(component, score) =>
             let* acc := acc in
             let* weight :=
               if contains "ml" component then
                 py_index (fusion_weights self) "ml_prediction"
               else if contains "vital" component then
                 py_index (fusion_weights self) "vital_signs"
               else
                 py_index (fusion_weights self) "audio_analysis" in
             Ok (fadd (fst acc) (fmul score weight), fadd (snd acc) weight))
          risk_scores (Ok (0%Q, 0%Q)) in
      let weighted_sum := fst sums in
      let total_weight := snd sums in
      if Qeq_bool total_weight 0 then Ok 0%Q
      else Ok (fdiv weighted_sum total_weight)
  end.

Definition _determine_risk_level (risk_score : Q) : string :=
  if Qle_bool (7 # 10) risk_score then "HIGH"
  else if Qle_bool (4 # 10) risk_score then "MEDIUM"
  else "LOW".

Definition urgent_keywords : list string := ["fever"; "both"; "multiple"; "urgent"].

Definition _determine_urgency (risk_level : string) (risk_factors : list string)
  : string :=
  if String.eqb risk_level "HIGH" then "URGENT"
  else if String.eqb risk_level "MEDIUM" then
    if existsb
         (fun factor => existsb (fun keyword => contains keyword (lower factor))
                          urgent_keywords)
         risk_factors
    then "URGENT" else "ROUTINE"
  else "NON-URGENT".

Definition _calculate_decision_confidence (risk_scores : list (string * Q)) : Q :=
  match risk_scores with
  | [] => 0%Q
  | _ =>
      let scores := map snd risk_scores in
      let mean_score := np_mean scores in
      let std_score := np_std scores in
      fsub 1 (fmin (fdiv std_score (fadd mean_score (1 # 10))) 1)
  end.

Definition _generate_explanation (risk_level : string)
    (risk_scores : list (string * Q)) (risk_factors : list string) : string :=
  let headline :=
    if String.eqb risk_level "HIGH" then
      "HIGH RISK: Significant abnormalities detected."
    else if String.eqb risk_level "MEDIUM" then
      "MEDIUM RISK: Some abnormalities detected."
    else "LOW RISK: No significant abnormalities detected." in
  let findings :=
    match risk_factors with
    | [] => []
    | _ => (newline ++ "Key findings:")
           :: map (fun factor => "  • " ++ factor) (firstn 5 risk_factors)
    end in
  let breakdown :=
    match risk_scores with
    | [] => []
    | _ => (newline ++ "Risk assessment:")
           :: map (fun '(component, score) =>
                     "  • " ++ component ++ ": " ++ format_fixed 2 score)
                risk_scores
    end in
  join newline ([headline] ++ findings ++ breakdown)%list.

(** The three accumulators of [make_decision]. *)
Record Evidence : Type := {
  risk_scores : list (string * Q);
  collected_factors : list string;
  collected_recommendations : list string
}.

Definition no_evidence : Evidence :=
  {| risk_scores := []; collected_factors := []; collected_recommendations := [] |}.

Definition add_evidence (component : string) (a : Analysis) (ev : Evidence)
  : Evidence :=
  {| risk_scores := dict_set (risk_scores ev) component (score a);
     collected_factors := collected_factors ev ++ factors a;
     collected_recommendations := collected_recommendations ev ++ recommendations a |}.

(** [if r and r.get('success'): ...] *)
Definition when_successful (r : pyval) (analyze : pyval -> result Analysis)
    (component : string) (ev : Evidence) : result Evidence :=
  if truthy r then
    let* success := py_get r "success" PNone in
    if truthy success then
      let* a := analyze r in Ok (add_evidence component a ev)
    else Ok ev
  else Ok ev.

(** The [try] block of [make_decision]; [timestamp] is
    [datetime.now().isoformat()]. An absent argument is [PNone]. *)
Definition make_decision_try (self : TriageDecisionEngine) (timestamp : string)
    (heart_result lung_result sensor_data examination_data : pyval)
  : result (list (string * pyval)) :=
  let ev := no_evidence in
  let* ev := when_successful heart_result (_analyze_heart_prediction self)
               "heart_ml" ev in
  let* ev := when_successful lung_result (_analyze_lung_prediction self)
               "lung_ml" ev in
  let* ev :=
    if truthy sensor_data then
      let* a := _analyze_vital_signs self sensor_data in
      Ok (add_evidence "vital_signs" a ev)
    else Ok ev in
  let* overall_risk_score := _calculate_overall_risk self (risk_scores ev) in
  let risk_level := _determine_risk_level overall_risk_score in
  let explanation :=
    _generate_explanation risk_level (risk_scores ev) (collected_factors ev) in
  Ok [ ("timestamp", PStr timestamp);
       ("risk_level", PStr risk_level);
       ("risk_score", PFloat overall_risk_score);
       ("risk_scores_breakdown",
        PDict (map (fun '(k, v) => (k, PFloat v)) (risk_scores ev)));
       ("risk_factors", PList (map PStr (collected_factors ev)));
       ("recommendations", PList (map PStr (collected_recommendations ev)));
       ("explanation", PStr explanation);
       ("requires_referral",
        PBool (bool_decide (risk_level ∈ ["MEDIUM"; "HIGH"])));
       ("urgency", PStr (_determine_urgency risk_level (collected_factors ev)));
       ("confidence", PFloat (_calculate_decision_confidence (risk_scores ev))) ].

(** [make_decision]: the [try] block, and its [except Exception] handler. *)
Definition make_decision (self : TriageDecisionEngine) (timestamp : string)
    (heart_result lung_result sensor_data examination_data : pyval)
  : list (string * pyval) :=
  match make_decision_try self timestamp heart_result lung_result sensor_data
          examination_data with
  | Ok decision => decision
  | Raise e =>
      [ ("error", PStr (exn_str e));
        ("risk_level", PStr "UNKNOWN");
        ("requires_referral", PBool true) ]
  end.

End Triage.

Import Triage.

(* ===================================================================== *)
(** * The fusion step in binary64 ([triage/decision_engine.py])           *)
(* ===================================================================== *)

Module Binary64.

(** [_calculate_overall_risk] on Python's own floats: binary64, each
    operation rounded to nearest, ties to even. A weight given as an [int]
    is the float Python converts it to. *)
Definition _calculate_overall_risk (fusion_weights : gmap string float)
    (risk_scores : list (string * float)) : result float :=
  match risk_scores with
  | [] => Ok 0%float
  | _ =>
      let* sums :=
        fold_left
          (fun (acc : result (float * float)) '(component, score) =>
             let* acc := acc in
             let* weight :=
               if contains "ml" component then
                 py_index fusion_weights "ml_prediction"
               else if contains "vital" component then
                 py_index fusion_weights "vital_signs"
               else
                 py_index fusion_weights "audio_analysis" in
             Ok (fst acc + score * weight, snd acc + weight)%float)
          risk_scores (Ok (0, 0)%float) in
      let weighted_sum := fst sums in
      let total_weight := snd sums in
      if (total_weight =? 0)%float then Ok 0%float
      else Ok (weighted_sum / total_weight)%float
  end.

(** The default [fusion_weights] of [__init__]. *)
Definition default_fusion_weights : gmap string float :=
  {[ "ml_prediction" := 0.5%float;
     "audio_analysis" := 0.3%float;
     "vital_signs" := 0.2%float ]}.

End Binary64.

(* ===================================================================== *)
(** * Stopping an examination ([core/system_manager.py])                  *)
(* ===================================================================== *)

Module Manager.

(** [int(x)]: towards zero. *)
Definition py_int (q : Q) : Z :=
  if Qle_bool 0 q then Qfloor q else Qceiling q.

(** [AudioCapture], as far as [stop_capture] looks at it. *)
Record AudioCapture : Type := {
  capturing : bool
}.

(** [SerialManager]: the unbounded queue [send_message] puts on. *)
Record SerialManager : Type := {
  send_queue : list pyval
}.

Record SystemManager : Type := {
  state_machine : SystemStateMachine;
  serial_manager : option SerialManager;
  audio_capture : option AudioCapture;
  logged : list (LogLevel * string)
}.

Definition with_state_machine (m : SystemStateMachine) (sm : SystemManager)
  : SystemManager :=
  {| state_machine := m;
     serial_manager := serial_manager sm;
     audio_capture := audio_capture sm;
     logged := logged sm |}.

Definition manager_log (level : LogLevel) (msg : string) (sm : SystemManager)
  : SystemManager :=
  {| state_machine := state_machine sm;
     serial_manager := serial_manager sm;
     audio_capture := audio_capture sm;
     logged := logged sm ++ [(level, msg)] |}.

(** [if self.serial_manager: await self.serial_manager.send_message(message)];
    [send_message] catches what [put] could raise. *)
Definition send_message (message : pyval) (sm : SystemManager) : SystemManager :=
  match serial_manager sm with
  | Some link =>
      {| state_machine := state_machine sm;
         serial_manager := Some {| send_queue := send_queue link ++ [message] |};
         audio_capture := audio_capture sm;
         logged := logged sm |}
  | None => sm
  end.

Definition stop_command (now : Q) : pyval :=
  PDict
    [ ("timestamp", PInt (py_int (fmul now 1000)));
      ("message_type", PStr "control_command");
      ("commands",
       PDict
         [ ("led", PDict [("state", PStr "OFF")]);
           ("servo1", PDict [("angle", PInt 90); ("speed", PStr "normal")]);
           ("buzzer", PDict [("state", PStr "ON"); ("frequency", PInt 500);
                             ("duration", PInt 300)]) ]) ].

Section StopExamination.

(** What [AudioCapture.stop_capture] does when a capture is running: it
    stops the audio device and hands the recording to the completion
    callback, which starts the processing pipeline. Those layers are left
    open here; like [stop_capture] itself, they catch their exceptions. *)
Variable stop_running_capture : SystemManager -> SystemManager.

(** [if self.audio_capture: await self.audio_capture.stop_capture()] *)
Definition stop_capture (sm : SystemManager) : SystemManager :=
  match audio_capture sm with
  | Some capture =>
      if negb (capturing capture) then sm else stop_running_capture sm
  | None => sm
  end.

(** [stop_examination]: nothing in its [try] block raises, so the handler
    that answers [{'success': False, ...}] is never entered. *)
Definition stop_examination (sm : SystemManager) (now : Q)
  : pyval * SystemManager :=
  let sm := manager_log LInfo "Stopping examination" sm in
  let sm := stop_capture sm in
  let sm := send_message (stop_command now) sm in
  let sm := with_state_machine
              (snd (transition_to (state_machine sm) IDLE None now)) sm in
  let sm := manager_log LInfo "Examination stopped successfully" sm in
  (PDict [("success", PBool true)], sm).

End StopExamination.

End Manager.

Import Manager.

(* ===================================================================== *)
(** * The examination controller ([core/system_manager.py])               *)
(* ===================================================================== *)

Module Controller.

(** The methods of [SystemManager] around one examination. A method is
    modelled as it runs when it is not cancelled and no other thread acts
    between two of its steps; what the other tasks and threads do while it
    is suspended in [asyncio.sleep] is the parameter [meanwhile]. The audio
    hardware and the classifiers are parameters as well. *)

(** [v[k]] *)
Definition py_item (v : pyval) (k : string) : result pyval :=
  match v with
  | PDict d =>
      match dict_get d k with
      | Some x => Ok x
      | None => Raise (KeyError ("'" ++ k ++ "'"))
      end
  | PStr _ => Raise (TypeError "string indices must be integers, not 'str'")
  | PList _ => Raise (TypeError "list indices must be integers or slices, not str")
  | _ => Raise (TypeError ("'" ++ type_name v ++ "' object is not subscriptable"))
  end.

(** [v == 'text'] *)
Definition is_str (v : pyval) (text : string) : bool :=
  negb (differs_from_str v text).

(** [a == b] *)
Fixpoint py_eq (a b : pyval) {struct a} : bool :=
  match a, b with
  | PNone, PNone => true
  | PStr s, PStr s' => String.eqb s s'
  | PList l, PList l' =>
      (fix items (l l' : list pyval) {struct l} : bool :=
         match l, l' with
         | [], [] => true
         | x :: l, y :: l' => py_eq x y && items l l'
         | _, _ => false
         end) l l'
  | PDict d, PDict d' =>
      (length d =? length d')%nat &&
      (fix entries (d : list (string * pyval)) {struct d} : bool :=
         match d with
         | [] => true
         | kv :: d =>
             match dict_get d' (fst kv) with
             | Some v' => py_eq (snd kv) v'
             | None => false
             end && entries d
         end) d
  | _, _ =>
      match as_number a, as_number b with
      | Some x, Some y => Qeq_bool x y
      | _, _ => false
      end
  end.

(** [a != b] *)
Definition py_ne (a b : pyval) : bool := negb (py_eq a b).

(** A handler registered for an event: run for its effect, may raise. *)
Record Handler : Type := {
  handler_name : string;
  handler_raises : pyval -> option pyexn
}.

(** What the controller sets off besides its own state. *)
Inductive Happening : Type :=
| Handled (handler event_type : string) (data : pyval)
| Spawned (task : string) (argument : pyval).

(** [performance_stats]; the two counts start at 0 and are only added to. *)
Record Stats : Type := {
  total_examinations : N;
  successful_examinations : N;
  average_inference_time : Q;
  system_uptime : Q
}.

Record Station : Type := {
  manager : SystemManager;
  config : pyval;
  audio_enabled : bool;
  triage_engine : option TriageDecisionEngine;
  event_handlers : gmap string (list Handler);
  performance_stats : Stats;
  clock : Q;
  happened : list Happening
}.

Definition with_manager (f : SystemManager -> SystemManager) (st : Station)
  : Station :=
  {| manager := f (manager st);
     config := config st;
     audio_enabled := audio_enabled st;
     triage_engine := triage_engine st;
     event_handlers := event_handlers st;
     performance_stats := performance_stats st;
     clock := clock st;
     happened := happened st |}.

Definition with_machine (f : SystemStateMachine -> SystemStateMachine)
  : Station -> Station :=
  with_manager (fun sm => with_state_machine (f (state_machine sm)) sm).

Definition happen (h : Happening) (st : Station) : Station :=
  {| manager := manager st;
     config := config st;
     audio_enabled := audio_enabled st;
     triage_engine := triage_engine st;
     event_handlers := event_handlers st;
     performance_stats := performance_stats st;
     clock := clock st;
     happened := happened st ++ [h] |}.

Definition with_stats (s : Stats) (st : Station) : Station :=
  {| manager := manager st;
     config := config st;
     audio_enabled := audio_enabled st;
     triage_engine := triage_engine st;
     event_handlers := event_handlers st;
     performance_stats := s;
     clock := clock st;
     happened := happened st |}.

Definition with_clock (t : Q) (st : Station) : Station :=
  {| manager := manager st;
     config := config st;
     audio_enabled := audio_enabled st;
     triage_engine := triage_engine st;
     event_handlers := event_handlers st;
     performance_stats := performance_stats st;
     clock := t;
     happened := happened st |}.

Definition machine (st : Station) : SystemStateMachine :=
  state_machine (manager st).

(** [self.logger.<level>(msg)] *)
Definition note (level : LogLevel) (msg : string) : Station -> Station :=
  with_manager (manager_log level msg).

(** [if self.serial_manager: await self.serial_manager.send_message(message)] *)
Definition send (message : pyval) : Station -> Station :=
  with_manager (send_message message).

(** [{'timestamp': int(time.time() * 1000), 'message_type':
    'control_command', 'commands': commands}] *)
Definition control_command (now : Q) (commands : list (string * pyval)) : pyval :=
  PDict [ ("timestamp", PInt (py_int (fmul now 1000)));
          ("message_type", PStr "control_command");
          ("commands", PDict commands) ].

(** ** Computations that change the station and may raise *)

Definition Run (A : Type) : Type := Station -> result A * Station.

Definition ret {A} (a : A) : Run A := fun st => (Ok a, st).

Definition lift {A} (r : result A) : Run A := fun st => (r, st).

Definition step (f : Station -> Station) : Run unit := fun st => (Ok tt, f st).

Definition then_ {A B} (c : Run A) (k : A -> Run B) : Run B :=
  fun st =>
    match c st with
    | (Ok a, st') => k a st'
    | (Raise e, st') => (Raise e, st')
    end.

(** [try: body except Exception as e: handler(e)] *)
Definition try_except {A} (body : Run A) (handler : pyexn -> Run A) : Run A :=
  fun st =>
    match body st with
    | (Ok a, st') => (Ok a, st')
    | (Raise e, st') => handler e st'
    end.

Notation "'do' x <- c ; k" := (then_ c (fun x => k))
  (at level 10, x name, c at level 100, k at level 200).
Notation "c ;; k" := (then_ c (fun _ => k))
  (at level 100, k at level 200, right associativity).

(** [self.state_machine.transition_to(new_state)] *)
Definition request (new_state : SystemState) : Run bool :=
  fun st =>
    let r := transition_to (machine st) new_state None (clock st) in
    (Ok (fst r), with_machine (fun _ => snd r) st).

(** ** Events and sensor messages *)

Definition run_handler (event_type : string) (data : pyval) (st : Station)
    (h : Handler) : Station :=
  let st := happen (Handled (handler_name h) event_type data) st in
  match handler_raises h data with
  | Some e => note LError ("Error in event handler for " ++ event_type ++ ": "
                           ++ exn_str e) st
  | None => st
  end.

Definition _emit_event (event_type : string) (data : pyval) (st : Station)
  : Station :=
  match event_handlers st !! event_type with
  | Some handlers => fold_left (run_handler event_type data) handlers st
  | None => st
  end.

(** The [try] block of [_handle_sensor_data]. *)
Definition handle_sensor_data_try (message : pyval) : Run unit :=
  do sensor_data <- lift (py_get message "data" (PDict []));
  step (with_machine (set_data "latest_sensor_data" sensor_data));;
  fun st =>
    match current_state (machine st) with
    | IDLE =>
        (do knob_data <- lift (py_get sensor_data "knob" (PDict []));
         do mode <- lift (py_get knob_data "mode" PNone);
         fun st =>
           if py_ne mode (get_data (machine st) "last_knob_mode" (PInt (-1))) then
             (step (with_machine (set_data "last_knob_mode" mode));;
              step (_emit_event "knob_changed" knob_data)) st
           else ret tt st) st
    | EXAMINING =>
        (do movement_data <- lift (py_get sensor_data "movement" (PDict []));
         do detected <- lift (py_get movement_data "detected" (PBool false));
         (if truthy detected
          then step (_emit_event "movement_detected" movement_data)
          else ret tt);;
         do distance_data <- lift (py_get sensor_data "distance" (PDict []));
         do in_range <- lift (py_get distance_data "in_range" (PBool true));
         if negb (truthy in_range)
         then step (_emit_event "distance_out_of_range" distance_data)
         else ret tt) st
    | _ => ret tt st
    end.

Definition _handle_sensor_data (message : pyval) (st : Station) : Station :=
  snd (try_except (handle_sensor_data_try message)
         (fun e => step (note LError ("Error handling sensor data: " ++ exn_str e)))
         st).

(** ** Returning to idle *)

Definition reset_command (now : Q) : pyval :=
  control_command now
    [ ("servo1", PDict [("angle", PInt 90); ("speed", PStr "normal")]);
      ("servo2", PDict [("angle", PInt 90); ("speed", PStr "normal")]);
      ("led", PDict [("state", PStr "OFF")]);
      ("relay", PDict [("state", PStr "OFF")]) ].

(** [_return_to_idle]: nothing in its [try] block raises. *)
Definition _return_to_idle (st : Station) : Station :=
  let st := send (reset_command (clock st)) st in
  let st := with_machine (clear_data (Some "current_examination")) st in
  let st := with_machine (clear_data (Some "examination_results")) st in
  let st := snd (request IDLE st) in
  note LInfo "System returned to idle state" st.

(** ** Starting an examination *)

Definition start_command (now : Q) : pyval :=
  control_command now
    [ ("led", PDict [("state", PStr "ON"); ("pattern", PStr "solid")]);
      ("servo1", PDict [("angle", PInt 0); ("speed", PStr "normal")]);
      ("buzzer", PDict [("state", PStr "ON"); ("frequency", PInt 1000);
                        ("duration", PInt 200)]);
      ("display", PDict [("text", PStr "SCANNING...")]) ].

(** [self.config.get(section, {}).get(key, default)] *)
Definition config_get (st : Station) (section key : string) (default : pyval)
  : result pyval :=
  let* s := py_get (config st) section (PDict []) in
  py_get s key default.

(** The statistics kept at the end of [_process_captured_audio]. *)
Definition record_examination (inference_time : Q) (s : Stats) : Stats :=
  let total := (total_examinations s + 1)%N in
  {| total_examinations := total;
     successful_examinations := (successful_examinations s + 1)%N;
     average_inference_time :=
       fdiv (fadd (fmul (average_inference_time s) (inject_Z (Z.of_N total - 1)))
               inference_time)
         (inject_Z (Z.of_N total));
     system_uptime := system_uptime s |}.

(** The positions and sounds of [_display_results]:
    (angle, frequency, duration, beeps). *)
Definition display_pattern (risk_level : pyval) : Z * Z * Z * nat :=
  if is_str risk_level "LOW" then (45, 1000, 200, 1%nat)%Z
  else if is_str risk_level "MEDIUM" then (90, 1500, 300, 2%nat)%Z
  else (135, 2000, 500, 3%nat)%Z.

Definition display_command (now : Q) (risk_level : pyval) : pyval :=
  control_command now
    [ ("servo2", PDict [("angle", PInt (fst (fst (fst (display_pattern risk_level)))));
                        ("speed", PStr "slow")]);
      ("led", PDict [("state", PStr (if is_str risk_level "LOW" then "SOLID"
                                     else "BLINK"))]);
      ("relay", PDict [("state", PStr (if is_str risk_level "HIGH" then "ON"
                                       else "OFF"))]) ].

Definition buzzer_command (now : Q) (frequency duration : Z) : pyval :=
  control_command now
    [ ("buzzer", PDict [("state", PStr "ON"); ("frequency", PInt frequency);
                        ("duration", PInt duration)]) ].

Definition error_command (now : Q) : pyval :=
  control_command now
    [ ("led", PDict [("state", PStr "BLINK"); ("pattern", PStr "fast")]);
      ("buzzer", PDict [("state", PStr "ON"); ("frequency", PInt 500);
                        ("duration", PInt 1000)]) ].

Definition progress_command (now : Q) (servo_angle : Z) : pyval :=
  control_command now
    [ ("servo1", PDict [("angle", PInt servo_angle); ("speed", PStr "normal")]) ].

Definition mock_result (confidence : Q) : pyval :=
  PDict [ ("success", PBool true); ("predicted_class", PStr "Normal");
          ("confidence", PFloat confidence); ("is_abnormal", PBool false) ].

(** Captured samples. *)
Definition Audio : Type := list Z.

Section Examination.

(** [datetime.now().isoformat()] *)
Variable isoformat : Q -> string.

(** [AudioCapture.start_capture(duration, callback)]: it starts the audio
    device and catches what that raises. *)
Variable start_capture : pyval -> Station -> Station.

(** What a sleep of the given length does to the station: the clock moves
    on, and the other tasks and threads run. *)
Variable meanwhile : Q -> Station -> Station.

(** [InferenceEngine.classify_heart_sound] and [classify_lung_sound]. *)
Variable classify_heart_sound : Audio -> Run pyval.
Variable classify_lung_sound : Audio -> Run pyval.

(** [await asyncio.sleep(delay)] *)
Definition sleep (delay : pyval) : Run unit :=
  fun st =>
    match as_number delay with
    | Some d => (Ok tt, meanwhile d st)
    | None => (Raise (cmp_error "<=" delay (PInt 0)), st)
    end.

(** The [try] block of [start_examination]. *)
Definition start_examination_try (mode : pyval) : Run pyval :=
  step (note LInfo ("Starting examination in " ++ py_str mode ++ " mode"));;
  fun st =>
    if negb (bool_decide (current_state (machine st) = IDLE)) then
      ret (PDict [ ("success", PBool false);
                   ("error", PStr ("Cannot start examination in "
                                   ++ state_name (current_state (machine st))
                                   ++ " state")) ]) st
    else
      (do accepted <- request EXAMINING;
       if negb accepted then
         ret (PDict [ ("success", PBool false);
                      ("error", PStr "Failed to transition to examining state") ])
       else
         fun st =>
           let start_time := isoformat (clock st) in
           (do duration <- lift (config_get st "examination" "duration" (PFloat 8));
            do sample_rate <- lift (config_get st "audio" "sample_rate" (PInt 8000));
            let examination_data :=
              PDict [ ("mode", mode); ("start_time", PStr start_time);
                      ("duration", duration); ("sample_rate", sample_rate) ] in
            step (send (start_command (clock st)));;
            (fun st =>
               if audio_enabled st && bool_decide (is_Some (audio_capture (manager st)))
               then step (start_capture duration) st
               else
                 (step (note LInfo "Audio disabled: Starting SIMULATED examination loop");;
                  step (happen (Spawned "_run_simulated_examination" duration))) st);;
            step (with_machine (set_data "current_examination" examination_data));;
            step (note LInfo "Examination started successfully");;
            ret (PDict [ ("success", PBool true);
                         ("examination_id", PStr start_time);
                         ("duration", duration) ])) st) st.

Definition start_examination (mode : pyval) (st : Station) : pyval * Station :=
  match try_except (start_examination_try mode)
          (fun e =>
             step (note LError ("Failed to start examination: " ++ exn_str e));;
             ret (PDict [("success", PBool false); ("error", PStr (exn_str e))]))
          st with
  | (Ok answer, st') => (answer, st')
  | (Raise e, st') => (PNone, st')
  end.

(** ** After the capture *)

Definition _handle_processing_error (error_message : string) : Run unit :=
  step (note LError ("Audio processing error: " ++ error_message));;
  step (fun st => send (error_command (clock st)) st);;
  sleep (PFloat 3);;
  step _return_to_idle.

(** The [for i in range(buzzer_pattern)] of [_display_results]. *)
Fixpoint beeps (count : nat) (frequency duration : Z) : Run unit :=
  match count with
  | O => ret tt
  | S count' =>
      step (fun st => send (buzzer_command (clock st) frequency duration) st);;
      sleep (PFloat (4 # 10));;
      beeps count' frequency duration
  end.

(** The [try] block of [_display_results]. *)
Definition display_results_try (results : pyval) : Run unit :=
  do triage_result <- lift (py_item results "triage_result");
  do risk_level <- lift (py_item triage_result "risk_level");
  let '(_, buzzer_frequency, buzzer_duration, buzzer_pattern) :=
    display_pattern risk_level in
  step (fun st => send (display_command (clock st) risk_level) st);;
  beeps buzzer_pattern buzzer_frequency buzzer_duration;;
  (do _ <- request SHOWING_RESULTS;
   fun st =>
     (do display_duration <-
        lift (config_get st "examination" "result_display_time" (PFloat 10));
      sleep display_duration;;
      step _return_to_idle) st).

Definition _display_results (results : pyval) (st : Station) : Station :=
  snd (try_except (display_results_try results)
         (fun e => step (note LError ("Error displaying results: " ++ exn_str e)))
         st).

(** The [try] block of [_process_captured_audio]. *)
Definition process_captured_audio_try (audio_data : Audio) : Run unit :=
  step (note LInfo "Processing captured audio (Real/Simulated)");;
  (do _ <- request PROCESSING;
   fun st =>
     let examination_data := get_data (machine st) "current_examination" PNone in
     (do mode <- lift (py_get examination_data "mode" (PStr "heart"));
      let wants_heart := is_str mode "heart" || is_str mode "both" in
      let wants_lung := is_str mode "lung" || is_str mode "both" in
      do outcome <-
        (fun st =>
           if negb (audio_enabled st) then
             ret (if wants_heart then mock_result (95 # 100) else PNone,
                  if wants_lung then mock_result (88 # 100) else PNone,
                  (1 # 10)%Q) st
           else
             let start_time := clock st in
             (do heart_result <-
                (if wants_heart then classify_heart_sound audio_data else ret PNone);
              do lung_result <-
                (if wants_lung then classify_lung_sound audio_data else ret PNone);
              fun st =>
                ret (heart_result, lung_result, fsub (clock st) start_time) st) st);
      let '(heart_result, lung_result, inference_time) := outcome in
      fun st =>
        let sensor_data := get_data (machine st) "latest_sensor_data" (PDict []) in
        (do triage_result <-
           lift (match triage_engine st with
                 | Some engine =>
                     Ok (PDict (make_decision engine (isoformat (clock st))
                                  heart_result lung_result sensor_data
                                  examination_data))
                 | None =>
                     Raise (AttributeError
                              "'NoneType' object has no attribute 'make_decision'")
                 end);
         let results :=
           PDict [ ("examination_data", examination_data);
                   ("heart_result", heart_result);
                   ("lung_result", lung_result);
                   ("sensor_data", sensor_data);
                   ("triage_result", triage_result);
                   ("inference_time", PFloat inference_time);
                   ("timestamp", PStr (isoformat (clock st))) ] in
         step (with_machine (set_data "examination_results" results));;
         step (_display_results results);;
         step (fun st => with_stats (record_examination inference_time
                                       (performance_stats st)) st);;
         step (note LInfo ("Audio processing completed in "
                           ++ format_fixed 3 inference_time ++ "s"))) st) st).

Definition _process_captured_audio (audio_data : Audio) (st : Station) : Station :=
  snd (try_except (process_captured_audio_try audio_data)
         (fun e =>
            step (note LError ("Error processing captured audio: " ++ exn_str e));;
            _handle_processing_error (exn_str e))
         st).

(** [_audio_capture_callback]: nothing in its [try] block raises. *)
Definition _audio_capture_callback (audio_data : option Audio) (progress : Q)
    (st : Station) : Station :=
  let servo_angle := py_int (fmul progress 180) in
  let st := send (progress_command (clock st) servo_angle) st in
  if Qle_bool 1 progress then
    let audio_data :=
      match audio_data with
      | Some samples => samples
      | None => repeat 0%Z (Z.to_nat (py_int (fmul 8000 8)))
      end in
    _process_captured_audio audio_data st
  else st.

(** The loop of [_run_simulated_examination] over the values of [i] left. *)
Fixpoint simulated_steps (todo : list Z) (steps : Z) (step_duration : Q)
  : Run unit :=
  match todo with
  | [] => ret tt
  | i :: todo' =>
      fun st =>
        if negb (bool_decide (current_state (machine st) = EXAMINING)) then ret tt st
        else
          (step (_audio_capture_callback None (fdiv (inject_Z i) (inject_Z steps)));;
           sleep (PFloat step_duration);;
           simulated_steps todo' steps step_duration) st
  end.

Definition _run_simulated_examination (duration : pyval) : Run unit :=
  let steps := 20%Z in
  match as_number duration with
  | Some d =>
      simulated_steps (map Z.of_nat (seq 0 (Z.to_nat (steps + 1)))) steps
        (fdiv d (inject_Z steps))
  | None =>
      lift (Raise (TypeError ("unsupported operand type(s) for /: '"
                              ++ type_name duration ++ "' and 'int'")))
  end.

End Examination.

End Controller.

Import Controller.

(* ===================================================================== *)
(** * Vocabulary of the statements                                        *)
(* ===================================================================== *)

(** Everything of a machine but what it logged and called. *)
Definition fields (m : SystemStateMachine) :=
  (current_state m, previous_state m, state_data m, state_history m,
   state_enter_time m, state_enter_callbacks m, state_exit_callbacks m).

(** The fields a transition action may not touch. *)
Definition control (m : SystemStateMachine) :=
  (current_state m, previous_state m, state_history m, state_enter_time m,
   state_enter_callbacks m, state_exit_callbacks m).

(** The sensor snapshot the guard of IDLE -> EXAMINING reads. *)
Definition latest_sensor_data (m : SystemStateMachine) : pyval :=
  get_data m "latest_sensor_data" (PDict []).

(** The readiness condition in words: the snapshot is a dictionary whose
    [distance] sub-map has a true [valid], whose [movement] sub-map has a
    false [detected], and whose [knob] sub-map has a [mode] between 0 and 2. *)
Definition examination_ready (snapshot : pyval) : Prop :=
  ∃ d, snapshot = PDict d ∧
    (∃ distance valid,
        dict_get d "distance" = Some (PDict distance) ∧
        dict_get distance "valid" = Some valid ∧ truthy valid = true) ∧
    (∃ movement detected,
        dict_get d "movement" = Some (PDict movement) ∧
        dict_get movement "detected" = Some detected ∧
        truthy detected = false) ∧
    (∃ knob mode x,
        dict_get d "knob" = Some (PDict knob) ∧
        dict_get knob "mode" = Some mode ∧
        as_number mode = Some x ∧ (0 <= x)%Q ∧ (x <= 2)%Q).

(** The snapshot gives no movement reading: no snapshot was stored, or it
    has no [movement] sub-map, or that sub-map has no [detected] key. *)
Definition movement_unknown (m : SystemStateMachine) : Prop :=
  state_data m !! "latest_sensor_data" = None ∨
  ∃ d, state_data m !! "latest_sensor_data" = Some (PDict d) ∧
    (dict_get d "movement" = None ∨
     ∃ movement, dict_get d "movement" = Some (PDict movement) ∧
                 dict_get movement "detected" = None).

(** The history record [transition_to] writes. *)
Definition transition_record (from_state to_state : SystemState) (now : Q)
    (context : Context) : HistoryRecord :=
  {| h_from_state := from_state; h_to_state := to_state; h_timestamp := now;
     h_context := Some context; h_forced := None; h_reason := None |}.

(** The history record [force_state] writes. *)
Definition forced_record (from_state to_state : SystemState) (now : Q)
    (reason : string) : HistoryRecord :=
  {| h_from_state := from_state; h_to_state := to_state; h_timestamp := now;
     h_context := None; h_forced := Some true; h_reason := Some reason |}.

(** One call on the machine, made when the clock reads [at_time]. *)
Inductive Call : Type :=
| CallTransitionTo (new_state : SystemState) (context : Context)
| CallProcess
| CallForceState (new_state : SystemState) (reason : string)
| CallSetData (key : string) (value : pyval)
| CallClearData (key : option string)
| CallRegisterEnter (state : SystemState) (callback : Callback)
| CallRegisterExit (state : SystemState) (callback : Callback)
| CallReset.

Definition call (m : SystemStateMachine) (c : Q * Call) : SystemStateMachine :=
  let now := fst c in
  match snd c with
  | CallTransitionTo new_state context => snd (transition_to m new_state context now)
  | CallProcess => process m now
  | CallForceState new_state reason => force_state m new_state reason now
  | CallSetData key value => set_data key value m
  | CallClearData key => clear_data key m
  | CallRegisterEnter state callback => register_state_enter_callback state callback m
  | CallRegisterExit state callback => register_state_exit_callback state callback m
  | CallReset => reset m now
  end.

(** The machine after a sequence of calls. *)
Definition calls (cs : list (Q * Call)) (m : SystemStateMachine)
  : SystemStateMachine :=
  fold_left call cs m.

(** Following the records of a history from a state: where it ends, if each
    record starts where the one before ended. *)
Fixpoint walk (s : SystemState) (h : list HistoryRecord) : option SystemState :=
  match h with
  | [] => Some s
  | r :: h' => if bool_decide (h_from_state r = s) then walk (h_to_state r) h' else None
  end.

(** A record is forced or follows an edge of the graph. *)
Definition lawful (r : HistoryRecord) : Prop :=
  h_forced r = Some true ∨ (h_from_state r, h_to_state r) ∈ valid_transitions.

(** What the history says the previous state is. *)
Definition last_origin (h : list HistoryRecord) : option SystemState :=
  h_from_state <$> last h.

(** The targets of the edges that leave a state, in the order of
    [valid_transitions]. *)
Definition edges_from (s : SystemState) : list SystemState :=
  map snd (List.filter (fun e => bool_decide (fst e = s)) valid_transitions).

(** The history leads from INITIALIZING to the current state, its last
    record starts at the previous state, and each record is forced or an
    edge. *)
Definition consistent (m : SystemStateMachine) : Prop :=
  walk INITIALIZING (state_history m) = Some (current_state m) /\
  previous_state m = last_origin (state_history m) /\
  Forall lawful (state_history m).

(** The callbacks a trace of effects shows, in the order they were called,
    each with the state it was called for. *)
Definition calls_made (trace : list Effect) : list (string * SystemState) :=
  omap (fun e => match e with
                 | Called callback state _ => Some (callback, state)
                 | Logged _ _ => None
                 end) trace.

(** The callbacks registered for a state, in registration order. *)
Definition registered (table : gmap SystemState (list Callback))
    (state : SystemState) : list (string * SystemState) :=
  map (fun cb => (cb_name cb, state)) (default [] (table !! state)).

(** The lines of a list under a heading of the explanation: each on a line
    of its own, behind a bullet. *)
Definition bullets (items : list string) : string :=
  fold_right (fun item rest => newline ++ "  • " ++ item ++ rest) "" items.

(** [s] is a normal number, [w] a positive power of two, and their product
    is a normal number too: it neither overflows nor leaves the normal
    range. *)
Definition scales_exactly (s w : float) : bool :=
  match Prim2SF s, Prim2SF w with
  | S754_finite _ m e, S754_finite false mw ew =>
      (digits2_pos m =? 53)%positive && (mw =? 4503599627370496)%positive
      && (-1074 <=? e + ew + 52)%Z && (e + ew + 52 <=? 971)%Z
  | _, _ => false
  end.

(** [d.get(k, default)] on a dictionary. *)
Definition get_or (d : list (string * pyval)) (k : string) (default : pyval) : pyval :=
  match dict_get d k with
  | Some v => v
  | None => default
  end.

(** The messages put on the serial queue so far. *)
Definition sent (st : Station) : list pyval :=
  match serial_manager (manager st) with
  | Some link => send_queue link
  | None => []
  end.

(** The states [transition_to(IDLE)] leaves when no flag is needed. *)
Definition idle_is_next (s : SystemState) : bool :=
  bool_decide (s ∈ [INITIALIZING; CALIBRATING; EXAMINING; SHOWING_RESULTS; MAINTENANCE]).

(** What decides whether PROCESSING can be left for the results. *)
Definition phase (st : Station) : SystemState * pyval :=
  (current_state (machine st),
   get_data (machine st) "processing_complete" (PBool false)).

(** In the given state, with no [processing_complete] flag up. *)
Definition unflagged (s : SystemState) (st : Station) : Prop :=
  current_state (machine st) = s /\
  truthy (get_data (machine st) "processing_complete" (PBool false)) = false.

(** A computation keeps a property of the station, however it ends. *)
Definition keeps (P : Station -> Prop) {A} (c : Run A) : Prop :=
  forall st, P st -> P (snd (c st)).

(** During a sleep nobody else touches the manager or the configuration. *)
Definition undisturbed (meanwhile : Q -> Station -> Station) : Prop :=
  forall d st,
    manager (meanwhile d st) = manager st /\ config (meanwhile d st) = config st.

(** What a sensor message may change, from [st] to [st']: the snapshot is
    the one received, the control fields and the serial queue are as they
    were, and so is every other key but [last_knob_mode]. *)
Definition stored (sensor_data : pyval) (st st' : Station) : Prop :=
  latest_sensor_data (machine st') = sensor_data /\
  control (machine st') = control (machine st) /\
  sent st' = sent st /\
  forall key default,
    key <> "latest_sensor_data" -> key <> "last_knob_mode" ->
    get_data (machine st') key default = get_data (machine st) key default.

(* ===================================================================== *)
(** * Sample inputs                                                       *)
(* ===================================================================== *)

(** The snapshot of [state_machine.py]'s [__main__] block. *)
Definition demo_snapshot : pyval :=
  PDict [ ("distance", PDict [("valid", PBool true); ("in_range", PBool true)]);
          ("movement", PDict [("detected", PBool false)]);
          ("knob", PDict [("mode", PInt 1)]) ].

(** A machine that has just left INITIALIZING. *)
Definition fresh_idle : SystemStateMachine :=
  snd (transition_to (StateMachine.init 0) IDLE None 0).

Definition demo_idle : SystemStateMachine :=
  set_data "latest_sensor_data" demo_snapshot fresh_idle.

(** The same snapshot with the stethoscope out of range. *)
Definition out_of_range_snapshot : pyval :=
  PDict [ ("distance", PDict [("valid", PBool true); ("in_range", PBool false)]);
          ("movement", PDict [("detected", PBool false)]);
          ("knob", PDict [("mode", PInt 1)]) ].

Definition out_of_range_idle : SystemStateMachine :=
  set_data "latest_sensor_data" out_of_range_snapshot fresh_idle.

(** The same snapshot with the patient moving. *)
Definition moving_idle : SystemStateMachine :=
  set_data "latest_sensor_data"
    (PDict [ ("distance", PDict [("valid", PBool true); ("in_range", PBool true)]);
             ("movement", PDict [("detected", PBool true)]);
             ("knob", PDict [("mode", PInt 1)]) ])
    fresh_idle.

(** A machine showing results since second 5. *)
Definition showing_results : SystemStateMachine :=
  force_state fresh_idle SHOWING_RESULTS "results on display" 5.

Definition idle_manager : SystemManager :=
  {| state_machine := demo_idle;
     serial_manager := Some {| send_queue := [] |};
     audio_capture := Some {| capturing := false |};
     logged := [] |}.

(** Scenario A of the specification. *)
Definition scenario_a_heart : pyval :=
  PDict [ ("success", PBool true); ("predicted_class", PStr "Abnormal");
          ("confidence", PFloat (9 # 10)) ].

Definition scenario_a_sensor : pyval :=
  PDict [ ("temperature", PDict [("valid", PBool true); ("celsius", PInt 37)]);
          ("movement", PDict [("detected", PBool false)]);
          ("distance", PDict [("in_range", PBool true)]) ].

Definition scenario_a : list (string * pyval) :=
  make_decision default_engine "2024-01-01T00:00:00" scenario_a_heart PNone
    scenario_a_sensor PNone.

(** A classifier result whose confidence is not a number. *)
Definition unreliable_heart : pyval :=
  PDict [ ("success", PBool true); ("predicted_class", PStr "Abnormal");
          ("confidence", PStr "high") ].

Definition wheeze : pyval :=
  PDict [ ("success", PBool true); ("predicted_class", PStr "Wheeze");
          ("confidence", PFloat (9 # 10)) ].

Definition processing_machine : SystemStateMachine :=
  force_state fresh_idle PROCESSING "captured" 2.

Definition error_machine : SystemStateMachine :=
  set_data "error_resolved" (PBool true)
    (snd (transition_to fresh_idle ERROR None 2)).

Definition scenario_b_result : pyval :=
  PDict [ ("success", PBool true); ("predicted_class", PStr "Normal");
          ("confidence", PFloat (95 # 100)) ].

Definition scenario_b_sensor : pyval :=
  PDict [ ("temperature", PDict [("valid", PBool true); ("celsius", PFloat (73 # 2))]);
          ("movement", PDict [("detected", PBool false)]);
          ("distance", PDict [("in_range", PBool true)]) ].

Definition feverish_sensor : pyval :=
  PDict [ ("temperature", PDict [("valid", PBool true); ("celsius", PFloat (77 # 2))]);
          ("movement", PDict [("detected", PBool false)]);
          ("distance", PDict [("in_range", PBool true)]) ].

(** Weights that favour the classifiers, as [fusion_weights] may be given
    to the constructor. *)
Definition ml_heavy_weights : gmap string float :=
  {[ "ml_prediction" := 0.7%float;
     "audio_analysis" := 0.2%float;
     "vital_signs" := 0.1%float ]}.

Definition zero_stats : Stats :=
  {| total_examinations := 0; successful_examinations := 0;
     average_inference_time := 0; system_uptime := 0 |}.

(** A station in simulation mode, on a given machine. *)
Definition simulated_station (m : SystemStateMachine) (cfg : pyval) : Station :=
  {| manager := {| state_machine := m;
                   serial_manager := Some {| send_queue := [] |};
                   audio_capture := None;
                   logged := [] |};
     config := cfg;
     audio_enabled := false;
     triage_engine := Some default_engine;
     event_handlers := ∅;
     performance_stats := zero_stats;
     clock := 20;
     happened := [] |}.

Definition busy_station : Station :=
  {| manager := {| state_machine := processing_machine;
                   serial_manager := Some {| send_queue := [] |};
                   audio_capture := None;
                   logged := [] |};
     config := PDict [];
     audio_enabled := false;
     triage_engine := Some default_engine;
     event_handlers := ∅;
     performance_stats := {| total_examinations := 0; successful_examinations := 0;
                             average_inference_time := 0; system_uptime := 0 |};
     clock := 20;
     happened := [] |}.

(** A configuration whose [examination] entry is no dictionary. *)
Definition broken_config : pyval :=
  PDict [("examination", PStr "quick")].

(** A station that is examining, in simulation mode. *)
Definition examining_station : Station :=
  simulated_station
    (set_data "current_examination" (PDict [("mode", PStr "heart")])
       (snd (transition_to demo_idle EXAMINING None 7)))
    (PDict []).

(** Results of a decision that failed. *)
Definition unknown_results : pyval :=
  PDict [ ("triage_result",
           PDict [ ("error", PStr "'ml_confidence'");
                   ("risk_level", PStr "UNKNOWN");
                   ("requires_referral", PBool true) ]) ].

Definition examining_manager : SystemManager :=
  {| state_machine := snd (transition_to demo_idle EXAMINING None 7);
     serial_manager := Some {| send_queue := [] |};
     audio_capture := None;
     logged := [] |}.

(* ===================================================================== *)
(** * The model on small inputs                                           *)
(* ===================================================================== *)

Example format_fixed_ex1 : format_fixed 2 (1 # 8) = "0.12".
Proof. vm_compute. reflexivity. Qed.
Example format_fixed_ex2 : format_fixed 1 (77 # 2) = "38.5".
Proof. vm_compute. reflexivity. Qed.
Example format_fixed_ex3 : format_fixed 2 (- (1 # 1000)) = "-0.00".
Proof. vm_compute. reflexivity. Qed.
Example contains_ex : contains "ml" "lung_ml" = true /\ contains "ml" "vital_signs" = false.
Proof. vm_compute. auto. Qed.

Example float_repr_ex : float_repr 2 = "2.0" /\ float_repr (1 # 8) = "0.125".
Proof. vm_compute. split; reflexivity. Qed.

(** The run of [state_machine.py]'s [__main__] block, up to the start of the
    examination. *)
Example demo_idle_state : current_state demo_idle = IDLE.
Proof. vm_compute. reflexivity. Qed.

Example demo_examining :
  fst (transition_to demo_idle EXAMINING None 1) = true /\
  current_state (snd (transition_to demo_idle EXAMINING None 1)) = EXAMINING.
Proof. vm_compute. split; reflexivity. Qed.

(* ===================================================================== *)
(** * Properties of the state machine                                     *)
(* ===================================================================== *)

Section TransitionTable.

(** The table [_setup_transitions] builds has an edge exactly where
    [valid_transitions] lists one. *)
Lemma is_valid_transition_spec (f t : SystemState) :
  _is_valid_transition f t = bool_decide ((f, t) ∈ valid_transitions).
Proof. destruct f, t; vm_compute; reflexivity. Qed.

(** Looking an edge up gives the transition made for it. *)
Lemma find_transition_spec (f t : SystemState) :
  _find_transition f t =
  if bool_decide ((f, t) ∈ valid_transitions)
  then Some (make_transition f t) else None.
Proof. destruct f, t; vm_compute; reflexivity. Qed.

End TransitionTable.

Section Frames.

Lemma fields_emit e m : fields (emit e m) = fields m.
Proof. reflexivity. Qed.

Lemma fields_run_callback what s c m cb :
  fields (run_callback what s c m cb) = fields m.
Proof. unfold run_callback. destruct (cb_raises cb s c); reflexivity. Qed.

Lemma fields_run_callbacks what s c cbs :
  forall m, fields (fold_left (run_callback what s c) cbs m) = fields m.
Proof.
  induction cbs as [|cb cbs IH]; intros m; simpl; [reflexivity|].
  rewrite IH. apply fields_run_callback.
Qed.

Lemma fields_exit_callbacks s c m :
  fields (_execute_state_exit_callbacks s c m) = fields m.
Proof.
  unfold _execute_state_exit_callbacks.
  destruct (state_exit_callbacks m !! s); [apply fields_run_callbacks | reflexivity].
Qed.

Lemma fields_enter_callbacks s c m :
  fields (_execute_state_enter_callbacks s c m) = fields m.
Proof.
  unfold _execute_state_enter_callbacks.
  destruct (state_enter_callbacks m !! s); [apply fields_run_callbacks | reflexivity].
Qed.

Lemma fields_control m m' : fields m = fields m' -> control m = control m'.
Proof. unfold fields, control. intros H. injection H as -> -> _ -> -> -> ->. reflexivity. Qed.

(** The action of an edge writes the store and the log only. *)
Lemma control_execute_action f t now m c :
  control (execute_action (make_transition f t) now m c) = control m.
Proof.
  unfold execute_action, make_transition.
  repeat case_bool_decide; reflexivity.
Qed.

End Frames.

Ltac refuted H :=
  first [ discriminate H
        | injection H as <-; discriminate ].

Lemma py_lt_Ok a b r :
  py_lt a b = Ok r -> exists x y, as_number a = Some x /\ as_number b = Some y /\ r = negb (Qle_bool y x).
Proof.
  unfold py_lt. destruct (as_number a), (as_number b); intros H; try discriminate.
  injection H as <-. eauto.
Qed.

Lemma py_gt_Ok a b r :
  py_gt a b = Ok r -> exists x y, as_number a = Some x /\ as_number b = Some y /\ r = negb (Qle_bool x y).
Proof.
  unfold py_gt. destruct (as_number a), (as_number b); intros H; try discriminate.
  injection H as <-. eauto.
Qed.

Lemma can_start_examination_spec m context :
  (exists v, _can_start_examination m context = Ok v /\ truthy v = true)
  <-> examination_ready (latest_sensor_data m).
Proof.
  unfold _can_start_examination. fold (latest_sensor_data m).
  generalize (latest_sensor_data m) as snapshot. intros snapshot. split.
  - intros (v & H & Hv).
    destruct snapshot; simpl in H; try discriminate.
    exists d. split; [reflexivity|].
    destruct (dict_get d "distance") as [[]|] eqn:E1; simpl in H; try refuted H.
    destruct (dict_get d0 "valid") as [valid|] eqn:E2; simpl in H; try refuted H.
    destruct (truthy valid) eqn:Tv; simpl in H; try refuted H.
    destruct (dict_get d "movement") as [[]|] eqn:E3; simpl in H; try refuted H.
    destruct (dict_get d1 "detected") as [detected|] eqn:E4; simpl in H; try refuted H.
    destruct (truthy detected) eqn:Td; simpl in H; try refuted H.
    destruct (dict_get d "knob") as [[]|] eqn:E5; simpl in H; try refuted H.
    destruct (dict_get d2 "mode") as [mode|] eqn:E6; simpl in H; try refuted H.
    destruct (py_lt mode (PInt 0)) as [below|] eqn:L; simpl in H; try refuted H.
    destruct below; try refuted H.
    destruct (py_gt mode (PInt 2)) as [above|] eqn:G; simpl in H; try refuted H.
    destruct above; try refuted H.
    apply py_lt_Ok in L as (x & y & Hx & Hy & L).
    apply py_gt_Ok in G as (x' & y' & Hx' & Hy' & G).
    simpl in Hy, Hy'. injection Hy as <-. injection Hy' as <-.
    rewrite Hx in Hx'. injection Hx' as <-.
    apply (f_equal negb) in L, G. rewrite negb_involutive in L, G. simpl in L, G.
    symmetry in L, G. apply Qle_bool_iff in L, G.
    repeat split; eauto 10.
  - intros (d & -> & (dist & valid & E1 & E2 & Tv) & (mov & det & E3 & E4 & Td)
              & (knob & mode & x & E5 & E6 & Hx & Hlo & Hhi)).
    exists (PBool true). split; [|reflexivity].
    simpl. rewrite E1. simpl. rewrite E2, Tv. simpl.
    rewrite E3. simpl. rewrite E4, Td. rewrite E5. simpl. rewrite E6.
    unfold py_lt, py_gt. rewrite Hx. simpl.
    apply Qle_bool_iff in Hlo, Hhi. simpl in Hlo, Hhi.
    change (inject_Z 0) with 0%Q. change (inject_Z 2) with 2%Q.
    rewrite Hlo, Hhi. reflexivity.
Qed.

Section Projections.

Lemma fields_eq m m' :
  fields m = fields m' ->
  current_state m = current_state m' /\
  previous_state m = previous_state m' /\
  state_data m = state_data m' /\
  state_history m = state_history m' /\
  state_enter_time m = state_enter_time m'.
Proof.
  generalize m, m'. clear m m'. intros m m'. unfold fields.
  intros H. injection H as -> -> -> -> -> _ _. repeat split.
Qed.

Lemma control_eq m c p h t e x :
  control m = (c, p, h, t, e, x) ->
  current_state m = c /\ previous_state m = p /\ state_history m = h /\
  state_enter_time m = t.
Proof.
  unfold control. intros H. injection H as <- <- <- <- _ _. repeat split.
Qed.

End Projections.

Section Guard.

Lemma can_transition_examining m context :
  can_transition (make_transition IDLE EXAMINING) m context =
  match _can_start_examination m (context_or_empty context) with
  | Ok v => v
  | Raise _ => PBool false
  end.
Proof. reflexivity. Qed.

(** The guard of IDLE -> EXAMINING holds exactly on a ready snapshot. *)
Lemma guard_examining_iff m context :
  truthy (can_transition (make_transition IDLE EXAMINING) m context) = true
  <-> examination_ready (latest_sensor_data m).
Proof.
  rewrite can_transition_examining.
  rewrite <- (can_start_examination_spec m (context_or_empty context)).
  destruct (_can_start_examination m (context_or_empty context)) as [v|e].
  - split; [eauto | intros (v' & [= <-] & Hv); exact Hv].
  - split; [discriminate | intros (v' & [=] & _)].
Qed.

(** From IDLE, asking for EXAMINING succeeds exactly when the guard holds. *)
Lemma transition_to_examining m context now :
  current_state m = IDLE ->
  fst (transition_to m EXAMINING context now) =
  truthy (can_transition (make_transition IDLE EXAMINING) m context).
Proof.
  intros Hidle. unfold transition_to.
  rewrite Hidle, is_valid_transition_spec, find_transition_spec.
  change (bool_decide ((IDLE, EXAMINING) ∈ valid_transitions)) with true.
  cbv iota beta. unfold negb at 1.
  destruct (truthy (can_transition _ m context)); reflexivity.
Qed.

(** A snapshot without a movement reading is not ready. *)
Lemma movement_unknown_not_ready m :
  movement_unknown m -> ~ examination_ready (latest_sensor_data m).
Proof.
  unfold movement_unknown, latest_sensor_data, get_data.
  intros [Hnone | (d & Hd & Hmov)] (d' & Hsnap & _ & (mov & det & E3 & E4 & _) & _).
  - rewrite Hnone in Hsnap. injection Hsnap as <-. discriminate.
  - rewrite Hd in Hsnap. injection Hsnap as <-.
    destruct Hmov as [Hmov | (mov' & Hmov & Hdet)]; rewrite Hmov in E3.
    + discriminate.
    + injection E3 as <-. rewrite Hdet in E4. discriminate.
Qed.

End Guard.

Section Rejection.

(** A refused request leaves every field as it was and logs one line. *)
Lemma transition_to_refused m new_state context now :
  fst (transition_to m new_state context now) = false ->
  fields (snd (transition_to m new_state context now)) = fields m /\
  exists level msg,
    effects (snd (transition_to m new_state context now)) =
    (effects m ++ [Logged level msg])%list.
Proof.
  unfold transition_to.
  destruct (negb (_is_valid_transition (current_state m) new_state)).
  { intros _. split; [reflexivity | eauto]. }
  destruct (_find_transition (current_state m) new_state) as [t|].
  2: { intros _. split; [reflexivity | eauto]. }
  destruct (negb (truthy (can_transition t m context))).
  { intros _. split; [reflexivity | eauto]. }
  discriminate.
Qed.

(** No edge, or a guard that does not hold: the request is refused. *)
Lemma transition_to_refuses m new_state context now :
  (current_state m, new_state) ∉ valid_transitions \/
  (exists t, _find_transition (current_state m) new_state = Some t /\
             truthy (can_transition t m context) = false) ->
  fst (transition_to m new_state context now) = false.
Proof.
  unfold transition_to. rewrite is_valid_transition_spec.
  intros [Hno | (t & Hfind & Hguard)].
  - rewrite bool_decide_eq_false_2 by exact Hno. reflexivity.
  - destruct (negb (bool_decide _)); [reflexivity|].
    rewrite Hfind, Hguard. reflexivity.
Qed.

End Rejection.

Section Acceptance.

(** What an accepted request leaves in the fields no action touches. *)
Lemma transition_to_accepted m new_state context now :
  fst (transition_to m new_state context now) = true ->
  control (snd (transition_to m new_state context now)) =
  (new_state, Some (current_state m),
   (state_history m ++ [transition_record (current_state m) new_state now context])%list,
   now, state_enter_callbacks m, state_exit_callbacks m).
Proof.
  unfold transition_to. rewrite is_valid_transition_spec, find_transition_spec.
  destruct (bool_decide _); cbn [negb fst snd]; [|discriminate].
  destruct (truthy _); cbn [negb fst snd]; [|discriminate]. intros _.
  unfold log. rewrite (fields_control _ _ (fields_emit _ _)).
  rewrite (fields_control _ _ (fields_enter_callbacks _ _ _)).
  rewrite control_execute_action.
  pose proof (fields_exit_callbacks (current_state m) context m) as Hexit.
  unfold fields in Hexit. injection Hexit as Hc _ _ Hh _ He Hx.
  unfold control, enter, append_history; cbn.
  rewrite Hc, Hh, He, Hx. reflexivity.
Qed.

(** One request writes at most one history record. *)
Lemma transition_to_history m new_state context now :
  exists rs, state_history (snd (transition_to m new_state context now)) =
             (state_history m ++ rs)%list /\ (length rs <= 1)%nat.
Proof.
  destruct (fst (transition_to m new_state context now)) eqn:Hok.
  - apply transition_to_accepted, control_eq in Hok as (_ & _ & Hh & _).
    rewrite Hh. eexists. split; [reflexivity|]. simpl. lia.
  - apply transition_to_refused in Hok as [Hf _].
    apply fields_eq in Hf as (_ & _ & _ & Hh & _). rewrite Hh. exists []. split.
    + symmetry. apply app_nil_r.
    + simpl. lia.
Qed.

Lemma process_scan_history ts m time_in_state now :
  exists rs, state_history (process_scan ts m time_in_state now) =
             (state_history m ++ rs)%list /\ (length rs <= 1)%nat.
Proof.
  induction ts as [|t ts IH]; cbn [process_scan].
  - exists []. split; [symmetry; apply app_nil_r | simpl; lia].
  - destruct (timeout_due t m time_in_state); [|exact IH].
    apply (transition_to_history (log _ _ m)).
Qed.

End Acceptance.

(** C2 (as the code has it). From IDLE, [transition_to(EXAMINING)] succeeds
    if and only if the stored snapshot is a dictionary whose distance
    reading is valid, whose movement reading is present and false, and whose
    knob mode is a number between 0 and 2. Whether the distance is in range
    plays no part. *)
Theorem examining_guard_characterised m context now :
  current_state m = IDLE ->
  fst (transition_to m EXAMINING context now) = true
  <-> examination_ready (latest_sensor_data m).
Proof.
  intros Hidle. rewrite (transition_to_examining m context now Hidle).
  apply guard_examining_iff.
Qed.

Lemma examining_guard_witness :
  current_state demo_idle = IDLE /\
  (fst (transition_to demo_idle EXAMINING None 1) = true
   <-> examination_ready (latest_sensor_data demo_idle)).
Proof.
  split; [reflexivity|].
  apply (examining_guard_characterised demo_idle None 1). reflexivity.
Defined.

(** C2 does not hold as stated: with a distance reading that is valid but
    out of range, a still patient and mode 1, the examination starts. *)
Lemma examining_starts_out_of_range :
  current_state out_of_range_idle = IDLE /\
  latest_sensor_data out_of_range_idle = out_of_range_snapshot /\
  fst (transition_to out_of_range_idle EXAMINING None 1) = true /\
  current_state (snd (transition_to out_of_range_idle EXAMINING None 1)) = EXAMINING.
Proof. vm_compute. repeat split; reflexivity. Qed.

(** The two instances C2 names do behave as it says. *)
Example examining_refused_when_moving :
  fst (transition_to moving_idle EXAMINING None 1) = false.
Proof. vm_compute. reflexivity. Qed.

Example examining_accepted_when_ready :
  fst (transition_to demo_idle EXAMINING None 1) = true.
Proof. vm_compute. reflexivity. Qed.

(** C4. When the graph has no edge from the current state to the target,
    or the edge's guard does not hold, [transition_to] answers false and
    changes neither the current state, the previous state, the history, the
    data store nor the time the state was entered. *)
Theorem transition_to_rejected_unchanged m new_state context now :
  (current_state m, new_state) ∉ valid_transitions \/
  (exists t, _find_transition (current_state m) new_state = Some t /\
             truthy (can_transition t m context) = false) ->
  fst (transition_to m new_state context now) = false /\
  current_state (snd (transition_to m new_state context now)) = current_state m /\
  previous_state (snd (transition_to m new_state context now)) = previous_state m /\
  state_history (snd (transition_to m new_state context now)) = state_history m /\
  state_data (snd (transition_to m new_state context now)) = state_data m /\
  state_enter_time (snd (transition_to m new_state context now)) = state_enter_time m.
Proof.
  intros Hwhy.
  pose proof (transition_to_refuses m new_state context now Hwhy) as Hno.
  destruct (transition_to_refused m new_state context now Hno) as [Hf _].
  apply fields_eq in Hf as (Hc & Hp & Hd & Hh & Ht).
  repeat split; assumption.
Qed.

Lemma transition_to_rejected_witness :
  (fst (transition_to demo_idle PROCESSING None 1) = false /\
   current_state (snd (transition_to demo_idle PROCESSING None 1)) = IDLE) /\
  (fst (transition_to moving_idle EXAMINING None 1) = false /\
   state_data (snd (transition_to moving_idle EXAMINING None 1)) = state_data moving_idle).
Proof.
  split.
  - assert (Hno : (current_state demo_idle, PROCESSING) ∉ valid_transitions)
      by (apply (bool_decide_unpack _); vm_compute; exact I).
    pose proof (transition_to_rejected_unchanged demo_idle PROCESSING None 1
                  (or_introl Hno)) as (H1 & H2 & _).
    split; [exact H1 | exact H2].
  - assert (Hguard : exists t, _find_transition (current_state moving_idle) EXAMINING = Some t /\
                               truthy (can_transition t moving_idle None) = false)
      by (exists (make_transition IDLE EXAMINING); split; vm_compute; reflexivity).
    pose proof (transition_to_rejected_unchanged moving_idle EXAMINING None 1
                  (or_intror Hguard)) as (H1 & _ & _ & _ & H5 & _).
    split; [exact H1 | exact H5].
Defined.

(** C9. When no sensor snapshot is stored, or the snapshot has no movement
    sub-map, or that sub-map has no [detected] key, the guard of
    IDLE -> EXAMINING is false and [transition_to(EXAMINING)] from IDLE
    answers false. *)
Theorem examining_needs_movement_reading m context now :
  current_state m = IDLE ->
  movement_unknown m ->
  truthy (can_transition (make_transition IDLE EXAMINING) m context) = false /\
  fst (transition_to m EXAMINING context now) = false.
Proof.
  intros Hidle Hunknown.
  rewrite (transition_to_examining m context now Hidle).
  apply movement_unknown_not_ready in Hunknown.
  rewrite <- (guard_examining_iff m context) in Hunknown.
  destruct (truthy _); [contradiction Hunknown; reflexivity | split; reflexivity].
Qed.

Lemma examining_needs_movement_witness :
  truthy (can_transition (make_transition IDLE EXAMINING) fresh_idle None) = false /\
  fst (transition_to fresh_idle EXAMINING None 1) = false.
Proof.
  apply (examining_needs_movement_reading fresh_idle None 1).
  - reflexivity.
  - left. reflexivity.
Defined.

(** C10. [force_state] makes the target the current state and the old state
    the previous one, restarts the clock of the state, and appends one
    history record carrying [forced = True] and the reason. It logs its one
    warning and nothing else: no exit or enter callback is called, no
    transition action runs, and the data store and the registered callbacks
    stay as they were. *)
Theorem force_state_frame m new_state reason now :
  current_state (force_state m new_state reason now) = new_state /\
  previous_state (force_state m new_state reason now) = Some (current_state m) /\
  state_enter_time (force_state m new_state reason now) = now /\
  state_history (force_state m new_state reason now) =
    (state_history m ++ [forced_record (current_state m) new_state now reason])%list /\
  state_data (force_state m new_state reason now) = state_data m /\
  state_enter_callbacks (force_state m new_state reason now) = state_enter_callbacks m /\
  state_exit_callbacks (force_state m new_state reason now) = state_exit_callbacks m /\
  effects (force_state m new_state reason now) =
    (effects m ++ [Logged LWarning ("Forced state transition to "
                                    ++ state_name new_state ++ ": " ++ reason)])%list.
Proof. repeat split; reflexivity. Qed.

(** C6. In SHOWING_RESULTS, once ten seconds have passed since the state
    was entered, one call of [process] brings the machine to IDLE, through
    the edge's own transition; and no call of [process] writes more than one
    transition into the history. *)
Theorem process_auto_return m now :
  (current_state m = SHOWING_RESULTS ->
   (10 <= now - state_enter_time m)%Q ->
   current_state (process m now) = IDLE /\
   state_history (process m now) =
     (state_history m ++ [transition_record SHOWING_RESULTS IDLE now None])%list) /\
  (exists rs, state_history (process m now) = (state_history m ++ rs)%list /\
              (length rs <= 1)%nat).
Proof.
  split.
  - intros Hshow Hlate. unfold process. rewrite Hshow.
    change (transitions !! SHOWING_RESULTS)
      with (Some [make_transition SHOWING_RESULTS IDLE;
                  make_transition SHOWING_RESULTS ERROR;
                  make_transition SHOWING_RESULTS SHUTDOWN]).
    cbv iota beta. unfold process_scan.
    assert (Hdue : timeout_due (make_transition SHOWING_RESULTS IDLE) m
                     (fsub now (state_enter_time m)) = true).
    { unfold timeout_due, fsub, can_transition.
      replace (timeout (make_transition SHOWING_RESULTS IDLE)) with (Some 10%Q)
        by reflexivity.
      replace (condition (make_transition SHOWING_RESULTS IDLE))
        with (@None (SystemStateMachine -> pyval -> result pyval)) by reflexivity.
      cbn [truthy andb negb]. rewrite andb_true_r.
      change (Qeq_bool 10 0) with false. cbn [negb andb].
      apply Qle_bool_iff. rewrite Qred_correct. exact Hlate. }
    rewrite Hdue, Hshow.
    replace (to_state (make_transition SHOWING_RESULTS IDLE)) with IDLE
      by reflexivity.
    set (m1 := log LInfo _ m).
    assert (Hok : fst (transition_to m1 IDLE None now) = true).
    { unfold transition_to. rewrite is_valid_transition_spec, find_transition_spec.
      subst m1. cbn [current_state log emit]. rewrite Hshow.
      change (bool_decide ((SHOWING_RESULTS, IDLE) ∈ valid_transitions)) with true.
      reflexivity. }
    apply transition_to_accepted, control_eq in Hok as (Hc & _ & Hh & _).
    subst m1. cbn [current_state state_history log emit] in Hh.
    rewrite Hshow in Hh. split; assumption.
  - unfold process. destruct (transitions !! current_state m).
    + apply process_scan_history.
    + exists []. split; [symmetry; apply app_nil_r | simpl; lia].
Qed.

Lemma process_auto_return_witness :
  current_state showing_results = SHOWING_RESULTS /\
  (10 <= 15 - state_enter_time showing_results)%Q /\
  current_state (process showing_results 15) = IDLE.
Proof.
  assert (Hs : current_state showing_results = SHOWING_RESULTS) by reflexivity.
  assert (Ht : (10 <= 15 - state_enter_time showing_results)%Q)
    by (vm_compute; discriminate).
  split; [exact Hs | split; [exact Ht|]].
  exact (proj1 (proj1 (process_auto_return showing_results 15) Hs Ht)).
Defined.

Section Stopping.

Variable stop_running_capture : SystemManager -> SystemManager.

Lemma state_machine_send_message message sm :
  state_machine (send_message message sm) = state_machine sm.
Proof. unfold send_message. destruct (serial_manager sm); reflexivity. Qed.

Lemma stop_capture_idle sm :
  (forall c, audio_capture sm = Some c -> capturing c = false) ->
  stop_capture stop_running_capture sm = sm.
Proof.
  unfold stop_capture. intros Hquiet.
  destruct (audio_capture sm) as [c|]; [|reflexivity].
  rewrite (Hquiet c eq_refl). reflexivity.
Qed.

End Stopping.

(** C8. With the state machine in IDLE and no capture running,
    [stop_examination] answers [{'success': True}] and the machine is still
    in IDLE, with the data store, the history and the state clock as they
    were. *)
Theorem stop_examination_when_idle stop_running_capture sm now :
  current_state (state_machine sm) = IDLE ->
  (forall c, audio_capture sm = Some c -> capturing c = false) ->
  fst (stop_examination stop_running_capture sm now) = PDict [("success", PBool true)] /\
  current_state (state_machine (snd (stop_examination stop_running_capture sm now))) = IDLE /\
  fields (state_machine (snd (stop_examination stop_running_capture sm now))) =
  fields (state_machine sm).
Proof.
  intros Hidle Hquiet. unfold stop_examination. cbn [fst snd].
  split; [reflexivity|].
  assert (Hquiet' : forall c, audio_capture (manager_log LInfo "Stopping examination" sm) = Some c ->
                              capturing c = false) by exact Hquiet.
  rewrite (stop_capture_idle stop_running_capture _ Hquiet').
  cbn [state_machine manager_log with_state_machine].
  rewrite state_machine_send_message. cbn [state_machine manager_log].
  assert (Hno : fst (transition_to (state_machine sm) IDLE None now) = false).
  { apply transition_to_refuses. left. rewrite Hidle.
    apply (bool_decide_unpack _). vm_compute. exact I. }
  apply transition_to_refused in Hno as [Hf _].
  split; [|exact Hf].
  apply fields_eq in Hf as (Hc & _). rewrite Hc. exact Hidle.
Qed.

Lemma stop_examination_witness :
  fst (stop_examination (fun sm => sm) idle_manager 1) = PDict [("success", PBool true)] /\
  current_state (state_machine (snd (stop_examination (fun sm => sm) idle_manager 1))) = IDLE.
Proof.
  assert (Hidle : current_state (state_machine idle_manager) = IDLE) by reflexivity.
  assert (Hquiet : forall c, audio_capture idle_manager = Some c -> capturing c = false)
    by (intros c [= <-]; reflexivity).
  pose proof (stop_examination_when_idle (fun sm => sm) idle_manager 1 Hidle Hquiet)
    as (H1 & H2 & _).
  split; [exact H1 | exact H2].
Defined.

(* ===================================================================== *)
(** * Properties of the decision engine                                   *)
(* ===================================================================== *)

Section Rounding.

Local Open Scope Z_scope.

(** Rounding a mantissa that ends in [k] zeros to 53 digits drops the
    zeros and nothing else. *)
Lemma round_shifted sg M m E k :
  digits2_pos m = 53%positive ->
  -1074 <= E <= 971 ->
  0 <= k ->
  Zdigits2 (Z.pos M) = 53 + k ->
  shr (shr_record_of_loc (Z.pos M) loc_Exact) (E - k) k =
    ({| shr_m := Z.pos m; shr_r := false; shr_s := false |}, E) ->
  binary_round_aux prec emax sg (Z.pos M) (E - k) loc_Exact = S754_finite sg m E.
Proof.
  intros Hd HE Hk HM Hshr.
  unfold binary_round_aux, shr_fexp. rewrite HM.
  replace (fexp prec emax (53 + k + (E - k)) - (E - k)) with k
    by (unfold fexp, SpecFloat.emin, prec, emax; lia).
  rewrite Hshr. cbn [shr_m loc_of_shr_record round_nearest_even shr_record_of_loc].
  cbn [Zdigits2]. rewrite Hd.
  replace (fexp prec emax (53 + E) - E) with 0
    by (unfold fexp, SpecFloat.emin, prec, emax; lia).
  cbn [shr shr_m].
  replace (E <=? emax - prec) with true
    by (symmetry; apply Z.leb_le; unfold prec, emax; lia).
  reflexivity.
Qed.

Lemma round_normal sg m E :
  digits2_pos m = 53%positive -> -1074 <= E <= 971 ->
  binary_round_aux prec emax sg (Z.pos m) E loc_Exact = S754_finite sg m E.
Proof.
  intros Hd HE.
  replace E with (E - 0) at 1 by lia.
  apply round_shifted; try assumption; try lia.
  - cbn [Zdigits2]. rewrite Hd. reflexivity.
  - replace (E - 0) with E by lia. reflexivity.
Qed.

Lemma round_doubled sg m E :
  digits2_pos m = 53%positive -> -1074 <= E <= 971 ->
  binary_round_aux prec emax sg (Z.pos m~0) (E - 1) loc_Exact = S754_finite sg m E.
Proof.
  intros Hd HE. apply round_shifted; try assumption; try lia.
  - cbn [Zdigits2 digits2_pos]. rewrite Hd. reflexivity.
  - cbn [shr shr_record_of_loc SpecFloat.iter_pos shr_1 orb].
    f_equal. lia.
Qed.

Lemma times_two_to_52 m :
  (m * 4503599627370496)%positive = Pos.iter xO m 52.
Proof.
  cbn [Pos.iter]. rewrite !Pos.mul_xO_r, Pos.mul_1_r. reflexivity.
Qed.

Lemma round_times_two_to_52 sg m E :
  digits2_pos m = 53%positive -> -1074 <= E <= 971 ->
  binary_round_aux prec emax sg (Z.pos (m * 4503599627370496)) (E - 52) loc_Exact =
  S754_finite sg m E.
Proof.
  intros Hd HE. rewrite times_two_to_52.
  apply round_shifted; try assumption; try lia.
  - cbn [Zdigits2 digits2_pos Pos.iter]. rewrite Hd. reflexivity.
  - cbn [shr shr_record_of_loc SpecFloat.iter_pos shr_1 orb Pos.iter].
    f_equal. lia.
Qed.

Lemma div_eucl_pair a b : IntDef.Z.div_eucl a b = (a / b, a mod b).
Proof. unfold Z.div, Z.modulo. destruct (IntDef.Z.div_eucl a b). reflexivity. Qed.

(** A product with a power of two keeps the mantissa. *)
Lemma mul_power_of_two s w sg m e ew :
  Prim2SF s = S754_finite sg m e ->
  Prim2SF w = S754_finite false 4503599627370496 ew ->
  digits2_pos m = 53%positive ->
  -1074 <= e + ew + 52 <= 971 ->
  Prim2SF (s * w) = S754_finite sg m (e + ew + 52).
Proof.
  intros Hs Hw Hd HE. rewrite FloatAxioms.mul_spec, Hs, Hw. unfold SF64mul, SFmul.
  rewrite xorb_false_r.
  set (E := e + ew + 52) in *.
  replace (e + ew) with (E - 52) by (subst E; lia).
  apply round_times_two_to_52; assumption.
Qed.

(** A quotient by a power of two keeps it too. *)
Lemma div_power_of_two x w sg m e ew :
  Prim2SF x = S754_finite sg m (e + ew + 52) ->
  Prim2SF w = S754_finite false 4503599627370496 ew ->
  digits2_pos m = 53%positive ->
  -1074 <= e <= 971 ->
  Prim2SF (x / w) = S754_finite sg m e.
Proof.
  intros Hx Hw Hd He. rewrite FloatAxioms.div_spec, Hx, Hw. unfold SF64div, SFdiv.
  rewrite xorb_false_r. unfold SFdiv_core_binary. cbn [Zdigits2]. rewrite Hd.
  change (digits2_pos 4503599627370496) with 53%positive. cbv zeta.
  destruct (Z.eq_dec e (-1074)) as [Hmin | Hmin].
  - replace (IntDef.Z.min (fexp prec emax (53 + (e + ew + 52) - (53 + ew)))
               (e + ew + 52 - ew)) with e
      by (unfold fexp, SpecFloat.emin, prec, emax; change IntDef.Z.min with Z.min;
          change IntDef.Z.max with Z.max; lia).
    replace (e + ew + 52 - ew - e) with 52 by lia.
    cbv iota. change IntDef.Z.shiftl with Z.shiftl.
    rewrite Z.shiftl_mul_pow2 by lia. rewrite div_eucl_pair.
    change (2 ^ 52) with 4503599627370496.
    rewrite Z.div_mul, Z.mod_mul by discriminate.
    change (new_location 4503599627370496 0) with loc_Exact.
    apply round_normal; assumption.
  - replace (IntDef.Z.min (fexp prec emax (53 + (e + ew + 52) - (53 + ew)))
               (e + ew + 52 - ew)) with (e - 1)
      by (unfold fexp, SpecFloat.emin, prec, emax; change IntDef.Z.min with Z.min;
          change IntDef.Z.max with Z.max; lia).
    replace (e + ew + 52 - ew - (e - 1)) with 53 by lia.
    cbv iota. change IntDef.Z.shiftl with Z.shiftl.
    rewrite Z.shiftl_mul_pow2 by lia. rewrite div_eucl_pair.
    change (2 ^ 53) with (2 * 4503599627370496).
    rewrite Z.mul_assoc, Z.div_mul, Z.mod_mul by discriminate.
    change (new_location 4503599627370496 0) with loc_Exact.
    change (Z.pos m * 2) with (Z.pos (m * 2)).
    change (m * 2)%positive with (m * 1~0)%positive.
    rewrite Pos.mul_xO_r, Pos.mul_1_r.
    apply round_doubled; assumption.
Qed.

Lemma add_zero_finite x sg m e :
  Prim2SF x = S754_finite sg m e -> (0 + x)%float = x.
Proof.
  intros Hx. apply Prim2SF_inj. rewrite FloatAxioms.add_spec, Hx. reflexivity.
Qed.

(** The exponent of a normal number. *)
Lemma normal_exponent x sg m e :
  Prim2SF x = S754_finite sg m e -> digits2_pos m = 53%positive ->
  -1074 <= e <= 971.
Proof.
  intros Hx Hd. pose proof (Prim2SF_valid x) as Hv. rewrite Hx in Hv.
  unfold SpecFloat.valid_binary, bounded, canonical_mantissa in Hv.
  apply andb_prop in Hv as [Hc Hb]. rewrite Hd in Hc.
  apply Z.eqb_eq in Hc. apply Z.leb_le in Hb.
  unfold fexp, SpecFloat.emin, prec, emax in *. lia.
Qed.

(** Scaling by a power of two and back. *)
Lemma scale_and_back s w :
  scales_exactly s w = true ->
  (0 + w =? 0)%float = false /\ ((0 + s * w) / (0 + w))%float = s.
Proof.
  unfold scales_exactly. intros H.
  destruct (Prim2SF s) as [| | |sg m e] eqn:Hs; try discriminate H.
  destruct (Prim2SF w) as [| | |[|] mw ew] eqn:Hw; try discriminate H.
  apply andb_prop in H as [H Hhi]. apply andb_prop in H as [H Hlo].
  apply andb_prop in H as [Hd Hmw].
  apply Pos.eqb_eq in Hd. apply Pos.eqb_eq in Hmw. subst mw.
  apply Z.leb_le in Hlo. apply Z.leb_le in Hhi.
  pose proof (normal_exponent s sg m e Hs Hd) as He.
  pose proof (mul_power_of_two s w sg m e ew Hs Hw Hd (conj Hlo Hhi)) as Hmul.
  rewrite (add_zero_finite w _ _ _ Hw), (add_zero_finite (s * w) _ _ _ Hmul).
  split.
  - rewrite FloatAxioms.eqb_spec, Hw; change (Prim2SF 0) with (S754_zero false). reflexivity.
  - apply Prim2SF_inj. rewrite Hs.
    apply (div_power_of_two (s * w) w sg m e ew Hmul Hw Hd He).
Qed.

End Rounding.

(** C7 (as the code has it). When [lung_ml] is the only component, the
    overall score is (0.0 + s x w) / (0.0 + w) in binary64, where w is the
    weight of ML predictions: the weights of the absent components do not
    enter. Whenever w is a power of two, such as the default 0.5, and
    s x w stays in the normal range, this is the lung score s itself; with
    no component at all the overall score is 0.0. *)
Theorem overall_risk_lung_only fusion_weights w :
  fusion_weights !! "ml_prediction" = Some w ->
  (forall s,
      Binary64._calculate_overall_risk fusion_weights [("lung_ml", s)] =
      Ok (if (0 + w =? 0)%float then 0%float
          else ((0 + s * w) / (0 + w))%float)) /\
  (forall s,
      scales_exactly s w = true ->
      Binary64._calculate_overall_risk fusion_weights [("lung_ml", s)] = Ok s) /\
  Binary64._calculate_overall_risk fusion_weights [] = Ok 0%float.
Proof.
  intros Hw.
  assert (Hone : forall s,
             Binary64._calculate_overall_risk fusion_weights [("lung_ml", s)] =
             Ok (if (0 + w =? 0)%float then 0%float
                 else ((0 + s * w) / (0 + w))%float)).
  { intros s. unfold Binary64._calculate_overall_risk. cbn [fold_left bind].
    change (contains "ml" "lung_ml") with true. cbv iota.
    unfold py_index. rewrite Hw. cbn [bind fst snd].
    destruct (0 + w =? 0)%float; reflexivity. }
  split; [exact Hone|]. split; [|reflexivity].
  intros s Hs. rewrite Hone.
  destruct (scale_and_back s w Hs) as [-> ->]. reflexivity.
Qed.

Lemma overall_risk_lung_only_witness :
  (forall s,
      scales_exactly s 0.5 = true ->
      Binary64._calculate_overall_risk Binary64.default_fusion_weights
        [("lung_ml", s)] = Ok s) /\
  scales_exactly 0.63 0.5 = true /\
  Binary64._calculate_overall_risk Binary64.default_fusion_weights [] = Ok 0%float.
Proof.
  pose proof (overall_risk_lung_only Binary64.default_fusion_weights 0.5 eq_refl)
    as (_ & Hexact & Hnone).
  split; [exact Hexact|]. split; [reflexivity | exact Hnone].
Defined.

(** C7 does not hold as stated: the overall score is not always the lung
    score exactly. With a weight that is no power of two the last digit can
    differ (0.1 at weight 0.7 gives 0.09999999999999999), and at the very
    bottom of the range even the default weight loses the score. *)
Lemma overall_risk_lung_rounded :
  Binary64._calculate_overall_risk ml_heavy_weights [("lung_ml", 0.1%float)] =
    Ok 0.09999999999999999%float /\
  (0.09999999999999999 =? 0.1)%float = false /\
  Binary64._calculate_overall_risk Binary64.default_fusion_weights
    [("lung_ml", 5e-324%float)] = Ok 0%float /\
  (0 =? 5e-324)%float = false.
Proof. repeat split; vm_compute; reflexivity. Qed.

(** Through [make_decision], in exact arithmetic: a lung result alone, here
    a wheeze at confidence 0.9, is scored 0.7 x 0.9 and that is the overall
    score. *)
Example lung_only_decision :
  let d := make_decision default_engine "2024-01-01T00:00:00" PNone wheeze PNone PNone in
  dict_get d "risk_scores_breakdown" = Some (PDict [("lung_ml", PFloat (63 # 100))]) /\
  dict_get d "risk_score" = Some (PFloat (63 # 100)).
Proof. vm_compute. split; reflexivity. Qed.

Example no_component_decision :
  dict_get (make_decision default_engine "2024-01-01T00:00:00" PNone PNone PNone PNone)
    "risk_score" = Some (PFloat 0).
Proof. vm_compute. reflexivity. Qed.



(** C5. When the body of [make_decision] raises, [make_decision] returns a
    decision whose [risk_level] is "UNKNOWN" and whose [requires_referral]
    is true, together with the text of the exception. *)
Theorem make_decision_on_exception self timestamp heart_result lung_result
    sensor_data examination_data e :
  make_decision_try self timestamp heart_result lung_result sensor_data
    examination_data = Raise e ->
  make_decision self timestamp heart_result lung_result sensor_data
    examination_data =
    [ ("error", PStr (exn_str e)); ("risk_level", PStr "UNKNOWN");
      ("requires_referral", PBool true) ] /\
  dict_get (make_decision self timestamp heart_result lung_result sensor_data
              examination_data) "risk_level" = Some (PStr "UNKNOWN") /\
  dict_get (make_decision self timestamp heart_result lung_result sensor_data
              examination_data) "requires_referral" = Some (PBool true).
Proof.
  intros Hraise. unfold make_decision. rewrite Hraise. repeat split.
Qed.

Lemma make_decision_on_exception_witness :
  dict_get (make_decision default_engine "2024-01-01T00:00:00" unreliable_heart
              PNone PNone PNone) "risk_level" = Some (PStr "UNKNOWN") /\
  dict_get (make_decision default_engine "2024-01-01T00:00:00" unreliable_heart
              PNone PNone PNone) "requires_referral" = Some (PBool true).
Proof.
  assert (Hraise :
    make_decision_try default_engine "2024-01-01T00:00:00" unreliable_heart
      PNone PNone PNone =
    Raise (TypeError "can't multiply sequence by non-int of type 'float'"))
    by (vm_compute; reflexivity).
  exact (proj2 (make_decision_on_exception _ _ _ _ _ _ _ Hraise)).
Defined.

Section Determinism.

(** The body of [make_decision] puts the clock reading in the first entry
    and nowhere else. *)
Lemma make_decision_try_timestamp self t1 t2 h l s x :
  match make_decision_try self t1 h l s x, make_decision_try self t2 h l s x with
  | Ok d1, Ok d2 =>
      exists rest, d1 = ("timestamp", PStr t1) :: rest /\
                   d2 = ("timestamp", PStr t2) :: rest /\
                   dict_get rest "timestamp" = None
  | Raise e1, Raise e2 => e1 = e2
  | _, _ => False
  end.
Proof.
  unfold make_decision_try.
  destruct (when_successful h _ _ _) as [ev1|e]; cbn [bind]; [|reflexivity].
  destruct (when_successful l _ _ _) as [ev2|e]; cbn [bind]; [|reflexivity].
  destruct (if truthy s then _ else _) as [ev3|e]; cbn [bind]; [|reflexivity].
  destruct (_calculate_overall_risk self (risk_scores ev3)) as [r|e]; cbn [bind];
    [|reflexivity].
  eexists. repeat split.
Qed.

End Determinism.

(** C3 (as the code has it). Two calls of [make_decision] on the same
    engine and inputs return dictionaries that agree on every field other
    than [timestamp], whatever the clock reads at either call. *)
Theorem make_decision_deterministic self t1 t2 heart_result lung_result
    sensor_data examination_data :
  dict_remove (make_decision self t1 heart_result lung_result sensor_data
                 examination_data) "timestamp" =
  dict_remove (make_decision self t2 heart_result lung_result sensor_data
                 examination_data) "timestamp".
Proof.
  unfold make_decision.
  pose proof (make_decision_try_timestamp self t1 t2 heart_result lung_result
                sensor_data examination_data) as H.
  destruct (make_decision_try self t1 _ _ _ _) as [d1|e1],
           (make_decision_try self t2 _ _ _ _) as [d2|e2]; try contradiction.
  - destruct H as (rest & -> & -> & _). reflexivity.
  - subst e2. reflexivity.
Qed.

(** C3 does not hold as stated: the [timestamp] field follows the clock, so
    two calls on the same inputs return different dictionaries. *)
Lemma make_decision_timestamp_differs :
  dict_get (make_decision default_engine "2024-01-01T00:00:00" scenario_a_heart
              PNone scenario_a_sensor PNone) "timestamp"
    = Some (PStr "2024-01-01T00:00:00") /\
  dict_get (make_decision default_engine "2024-01-01T00:00:01" scenario_a_heart
              PNone scenario_a_sensor PNone) "timestamp"
    = Some (PStr "2024-01-01T00:00:01") /\
  make_decision default_engine "2024-01-01T00:00:00" scenario_a_heart
    PNone scenario_a_sensor PNone
  <> make_decision default_engine "2024-01-01T00:00:01" scenario_a_heart
       PNone scenario_a_sensor PNone.
Proof.
  split; [vm_compute; reflexivity|]. split; [vm_compute; reflexivity|].
  intros Hsame. apply (f_equal (fun d => dict_get d "timestamp")) in Hsame.
  vm_compute in Hsame. discriminate Hsame.
Qed.

(* ===================================================================== *)
(** * Further properties of the state machine                             *)
(* ===================================================================== *)

Section Store.

Lemma get_set_data key value m key' default :
  get_data (set_data key value m) key' default =
  if bool_decide (key = key') then value else get_data m key' default.
Proof.
  unfold get_data, set_data, with_state_data; cbn [state_data].
  case_bool_decide as Hk.
  - subst. rewrite lookup_insert_eq. reflexivity.
  - rewrite lookup_insert_ne by exact Hk. reflexivity.
Qed.

Lemma get_clear_data key m key' default :
  get_data (clear_data (Some key) m) key' default =
  if bool_decide (key = key') then default else get_data m key' default.
Proof.
  unfold get_data, clear_data, with_state_data; cbn [state_data].
  case_bool_decide as Hk.
  - subst. rewrite lookup_delete_eq. reflexivity.
  - rewrite lookup_delete_ne by exact Hk. reflexivity.
Qed.

Lemma get_clear_all m key' default :
  get_data (clear_data None m) key' default = default.
Proof. reflexivity. Qed.

End Store.

Section Table.

(** The table, state by state. *)
Lemma transitions_lookup f :
  transitions !! f =
  match edges_from f with
  | [] => None
  | targets => Some (map (make_transition f) targets)
  end.
Proof. destruct f; vm_compute; reflexivity. Qed.

Lemma edges_from_spec f t : t ∈ edges_from f <-> (f, t) ∈ valid_transitions.
Proof.
  unfold edges_from. rewrite !list_elem_of_In, in_map_iff. split.
  - intros ([f' t'] & Ht & Hin). apply filter_In in Hin as [Hin Hf].
    cbn in Ht, Hf. apply bool_decide_eq_true_1 in Hf. subst. exact Hin.
  - intros Hin. exists (f, t). split; [reflexivity|].
    apply filter_In. split; [exact Hin|]. cbn. apply bool_decide_eq_true_2. reflexivity.
Qed.

(** The guards read the data store and nothing else. *)
Lemma can_transition_data f t m m' c c' :
  state_data m = state_data m' ->
  can_transition (make_transition f t) m c = can_transition (make_transition f t) m' c'.
Proof.
  intros Hd. unfold can_transition, make_transition.
  repeat case_bool_decide; cbn [condition]; try reflexivity;
    unfold _can_start_examination, _processing_complete, _error_resolved, get_data;
    rewrite Hd; reflexivity.
Qed.

(** What an action leaves in the store depends on the store alone. *)
Lemma state_data_execute_action f t now m m' c :
  state_data m = state_data m' ->
  state_data (execute_action (make_transition f t) now m c) =
  state_data (execute_action (make_transition f t) now m' c).
Proof.
  intros Hd. unfold execute_action, make_transition.
  repeat case_bool_decide; cbn [action]; try exact Hd;
    unfold _on_examination_start, _on_results_ready, _on_return_to_idle,
      _on_error_recovery, set_data, clear_data, with_state_data, log, emit;
    cbn [state_data]; rewrite Hd; reflexivity.
Qed.

(** The request succeeds exactly on an edge whose guard holds. *)
Lemma transition_to_true_iff m s c now :
  fst (transition_to m s c now) = true <->
  (current_state m, s) ∈ valid_transitions /\
  truthy (can_transition (make_transition (current_state m) s) m c) = true.
Proof.
  unfold transition_to. rewrite is_valid_transition_spec, find_transition_spec.
  case_bool_decide as He; cbn [negb fst].
  - destruct (truthy _); cbn [negb fst]; intuition congruence.
  - intuition congruence.
Qed.

(** The store after an accepted request. *)
Lemma transition_to_data m s c now :
  fst (transition_to m s c now) = true ->
  state_data (snd (transition_to m s c now)) =
  state_data (execute_action (make_transition (current_state m) s) now m c).
Proof.
  unfold transition_to. rewrite is_valid_transition_spec, find_transition_spec.
  destruct (bool_decide _); cbn [negb fst snd]; [|discriminate].
  destruct (truthy _); cbn [negb fst snd]; [|discriminate]. intros _.
  pose proof (fields_emit) as He. unfold log.
  match goal with |- state_data (emit ?e ?x) = _ =>
    assert (Hx : state_data (emit e x) = state_data x) by reflexivity; rewrite Hx; clear Hx end.
  match goal with |- state_data (_execute_state_enter_callbacks ?a ?b ?x) = _ =>
    pose proof (fields_eq _ _ (fields_enter_callbacks a b x)) as (_ & _ & Hx & _);
    rewrite Hx; clear Hx end.
  apply state_data_execute_action. cbn [state_data enter append_history].
  pose proof (fields_eq _ _ (fields_exit_callbacks (current_state m) c m)) as (_ & _ & Hx & _).
  exact Hx.
Qed.

(** An action adds no key but its own time stamp. *)
Lemma execute_action_lookup f t now m c key :
  key <> "examination_start_time" -> key <> "results_display_time" ->
  state_data (execute_action (make_transition f t) now m c) !! key = None \/
  state_data (execute_action (make_transition f t) now m c) !! key = state_data m !! key.
Proof.
  intros H1 H2. unfold execute_action, make_transition.
  repeat case_bool_decide; cbn [action]; try (right; reflexivity);
    unfold _on_examination_start, _on_results_ready, _on_return_to_idle,
      _on_error_recovery, set_data, clear_data, with_state_data, log, emit;
    cbn [state_data];
    repeat match goal with
           | |- context [delete ?k _ !! key] =>
               destruct (decide (k = key)) as [->|];
               [left; apply lookup_delete_eq | rewrite lookup_delete_ne by assumption]
           end;
    rewrite ?lookup_insert_ne by congruence; right; reflexivity.
Qed.

(** A key that is absent stays absent through a request, unless it is one
    of the two time stamps the actions write. *)
Lemma transition_to_keeps_default m s c now key default :
  key <> "examination_start_time" -> key <> "results_display_time" ->
  get_data m key default = default ->
  get_data (snd (transition_to m s c now)) key default = default.
Proof.
  intros H1 H2 Hk. destruct (fst (transition_to m s c now)) eqn:Hok.
  - unfold get_data. rewrite (transition_to_data _ _ _ _ Hok).
    destruct (execute_action_lookup (current_state m) s now m c key H1 H2) as [-> | ->];
      [reflexivity | exact Hk].
  - apply transition_to_refused in Hok as [Hf _].
    apply fields_eq in Hf as (_ & _ & Hd & _). unfold get_data. rewrite Hd. exact Hk.
Qed.

End Table.

(** X1. A request that [transition_to] accepts had an edge whose guard held;
    afterwards the machine is in the requested state, remembers the state it
    left, has exactly one more history record (origin, target, time and
    context of the request), and its state clock reads the time of the
    request. *)
Theorem transition_to_success m new_state context now :
  fst (transition_to m new_state context now) = true ->
  (exists t, _find_transition (current_state m) new_state = Some t /\
             truthy (can_transition t m context) = true) /\
  current_state (snd (transition_to m new_state context now)) = new_state /\
  previous_state (snd (transition_to m new_state context now)) = Some (current_state m) /\
  state_history (snd (transition_to m new_state context now)) =
    (state_history m ++ [transition_record (current_state m) new_state now context])%list /\
  state_enter_time (snd (transition_to m new_state context now)) = now.
Proof.
  intros Hok. split.
  - apply transition_to_true_iff in Hok as [He Hg].
    exists (make_transition (current_state m) new_state). split; [|exact Hg].
    rewrite find_transition_spec, bool_decide_eq_true_2 by exact He. reflexivity.
  - apply transition_to_accepted, control_eq in Hok. exact Hok.
Qed.

Lemma transition_to_success_witness :
  current_state (snd (transition_to demo_idle EXAMINING None 7)) = EXAMINING /\
  previous_state (snd (transition_to demo_idle EXAMINING None 7)) = Some IDLE /\
  state_enter_time (snd (transition_to demo_idle EXAMINING None 7)) = 7%Q.
Proof.
  assert (Hok : fst (transition_to demo_idle EXAMINING None 7) = true)
    by (vm_compute; reflexivity).
  pose proof (transition_to_success demo_idle EXAMINING None 7 Hok)
    as (_ & H1 & H2 & _ & H4).
  split; [exact H1 | split; [exact H2 | exact H4]].
Defined.

(** X2. SHUTDOWN is terminal: every request is refused, no transition is
    listed as valid, and [process] leaves the machine as it is. *)
Theorem shutdown_is_terminal m :
  current_state m = SHUTDOWN ->
  (forall new_state context now,
      fst (transition_to m new_state context now) = false) /\
  get_valid_transitions m = [] /\
  (forall now, process m now = m).
Proof.
  intros Hs. split; [|split].
  - intros s c now. apply transition_to_refuses. left. rewrite Hs.
    destruct s; apply (bool_decide_unpack _); vm_compute; exact I.
  - unfold get_valid_transitions. rewrite Hs. reflexivity.
  - intros now. unfold process. rewrite Hs. reflexivity.
Qed.

Lemma shutdown_is_terminal_witness :
  fst (transition_to (force_state fresh_idle SHUTDOWN "power off" 9) IDLE None 10) = false.
Proof.
  apply (proj1 (shutdown_is_terminal (force_state fresh_idle SHUTDOWN "power off" 9)
                  eq_refl)).
Defined.

(** X3. From every state but SHUTDOWN a request for SHUTDOWN is accepted, and
    from every state but SHUTDOWN and ERROR a request for ERROR is accepted;
    neither edge has a guard or an action, so the data store is unchanged. *)
Theorem shutdown_and_error_always_open m context now :
  current_state m <> SHUTDOWN ->
  (fst (transition_to m SHUTDOWN context now) = true /\
   current_state (snd (transition_to m SHUTDOWN context now)) = SHUTDOWN /\
   state_data (snd (transition_to m SHUTDOWN context now)) = state_data m) /\
  (current_state m <> ERROR ->
   fst (transition_to m ERROR context now) = true /\
   current_state (snd (transition_to m ERROR context now)) = ERROR /\
   state_data (snd (transition_to m ERROR context now)) = state_data m).
Proof.
  intros Hs. split.
  - assert (Hok : fst (transition_to m SHUTDOWN context now) = true).
    { apply transition_to_true_iff.
      destruct (current_state m); try (contradiction Hs; reflexivity);
        (split; [apply (bool_decide_unpack _); vm_compute; exact I | reflexivity]). }
    split; [exact Hok|].
    split; [apply transition_to_accepted, control_eq in Hok as (Hc & _); exact Hc|].
    rewrite (transition_to_data _ _ _ _ Hok).
    destruct (current_state m); reflexivity.
  - intros He.
    assert (Hok : fst (transition_to m ERROR context now) = true).
    { apply transition_to_true_iff.
      destruct (current_state m); try (contradiction Hs; reflexivity);
        try (contradiction He; reflexivity);
        (split; [apply (bool_decide_unpack _); vm_compute; exact I | reflexivity]). }
    split; [exact Hok|].
    split; [apply transition_to_accepted, control_eq in Hok as (Hc & _); exact Hc|].
    rewrite (transition_to_data _ _ _ _ Hok).
    destruct (current_state m); reflexivity.
Qed.

Lemma shutdown_always_open_witness :
  fst (transition_to demo_idle SHUTDOWN None 3) = true /\
  current_state (snd (transition_to demo_idle SHUTDOWN None 3)) = SHUTDOWN.
Proof.
  assert (Hs : current_state demo_idle <> SHUTDOWN)
    by (intros H; vm_compute in H; discriminate H).
  pose proof (proj1 (shutdown_and_error_always_open demo_idle None 3 Hs))
    as (H1 & H2 & _).
  split; [exact H1 | exact H2].
Defined.

(** X4. An accepted IDLE -> EXAMINING transition writes
    [examination_start_time], removes [processing_complete] and
    [examination_results], and leaves the sensor snapshot in place. *)
Theorem examination_start_store m context now :
  current_state m = IDLE ->
  fst (transition_to m EXAMINING context now) = true ->
  state_data (snd (transition_to m EXAMINING context now)) =
    delete "examination_results"
      (delete "processing_complete"
         (<["examination_start_time" := PFloat now]> (state_data m))) /\
  latest_sensor_data (snd (transition_to m EXAMINING context now)) =
    latest_sensor_data m.
Proof.
  intros Hidle Hok.
  assert (Hd : state_data (snd (transition_to m EXAMINING context now)) =
    delete "examination_results"
      (delete "processing_complete"
         (<["examination_start_time" := PFloat now]> (state_data m)))).
  { rewrite (transition_to_data _ _ _ _ Hok), Hidle. reflexivity. }
  split; [exact Hd|].
  unfold latest_sensor_data, get_data. rewrite Hd.
  rewrite !lookup_delete_ne, lookup_insert_ne by discriminate. reflexivity.
Qed.

Lemma examination_start_store_witness :
  latest_sensor_data (snd (transition_to demo_idle EXAMINING None 7)) =
  latest_sensor_data demo_idle.
Proof.
  assert (Hok : fst (transition_to demo_idle EXAMINING None 7) = true)
    by (vm_compute; reflexivity).
  exact (proj2 (examination_start_store demo_idle None 7 eq_refl Hok)).
Defined.

(** X5. From PROCESSING, SHOWING_RESULTS is reached exactly when the store
    holds a truthy [processing_complete]; the transition then only adds
    [results_display_time]. PROCESSING -> IDLE is never accepted. *)
Theorem results_need_processing_complete m context now :
  current_state m = PROCESSING ->
  (fst (transition_to m SHOWING_RESULTS context now) = true <->
   truthy (get_data m "processing_complete" (PBool false)) = true) /\
  (fst (transition_to m SHOWING_RESULTS context now) = true ->
   state_data (snd (transition_to m SHOWING_RESULTS context now)) =
   <["results_display_time" := PFloat now]> (state_data m)) /\
  fst (transition_to m IDLE context now) = false.
Proof.
  intros Hp. split; [|split].
  - rewrite transition_to_true_iff, Hp. split.
    + intros [_ Hg]. exact Hg.
    + intros Hg. split; [apply (bool_decide_unpack _); vm_compute; exact I | exact Hg].
  - intros Hok. rewrite (transition_to_data _ _ _ _ Hok), Hp. reflexivity.
  - apply transition_to_refuses. left. rewrite Hp.
    apply (bool_decide_unpack _). vm_compute. exact I.
Qed.

(** X6. From ERROR, IDLE is reached exactly when the store holds a truthy
    [error_resolved]; the transition removes [error_resolved] and
    [error_message], so a second error needs the flag raised again. *)
Theorem error_recovery_consumes_flag m context now :
  current_state m = ERROR ->
  (fst (transition_to m IDLE context now) = true <->
   truthy (get_data m "error_resolved" (PBool false)) = true) /\
  (fst (transition_to m IDLE context now) = true ->
   state_data (snd (transition_to m IDLE context now)) =
     delete "error_message" (delete "error_resolved" (state_data m)) /\
   get_data (snd (transition_to m IDLE context now)) "error_resolved" (PBool false)
     = PBool false).
Proof.
  intros He. split.
  - rewrite transition_to_true_iff, He. split.
    + intros [_ Hg]. exact Hg.
    + intros Hg. split; [apply (bool_decide_unpack _); vm_compute; exact I | exact Hg].
  - intros Hok.
    assert (Hd : state_data (snd (transition_to m IDLE context now)) =
                 delete "error_message" (delete "error_resolved" (state_data m))).
    { rewrite (transition_to_data _ _ _ _ Hok), He. reflexivity. }
    split; [exact Hd|]. unfold get_data. rewrite Hd.
    rewrite lookup_delete_ne, lookup_delete_eq by discriminate. reflexivity.
Qed.

(** Only SHOWING_RESULTS has an edge with a timeout. *)
Lemma process_idle_unless_showing m now :
  current_state m <> SHOWING_RESULTS -> process m now = m.
Proof.
  intros Hne. unfold process. rewrite transitions_lookup.
  destruct (current_state m) eqn:Hs; try reflexivity.
  contradiction Hne; reflexivity.
Qed.

(** X7. [process] changes nothing unless the machine is in SHOWING_RESULTS
    and has been there for at least ten seconds. *)
Theorem process_waits m now :
  current_state m <> SHOWING_RESULTS \/ (now - state_enter_time m < 10)%Q ->
  process m now = m.
Proof.
  intros Hwait. unfold process. rewrite transitions_lookup.
  destruct (current_state m) eqn:Hs; try reflexivity.
  destruct Hwait as [Hne | Hearly]; [contradiction Hne; reflexivity|].
  change (edges_from SHOWING_RESULTS) with [IDLE; ERROR; SHUTDOWN].
  cbn [map process_scan].
  assert (Hdue : timeout_due (make_transition SHOWING_RESULTS IDLE) m
                   (fsub now (state_enter_time m)) = false).
  { unfold timeout_due, fsub.
    replace (timeout (make_transition SHOWING_RESULTS IDLE)) with (Some 10%Q)
      by reflexivity.
    apply andb_false_intro1, andb_false_intro2.
    apply not_true_iff_false. intros H. apply Qle_bool_iff in H.
    rewrite Qred_correct in H. apply (Qlt_not_le _ _ Hearly H). }
  rewrite Hdue. reflexivity.
Qed.

Lemma results_need_processing_complete_witness :
  fst (transition_to processing_machine SHOWING_RESULTS None 3) = false /\
  fst (transition_to processing_machine IDLE None 3) = false.
Proof.
  pose proof (results_need_processing_complete processing_machine None 3 eq_refl)
    as (Hiff & _ & Hidle).
  split; [|exact Hidle].
  destruct (fst (transition_to processing_machine SHOWING_RESULTS None 3)); [|reflexivity].
  apply proj1 in Hiff. specialize (Hiff eq_refl). vm_compute in Hiff. discriminate Hiff.
Defined.

Lemma error_recovery_witness :
  fst (transition_to error_machine IDLE None 3) = true /\
  get_data (snd (transition_to error_machine IDLE None 3)) "error_resolved" (PBool false)
    = PBool false.
Proof.
  assert (He : current_state error_machine = ERROR) by (vm_compute; reflexivity).
  pose proof (error_recovery_consumes_flag error_machine None 3 He) as (Hiff & Hafter).
  assert (Hok : fst (transition_to error_machine IDLE None 3) = true)
    by (apply Hiff; vm_compute; reflexivity).
  split; [exact Hok | exact (proj2 (Hafter Hok))].
Defined.

Lemma process_waits_witness :
  process showing_results 12 = showing_results /\ process demo_idle 100 = demo_idle.
Proof.
  split.
  - apply (process_waits showing_results 12). right. vm_compute. reflexivity.
  - apply (process_waits demo_idle 100). left.
    intros H; vm_compute in H; discriminate H.
Defined.

Section ValidTransitions.

Lemma get_valid_transitions_spec m :
  get_valid_transitions m =
  List.filter
    (fun s => truthy (can_transition (make_transition (current_state m) s) m None))
    (edges_from (current_state m)).
Proof.
  unfold get_valid_transitions. rewrite transitions_lookup.
  generalize (edges_from (current_state m)) as targets.
  assert (Hgen : forall targets,
    map to_state
      (filter (fun t => truthy (can_transition t m None) = true)
         (map (make_transition (current_state m)) targets)) =
    List.filter
      (fun s => truthy (can_transition (make_transition (current_state m) s) m None))
      targets).
  { induction targets as [|s ts IH]; [reflexivity|].
    cbn [map List.filter]. rewrite filter_cons.
    destruct (decide _) as [Ht|Hf].
    - rewrite Ht. cbn [map]. rewrite IH. f_equal.
      unfold make_transition. repeat case_bool_decide; reflexivity.
    - apply not_true_is_false in Hf. rewrite Hf. exact IH. }
  intros [|s ts]; [reflexivity|]. apply Hgen.
Qed.

End ValidTransitions.

(** X8. [get_valid_transitions] lists exactly the states that
    [transition_to], called without a context, would accept. *)
Theorem get_valid_transitions_sound m new_state now :
  new_state ∈ get_valid_transitions m <->
  fst (transition_to m new_state None now) = true.
Proof.
  rewrite get_valid_transitions_spec, transition_to_true_iff, <- edges_from_spec.
  rewrite !list_elem_of_In, filter_In. reflexivity.
Qed.

(** X9. [get_state_history(limit)] is the slice [history[-limit:]]: the last
    [limit] records for a positive limit, the records from index [-limit]
    on otherwise; so a limit of 0 returns the whole history, and the default
    limit of 10 returns at most ten records. *)
Theorem get_state_history_slice m limit :
  get_state_history m limit =
    (if (0 <? limit)%Z
     then drop (length (state_history m) - Z.to_nat limit) (state_history m)
     else drop (Z.to_nat (- limit)) (state_history m)) /\
  get_state_history m 0 = state_history m /\
  length (get_state_history m (Z.pos 10)) = Nat.min 10 (length (state_history m)).
Proof.
  assert (Hmain : forall limit, get_state_history m limit =
    (if (0 <? limit)%Z
     then drop (length (state_history m) - Z.to_nat limit) (state_history m)
     else drop (Z.to_nat (- limit)) (state_history m))).
  { clear limit. intros limit. unfold get_state_history, slice_from.
    destruct (state_history m) as [|r h] eqn:Hh.
    { destruct (0 <? limit)%Z; rewrite drop_nil; reflexivity. }
    rewrite <- Hh. clear Hh r h. set (h := state_history m).
    destruct (Z.ltb_spec 0 limit) as [Hpos|Hneg].
    - destruct (Z.ltb_spec (- limit) 0) as [_|Habs]; [|lia]. f_equal. lia.
    - destruct (Z.ltb_spec (- limit) 0) as [Habs|_]; [lia|].
      destruct (Z.min_spec (- limit) (Z.of_nat (length h))) as [[_ ->]|[Hge ->]];
        [reflexivity|].
      rewrite Nat2Z.id, !drop_ge by lia. reflexivity. }
  split; [apply Hmain|]. split.
  - rewrite Hmain. reflexivity.
  - rewrite Hmain. cbn [Z.ltb Z.compare]. rewrite length_drop. lia.
Qed.

Section HistoryInvariant.

Lemma walk_app s h r :
  walk s (h ++ [r]) =
  match walk s h with
  | Some s' => if bool_decide (h_from_state r = s') then Some (h_to_state r) else None
  | None => None
  end.
Proof.
  revert s. induction h as [|r' h IH]; intros s; cbn [walk app].
  - destruct (bool_decide _); reflexivity.
  - destruct (bool_decide (h_from_state r' = s)); [apply IH | reflexivity].
Qed.

Lemma last_origin_app h r : last_origin (h ++ [r]) = Some (h_from_state r).
Proof. unfold last_origin. rewrite last_snoc. reflexivity. Qed.

Lemma consistent_fields m m' : fields m = fields m' -> consistent m -> consistent m'.
Proof.
  intros H. apply fields_eq in H as (Hc & Hp & _ & Hh & _).
  unfold consistent. rewrite Hc, Hp, Hh. tauto.
Qed.

(** Moving to [s] with a lawful record keeps the history a path. *)
Lemma consistent_step m m' s r :
  consistent m ->
  h_from_state r = current_state m -> h_to_state r = s -> lawful r ->
  current_state m' = s -> previous_state m' = Some (current_state m) ->
  state_history m' = (state_history m ++ [r])%list ->
  consistent m'.
Proof.
  intros (Hw & Hp & Hl) Hfrom Hto Hr Hc' Hp' Hh'. unfold consistent.
  rewrite Hh', Hc', Hp', walk_app, Hw, last_origin_app, Hfrom, Hto.
  rewrite bool_decide_eq_true_2 by reflexivity.
  split; [reflexivity|]. split; [reflexivity|].
  apply Forall_app. split; [exact Hl | constructor; [exact Hr | constructor]].
Qed.

Lemma consistent_transition_to m s c now :
  consistent m -> consistent (snd (transition_to m s c now)).
Proof.
  intros Hm. destruct (fst (transition_to m s c now)) eqn:Hok.
  - pose proof Hok as Hedge. apply transition_to_true_iff in Hedge as [Hedge _].
    apply transition_to_accepted, control_eq in Hok as (Hc & Hp & Hh & _).
    apply (consistent_step m _ s (transition_record (current_state m) s now c));
      try assumption; try reflexivity.
    right. exact Hedge.
  - apply transition_to_refused in Hok as [Hf _].
    apply (consistent_fields m); [symmetry; exact Hf | exact Hm].
Qed.

Lemma consistent_process_scan ts m time_in_state now :
  consistent m -> consistent (process_scan ts m time_in_state now).
Proof.
  intros Hm. induction ts as [|t ts IH]; cbn [process_scan]; [exact Hm|].
  destruct (timeout_due t m time_in_state); [|exact IH].
  apply consistent_transition_to.
  apply (consistent_fields m); [reflexivity | exact Hm].
Qed.

Lemma consistent_call m c : consistent m -> consistent (call m c).
Proof.
  intros Hm. destruct c as [now [s ctx| |s reason|k v|k|s cb|s cb|]]; unfold call; cbn [fst snd].
  - apply consistent_transition_to, Hm.
  - unfold process. destruct (transitions !! current_state m);
      [apply consistent_process_scan, Hm | exact Hm].
  - apply (consistent_step m _ s (forced_record (current_state m) s now reason));
      try reflexivity; [exact Hm | left; reflexivity].
  - destruct Hm as (Hw & Hp & Hl). repeat split; assumption.
  - destruct Hm as (Hw & Hp & Hl). repeat split; assumption.
  - destruct Hm as (Hw & Hp & Hl). repeat split; assumption.
  - destruct Hm as (Hw & Hp & Hl). repeat split; assumption.
  - repeat split. constructor.
Qed.

End HistoryInvariant.

(** X10. Whatever sequence of calls is made on a new machine, its history is
    a path from INITIALIZING to the current state, [previous_state] is the
    origin of the last record, and every record is either forced or an edge
    of the declared graph. *)
Theorem history_is_a_path cs t0 :
  walk INITIALIZING (state_history (calls cs (StateMachine.init t0))) =
    Some (current_state (calls cs (StateMachine.init t0))) /\
  previous_state (calls cs (StateMachine.init t0)) =
    last_origin (state_history (calls cs (StateMachine.init t0))) /\
  Forall lawful (state_history (calls cs (StateMachine.init t0))).
Proof.
  assert (Hgen : forall m, consistent m -> consistent (calls cs m)).
  { unfold calls. induction cs as [|c cs IH]; intros m Hm; cbn [fold_left];
      [exact Hm | apply IH, consistent_call, Hm]. }
  apply Hgen. repeat split. constructor.
Qed.

Section Callbacks.

Lemma calls_made_app t1 t2 : calls_made (t1 ++ t2) = (calls_made t1 ++ calls_made t2)%list.
Proof. apply omap_app. Qed.

Lemma calls_run_callbacks what s c cbs :
  forall m,
    calls_made (effects (fold_left (run_callback what s c) cbs m)) =
    (calls_made (effects m) ++ map (fun cb => (cb_name cb, s)) cbs)%list.
Proof.
  induction cbs as [|cb cbs IH]; intros m; cbn [fold_left map].
  - rewrite app_nil_r. reflexivity.
  - rewrite IH. unfold run_callback.
    destruct (cb_raises cb s c); unfold log, emit; cbn [effects];
      rewrite ?calls_made_app; cbn; rewrite <- ?app_assoc, ?app_nil_r; reflexivity.
Qed.

Lemma calls_execute_action f t now m c :
  calls_made (effects (execute_action (make_transition f t) now m c)) =
  calls_made (effects m).
Proof.
  unfold execute_action, make_transition.
  repeat case_bool_decide; cbn [action]; try reflexivity;
    unfold _on_examination_start, _on_results_ready, _on_return_to_idle,
      _on_error_recovery, set_data, clear_data, with_state_data, log, emit;
    cbn [effects]; rewrite calls_made_app; cbn; apply app_nil_r.
Qed.

Lemma calls_exit_callbacks s c m :
  calls_made (effects (_execute_state_exit_callbacks s c m)) =
  (calls_made (effects m) ++ registered (state_exit_callbacks m) s)%list.
Proof.
  unfold _execute_state_exit_callbacks, registered.
  destruct (state_exit_callbacks m !! s) as [cbs|]; cbn [default map].
  - apply calls_run_callbacks.
  - rewrite app_nil_r. reflexivity.
Qed.

Lemma calls_enter_callbacks s c m :
  calls_made (effects (_execute_state_enter_callbacks s c m)) =
  (calls_made (effects m) ++ registered (state_enter_callbacks m) s)%list.
Proof.
  unfold _execute_state_enter_callbacks, registered.
  destruct (state_enter_callbacks m !! s) as [cbs|]; cbn [default map].
  - apply calls_run_callbacks.
  - rewrite app_nil_r. reflexivity.
Qed.

End Callbacks.


(* ===================================================================== *)
(** * Further properties of the decision engine                           *)
(* ===================================================================== *)

Section Explanation.

Lemma string_app_assoc (a b c : string) : (a ++ b) ++ c = a ++ b ++ c.
Proof.
  induction a as [|x a IH]; [reflexivity|].
  change (String x ((a ++ b) ++ c) = String x (a ++ b ++ c)).
  rewrite IH. reflexivity.
Qed.

Lemma string_app_nil_r (a : string) : a ++ "" = a.
Proof.
  induction a as [|x a IH]; [reflexivity|].
  change (String x (a ++ "") = String x a).
  rewrite IH. reflexivity.
Qed.

(** The text of some lines, each behind a line break. *)
Lemma lines_app (a b : list string) :
  fold_right (fun line rest => newline ++ line ++ rest) "" (a ++ b) =
  fold_right (fun line rest => newline ++ line ++ rest) "" a
  ++ fold_right (fun line rest => newline ++ line ++ rest) "" b.
Proof.
  induction a as [|x a IH]; [reflexivity|].
  cbn [app fold_right]. rewrite IH, !string_app_assoc. reflexivity.
Qed.

(** Joining lines with the line break puts the break in front of every line
    but the first. *)
Lemma join_newline head rest :
  join newline (head :: rest) =
  head ++ fold_right (fun line rest => newline ++ line ++ rest) "" rest.
Proof.
  revert head. induction rest as [|line rest IH]; intros head.
  - cbn. rewrite string_app_nil_r. reflexivity.
  - change (join newline (head :: line :: rest))
      with (head ++ newline ++ join newline (line :: rest)).
    rewrite IH. reflexivity.
Qed.

Lemma lines_bullets (items : list string) :
  fold_right (fun line rest => newline ++ line ++ rest) ""
    (map (fun item => "  • " ++ item) items) = bullets items.
Proof.
  unfold bullets. induction items as [|x items IH]; [reflexivity|].
  cbn [map fold_right]. rewrite IH, string_app_assoc. reflexivity.
Qed.

Lemma lines_under heading (items : list string) :
  fold_right (fun line rest => newline ++ line ++ rest) ""
    ((newline ++ heading) :: map (fun item => "  • " ++ item) items) =
  newline ++ newline ++ heading ++ bullets items.
Proof.
  cbn [fold_right]. rewrite lines_bullets, string_app_assoc. reflexivity.
Qed.

End Explanation.

(** X12. The explanation is the sentence for the level; then, if there is
    any risk factor, a blank line, the heading [Key findings:] and the first
    five factors, in their order, one bulleted line each; then, if there is
    any component, a blank line, the heading [Risk assessment:] and one
    bulleted line per component with its score to two decimals. A sixth
    factor is not shown. *)
Theorem explanation_shows_five_factors risk_level risk_scores risk_factors :
  _generate_explanation risk_level risk_scores risk_factors =
  (if String.eqb risk_level "HIGH" then
     "HIGH RISK: Significant abnormalities detected."
   else if String.eqb risk_level "MEDIUM" then
     "MEDIUM RISK: Some abnormalities detected."
   else "LOW RISK: No significant abnormalities detected.")
  ++ match risk_factors with
     | [] => ""
     | _ => newline ++ newline ++ "Key findings:" ++ bullets (firstn 5 risk_factors)
     end
  ++ match risk_scores with
     | [] => ""
     | _ => newline ++ newline ++ "Risk assessment:"
            ++ bullets (map (fun '(component, score) =>
                               component ++ ": " ++ format_fixed 2 score)
                          risk_scores)
     end.
Proof.
  unfold _generate_explanation. cbv zeta.
  change ([?h] ++ ?rest)%list with (h :: rest).
  rewrite join_newline, lines_app. f_equal. f_equal.
  - destruct risk_factors as [|f fs]; [reflexivity|]. apply lines_under.
  - destruct risk_scores as [|s ss]; [reflexivity|].
    rewrite <- lines_under. f_equal. f_equal.
    rewrite map_map. apply map_ext. intros [component score]. reflexivity.
Qed.

Section Evidence.

Lemma when_successful_skips r analyze component ev :
  truthy r = false \/
  (exists d, r = PDict d /\
             truthy (match dict_get d "success" with Some v => v | None => PNone end)
             = false) ->
  when_successful r analyze component ev = Ok ev.
Proof.
  unfold when_successful. intros [Hf | (d & -> & Hs)].
  - rewrite Hf. reflexivity.
  - destruct (truthy (PDict d)); [|reflexivity].
    cbn [py_get bind]. rewrite Hs. reflexivity.
Qed.

End Evidence.

(** X13. A classifier result whose [success] is absent or falsy counts as
    absent, whatever else it holds and whatever the other result is: the
    decision is the one taken without it. *)
Theorem unsuccessful_results_are_ignored self timestamp failed other sensor_data
    examination_data :
  truthy (get_or failed "success" PNone) = false ->
  make_decision self timestamp (PDict failed) other sensor_data examination_data =
    make_decision self timestamp PNone other sensor_data examination_data /\
  make_decision self timestamp other (PDict failed) sensor_data examination_data =
    make_decision self timestamp other PNone sensor_data examination_data.
Proof.
  intros Hf.
  assert (Hskip : forall analyze component ev,
             when_successful (PDict failed) analyze component ev = Ok ev).
  { intros. apply when_successful_skips. right. exists failed. split; [reflexivity|].
    exact Hf. }
  assert (Hnone : forall analyze component ev,
             when_successful PNone analyze component ev = Ok ev).
  { intros. apply when_successful_skips. left. reflexivity. }
  unfold make_decision, make_decision_try. split.
  - rewrite Hskip, Hnone. reflexivity.
  - destruct (when_successful other _ _ _) as [ev|e]; cbn [bind]; [|reflexivity].
    rewrite Hskip, Hnone. reflexivity.
Qed.

Lemma unsuccessful_results_witness :
  make_decision default_engine "t"
    (PDict [("success", PBool false); ("predicted_class", PStr "Abnormal");
            ("confidence", PFloat 1)])
    wheeze scenario_a_sensor PNone =
  make_decision default_engine "t" PNone wheeze scenario_a_sensor PNone.
Proof.
  apply (unsuccessful_results_are_ignored default_engine "t"
           [("success", PBool false); ("predicted_class", PStr "Abnormal");
            ("confidence", PFloat 1)] wheeze scenario_a_sensor PNone).
  reflexivity.
Defined.

Section Scores.

Lemma py_get_dict d k default : py_get (PDict d) k default = Ok (get_or d k default).
Proof. reflexivity. Qed.

Lemma py_format_fixed_number digits v x :
  as_number v = Some x -> py_format_fixed digits v = Ok (format_fixed digits x).
Proof. destruct v; cbn; intros [= <-]; reflexivity. Qed.

Lemma py_float_mul_number c v x : as_number v = Some x -> py_float_mul c v = Ok (fmul c x).
Proof. unfold py_float_mul. intros ->. reflexivity. Qed.

Lemma fmul_le c x y : (0 <= c)%Q -> (x <= y)%Q -> (fmul c x <= fmul c y)%Q.
Proof.
  intros Hc Hxy. unfold fmul. rewrite !Qred_correct.
  rewrite !(Qmult_comm c). apply Qmult_le_compat_r; assumption.
Qed.

End Scores.

(** X14. For a fixed label other than "Normal", the heart and the lung
    component scores do not decrease when the confidence grows. *)
Theorem abnormal_score_grows_with_confidence self d1 d2 x1 x2 :
  get_or d1 "predicted_class" (PStr "Normal") = get_or d2 "predicted_class" (PStr "Normal") ->
  differs_from_str (get_or d1 "predicted_class" (PStr "Normal")) "Normal" = true ->
  as_number (get_or d1 "confidence" (PFloat 0)) = Some x1 ->
  as_number (get_or d2 "confidence" (PFloat 0)) = Some x2 ->
  (x1 <= x2)%Q ->
  (exists a1 a2,
      _analyze_heart_prediction self (PDict d1) = Ok a1 /\
      _analyze_heart_prediction self (PDict d2) = Ok a2 /\
      (score a1 <= score a2)%Q) /\
  (exists a1 a2,
      _analyze_lung_prediction self (PDict d1) = Ok a1 /\
      _analyze_lung_prediction self (PDict d2) = Ok a2 /\
      (score a1 <= score a2)%Q).
Proof.
  intros Hsame Habn Hx1 Hx2 Hle. split.
  - unfold _analyze_heart_prediction. rewrite !py_get_dict. cbn [bind].
    rewrite <- Hsame, Habn.
    rewrite (py_float_mul_number _ _ _ Hx1), (py_float_mul_number _ _ _ Hx2).
    cbn [bind]. eexists _, _. split; [reflexivity|]. split; [reflexivity|].
    cbn [score]. apply fmul_le; [discriminate | exact Hle].
  - unfold _analyze_lung_prediction. rewrite !py_get_dict. cbn [bind].
    rewrite <- Hsame, Habn.
    rewrite !(py_float_mul_number _ _ _ Hx1), !(py_float_mul_number _ _ _ Hx2).
    cbn [bind].
    repeat (destruct (negb (differs_from_str _ _));
            [eexists _, _; split; [reflexivity|]; split; [reflexivity|];
             cbn [score]; apply fmul_le; [discriminate | exact Hle] |]).
    eexists _, _. split; [reflexivity|]. split; [reflexivity|].
    cbn [score]. apply fmul_le; [discriminate | exact Hle].
Qed.

Lemma abnormal_score_witness :
  exists a1 a2,
    _analyze_heart_prediction default_engine
      (PDict [("predicted_class", PStr "Murmur"); ("confidence", PFloat (1 # 2))]) = Ok a1 /\
    _analyze_heart_prediction default_engine
      (PDict [("predicted_class", PStr "Murmur"); ("confidence", PFloat (9 # 10))]) = Ok a2 /\
    (score a1 <= score a2)%Q.
Proof.
  refine (proj1 (abnormal_score_grows_with_confidence default_engine
     [("predicted_class", PStr "Murmur"); ("confidence", PFloat (1 # 2))]
     [("predicted_class", PStr "Murmur"); ("confidence", PFloat (9 # 10))]
     (1 # 2) (9 # 10) eq_refl eq_refl eq_refl eq_refl _)).
  discriminate.
Defined.

Ltac unbind H :=
  repeat match type of H with
         | context [bind ?r _] =>
             let E := fresh "E" in
             destruct r eqn:E; cbn [bind] in H; [|discriminate H]
         | context [if ?b then _ else _] =>
             let E := fresh "B" in destruct b eqn:E
         end.

Ltac vital_tail H ds a :=
  rewrite py_get_dict in H; cbn [bind] in H;
  destruct (get_or ds "movement" (PDict [])) as [| | | | | |dm] eqn:Hm;
    try discriminate H;
  rewrite py_get_dict in H; cbn [bind] in H;
  rewrite py_get_dict in H; cbn [bind] in H;
  destruct (get_or ds "distance" (PDict [])) as [| | | | | |dd] eqn:Hdist;
    try discriminate H;
  rewrite py_get_dict in H; cbn [bind] in H;
  apply (f_equal (fun r => match r with Ok v => Some v | Raise _ => None end)) in H;
  cbv beta iota in H;
  apply (inj Some) in H; subst a.

Ltac vital_done ds dt dm dd :=
  exists ds, dt, dm, dd;
  match goal with
  | Hv : truthy (get_or dt "valid" PNone) = _,
    Hm : get_or ds "movement" _ = _,
    Hdist : get_or ds "distance" _ = _ |- _ => rewrite Hv, Hm, Hdist
  end;
  cbv iota;
  destruct (truthy (get_or dm "detected" PNone)),
    (truthy (get_or dd "in_range" PNone));
  (split; [reflexivity|]; split; [assumption|]; split; [reflexivity|];
   split; [reflexivity|]; split; [|split; reflexivity]).

(** X15. The vital-sign score is decided by the temperature alone: 0.0
    without a valid reading, 0.3 for a reading at or above the fever
    threshold, 0.2 for one below 35, 0.0 between the two. Movement and an
    out-of-range placement add a finding each and no score; every finding
    comes with one recommendation. *)
Theorem vital_score_values self sensor_data a :
  _analyze_vital_signs self sensor_data = Ok a ->
  exists ds dt dm dd,
    sensor_data = PDict ds /\
    get_or ds "temperature" (PDict []) = PDict dt /\
    get_or ds "movement" (PDict []) = PDict dm /\
    get_or ds "distance" (PDict []) = PDict dd /\
    (if truthy (get_or dt "valid" PNone) then
       exists x limit,
         as_number (get_or dt "celsius" (PInt 0)) = Some x /\
         thresholds self !! "temperature_fever" = Some limit /\
         score a = (if Qle_bool limit x then 3 # 10
                    else if Qle_bool 35 x then 0 else 1 # 5)%Q
     else score a = 0%Q) /\
    length (factors a) =
      ((if Qeq_bool (score a) 0 then 0 else 1)
       + (if truthy (get_or dm "detected" PNone) then 1 else 0)
       + (if truthy (get_or dd "in_range" PNone) then 0 else 1))%nat /\
    length (recommendations a) = length (factors a).
Proof.
  unfold _analyze_vital_signs. intros H.
  destruct sensor_data as [| | | | | |ds]; try discriminate H.
  rewrite py_get_dict in H; cbn [bind] in H.
  destruct (get_or ds "temperature" (PDict [])) as [| | | | | |dt] eqn:Ht;
    try discriminate H.
  rewrite py_get_dict in H; cbn [bind] in H.
  destruct (truthy (get_or dt "valid" PNone)) eqn:Hv.
  - rewrite py_get_dict in H; cbn [bind] in H. unfold py_index in H.
    destruct (thresholds self !! "temperature_fever") as [limit|] eqn:Hl;
      [|discriminate H].
    cbn [bind] in H. unfold py_ge in H.
    destruct (as_number (get_or dt "celsius" (PInt 0))) as [x|] eqn:Hx;
      [|discriminate H].
    change (as_number (PFloat limit)) with (Some limit) in H.
    cbv iota in H. cbn [bind] in H.
    destruct (Qle_bool limit x) eqn:Hfever.
    + rewrite (py_format_fixed_number 1 _ _ Hx) in H; cbn [bind] in H.
      vital_tail H ds a. vital_done ds dt dm dd;
        (exists x, limit; rewrite Hfever; repeat split; assumption || reflexivity).
    + unfold py_lt in H. rewrite Hx in H.
      change (as_number (PFloat 35)) with (Some 35%Q) in H.
      cbv iota in H. cbn [bind] in H.
      destruct (Qle_bool 35 x) eqn:Hwarm; cbn [negb] in H.
      * vital_tail H ds a. vital_done ds dt dm dd;
          (exists x, limit; rewrite Hfever, Hwarm;
           repeat split; assumption || reflexivity).
      * rewrite (py_format_fixed_number 1 _ _ Hx) in H; cbn [bind] in H.
        vital_tail H ds a. vital_done ds dt dm dd;
          (exists x, limit; rewrite Hfever, Hwarm;
           repeat split; assumption || reflexivity).
  - vital_tail H ds a. vital_done ds dt dm dd; reflexivity.
Qed.

Lemma vital_score_witness :
  exists a,
    _analyze_vital_signs default_engine feverish_sensor = Ok a /\
    score a = (3 # 10)%Q.
Proof.
  destruct (_analyze_vital_signs default_engine feverish_sensor) as [a|e] eqn:Ha;
    [|vm_compute in Ha; discriminate Ha].
  exists a. split; [reflexivity|].
  destruct (vital_score_values default_engine feverish_sensor a Ha)
    as (ds & dt & dm & dd & Hs & Ht & _ & _ & Hscore & _).
  unfold feverish_sensor in Hs. injection Hs as <-.
  vm_compute in Ht. injection Ht as <-.
  change (truthy (get_or [("valid", PBool true); ("celsius", PFloat (77 # 2))]
                    "valid" PNone)) with true in Hscore.
  destruct Hscore as (x & limit & Hx & Hl & ->).
  vm_compute in Hx. injection Hx as <-.
  vm_compute in Hl. injection Hl as <-.
  reflexivity.
Defined.

Section Decision.

(** The shape of a decision the [try] block returns. *)
Lemma make_decision_try_Ok self t h l s x d :
  make_decision_try self t h l s x = Ok d ->
  exists ev r,
    _calculate_overall_risk self (risk_scores ev) = Ok r /\
    d = [ ("timestamp", PStr t);
          ("risk_level", PStr (_determine_risk_level r));
          ("risk_score", PFloat r);
          ("risk_scores_breakdown",
           PDict (map (fun '(k, v) => (k, PFloat v)) (risk_scores ev)));
          ("risk_factors", PList (map PStr (collected_factors ev)));
          ("recommendations", PList (map PStr (collected_recommendations ev)));
          ("explanation",
           PStr (_generate_explanation (_determine_risk_level r) (risk_scores ev)
                   (collected_factors ev)));
          ("requires_referral",
           PBool (bool_decide (_determine_risk_level r ∈ ["MEDIUM"; "HIGH"])));
          ("urgency",
           PStr (_determine_urgency (_determine_risk_level r) (collected_factors ev)));
          ("confidence", PFloat (_calculate_decision_confidence (risk_scores ev))) ].
Proof.
  unfold make_decision_try.
  destruct (when_successful h _ _ _) as [ev1|e]; cbn [bind]; [|discriminate].
  destruct (when_successful l _ _ _) as [ev2|e]; cbn [bind]; [|discriminate].
  destruct (if truthy s then _ else _) as [ev3|e]; cbn [bind]; [|discriminate].
  destruct (_calculate_overall_risk self (risk_scores ev3)) as [r|e] eqn:Hr;
    cbn [bind]; [|discriminate].
  intros [= <-]. exists ev3, r. split; [exact Hr | reflexivity].
Qed.

(** The three levels, by score. *)
Lemma determine_risk_level_cases r :
  (_determine_risk_level r = "HIGH" /\ (7 # 10 <= r)%Q) \/
  (_determine_risk_level r = "MEDIUM" /\ (4 # 10 <= r)%Q /\ (r < 7 # 10)%Q) \/
  (_determine_risk_level r = "LOW" /\ (r < 4 # 10)%Q).
Proof.
  unfold _determine_risk_level.
  destruct (Qle_bool (7 # 10) r) eqn:H7.
  - left. split; [reflexivity | apply Qle_bool_iff, H7].
  - assert (r < 7 # 10)%Q.
    { apply Qnot_le_lt. intros H. apply Qle_bool_iff in H. congruence. }
    destruct (Qle_bool (4 # 10) r) eqn:H4.
    + right; left. split; [reflexivity|]. split; [apply Qle_bool_iff, H4 | assumption].
    + right; right. split; [reflexivity|].
      apply Qnot_le_lt. intros H'. apply Qle_bool_iff in H'. congruence.
Qed.

Lemma urgency_of_medium factors :
  _determine_urgency "MEDIUM" factors = "URGENT" \/
  _determine_urgency "MEDIUM" factors = "ROUTINE".
Proof.
  unfold _determine_urgency. cbn [String.eqb Ascii.eqb Bool.eqb].
  change ("MEDIUM" =? "HIGH")%string with false.
  change ("MEDIUM" =? "MEDIUM")%string with true. cbv iota.
  destruct (existsb _ factors); [left | right]; reflexivity.
Qed.

End Decision.

(** X16. In every decision, referral is waived exactly when the urgency is
    NON-URGENT, and then the level is LOW with a score below 0.4; a HIGH
    decision is always URGENT. *)
Theorem referral_waived_only_when_low self timestamp heart_result lung_result
    sensor_data examination_data :
  (dict_get (make_decision self timestamp heart_result lung_result sensor_data
               examination_data) "requires_referral" = Some (PBool false) <->
   dict_get (make_decision self timestamp heart_result lung_result sensor_data
               examination_data) "urgency" = Some (PStr "NON-URGENT")) /\
  (dict_get (make_decision self timestamp heart_result lung_result sensor_data
               examination_data) "requires_referral" = Some (PBool false) ->
   dict_get (make_decision self timestamp heart_result lung_result sensor_data
               examination_data) "risk_level" = Some (PStr "LOW") /\
   exists r,
     dict_get (make_decision self timestamp heart_result lung_result sensor_data
                 examination_data) "risk_score" = Some (PFloat r) /\ (r < 4 # 10)%Q) /\
  (dict_get (make_decision self timestamp heart_result lung_result sensor_data
               examination_data) "risk_level" = Some (PStr "HIGH") ->
   dict_get (make_decision self timestamp heart_result lung_result sensor_data
               examination_data) "urgency" = Some (PStr "URGENT")).
Proof.
  unfold make_decision.
  destruct (make_decision_try self timestamp heart_result lung_result sensor_data
              examination_data) as [d|e] eqn:Htry.
  - apply make_decision_try_Ok in Htry as (ev & r & _ & ->).
    cbn [dict_get String.eqb Ascii.eqb Bool.eqb].
    destruct (determine_risk_level_cases r) as [[-> _] | [[-> _] | [-> Hlow]]].
    + split; [split; discriminate|]. split; [discriminate|]. reflexivity.
    + destruct (urgency_of_medium (collected_factors ev)) as [-> | ->];
        (split; [split; discriminate|]); (split; discriminate).
    + split; [split; reflexivity|]. split; [|discriminate].
      intros _. split; [reflexivity|]. exists r. split; [reflexivity | exact Hlow].
  - cbn [dict_get String.eqb Ascii.eqb Bool.eqb].
    split; [split; discriminate|]. split; discriminate.
Qed.

Lemma referral_waived_witness :
  dict_get (make_decision default_engine "t" scenario_b_result scenario_b_result
              scenario_b_sensor PNone) "risk_level" = Some (PStr "LOW").
Proof.
  refine (proj1 (proj1 (proj2 (referral_waived_only_when_low default_engine "t"
            scenario_b_result scenario_b_result scenario_b_sensor PNone)) _)).
  vm_compute. reflexivity.
Defined.

Section Confidence.

Lemma np_sqrt_nonneg q : (0 <= np_sqrt q)%Q.
Proof.
  unfold np_sqrt. destruct (Qle_bool q 0); [apply Qle_refl|].
  rewrite Qred_correct. unfold Qle; cbn. rewrite Z.mul_1_r.
  apply Z.sqrt_nonneg.
Qed.

Lemma np_sqrt_zero q : (q == 0)%Q -> np_sqrt q = 0%Q.
Proof.
  intros Hq. unfold np_sqrt.
  assert (H : Qle_bool q 0 = true) by (apply Qle_bool_iff; rewrite Hq; apply Qle_refl).
  rewrite H. reflexivity.
Qed.

Lemma fsum_from_nonneg xs : forall acc,
  (0 <= acc)%Q -> Forall (fun x => (0 <= x)%Q) xs -> (0 <= fold_left fadd xs acc)%Q.
Proof.
  induction xs as [|x xs IH]; intros acc Hacc Hall; cbn [fold_left]; [exact Hacc|].
  inversion Hall as [|? ? Hx Hxs]; subst. apply IH; [|exact Hxs].
  unfold fadd. rewrite Qred_correct. lra.
Qed.

Lemma fdiv_nonneg a b : (0 <= a)%Q -> (0 <= b)%Q -> (0 <= fdiv a b)%Q.
Proof.
  intros Ha Hb. unfold fdiv. rewrite Qred_correct. unfold Qdiv.
  apply Qmult_le_0_compat; [exact Ha | apply Qinv_le_0_compat, Hb].
Qed.

Lemma np_mean_nonneg xs : Forall (fun x => (0 <= x)%Q) xs -> (0 <= np_mean xs)%Q.
Proof.
  intros Hall. unfold np_mean. apply fdiv_nonneg.
  - apply fsum_from_nonneg; [apply Qle_refl | exact Hall].
  - unfold Qle; cbn. lia.
Qed.

Lemma confidence_from_ratio x :
  (0 <= x)%Q -> (0 <= fsub 1 (fmin x 1))%Q /\ (fsub 1 (fmin x 1) <= 1)%Q.
Proof.
  intros Hx. unfold fsub, fmin. rewrite Qred_correct.
  destruct (Qle_bool 1 x) eqn:H1.
  - split; lra.
  - assert (x < 1)%Q.
    { apply Qnot_le_lt. intros H. apply Qle_bool_iff in H. congruence. }
    split; lra.
Qed.

End Confidence.

(** X18. The decision confidence lies in [0, 1] when no component score is
    negative, and is 1.0 when there is a single component. *)
Theorem decision_confidence_bounds risk_scores :
  Forall (fun p => (0 <= snd p)%Q) risk_scores ->
  (0 <= _calculate_decision_confidence risk_scores)%Q /\
  (_calculate_decision_confidence risk_scores <= 1)%Q /\
  (length risk_scores = 1%nat -> _calculate_decision_confidence risk_scores = 1%Q).
Proof.
  intros Hall. unfold _calculate_decision_confidence.
  destruct risk_scores as [|[k s] rest] eqn:Hrs.
  { split; [apply Qle_refl|]. split; [discriminate | discriminate]. }
  rewrite <- Hrs in *. clear Hrs.
  assert (Hscores : Forall (fun x => (0 <= x)%Q) (map snd risk_scores)).
  { apply Forall_map. exact Hall. }
  assert (Hratio : (0 <= fdiv (np_std (map snd risk_scores))
                           (fadd (np_mean (map snd risk_scores)) (1 # 10)))%Q).
  { apply fdiv_nonneg; [apply np_sqrt_nonneg|].
    unfold fadd. rewrite Qred_correct.
    pose proof (np_mean_nonneg _ Hscores). lra. }
  destruct (confidence_from_ratio _ Hratio) as [H0 H1].
  split; [exact H0|]. split; [exact H1|].
  intros Hone. destruct risk_scores as [|[k' s'] [|]]; try discriminate Hone.
  cbn [map snd].
  assert (Hstd : np_std [s'] = 0%Q).
  { unfold np_std. apply np_sqrt_zero. cbn [map].
    unfold np_mean, fsum, fdiv, fadd, fmul, fsub. cbn [fold_left length].
    rewrite !Qred_correct. change (inject_Z (Z.of_nat 1)) with 1%Q. field. }
  rewrite Hstd.
  unfold fsub, fmin, fdiv.
  assert (Hz : (Qred (0 / fadd (np_mean [s']) (1 # 10)) == 0)%Q).
  { rewrite Qred_correct. unfold Qdiv. apply Qmult_0_l. }
  assert (Hb : Qle_bool 1 (Qred (0 / fadd (np_mean [s']) (1 # 10))) = false).
  { apply not_true_iff_false. intros H. apply Qle_bool_iff in H. rewrite Hz in H.
    lra. }
  rewrite Hb. change 1%Q with (Qred 1) at 2. apply Qred_complete.
  rewrite Hz. reflexivity.
Qed.

Lemma decision_confidence_witness :
  _calculate_decision_confidence [("heart_ml", 18 # 25)] = 1%Q.
Proof.
  apply (decision_confidence_bounds [("heart_ml", 18 # 25)]).
  - repeat constructor. discriminate.
  - reflexivity.
Defined.

(** X19. Thresholds passed to the constructor replace the defaults as a
    whole; if they leave out [ml_confidence], a successful "Normal" heart
    result ends in the UNKNOWN decision with referral required. *)
Theorem partial_thresholds_fail_closed given heart timestamp lung_result
    sensor_data examination_data :
  dom given <> ∅ ->
  given !! "ml_confidence" = None ->
  truthy (get_or heart "success" PNone) = true ->
  get_or heart "predicted_class" (PStr "Normal") = PStr "Normal" ->
  thresholds (Triage.init (Some given) None None) = given /\
  make_decision (Triage.init (Some given) None None) timestamp (PDict heart)
    lung_result sensor_data examination_data =
    [ ("error", PStr "'ml_confidence'"); ("risk_level", PStr "UNKNOWN");
      ("requires_referral", PBool true) ].
Proof.
  intros Hne Hmiss Hok Hnormal.
  assert (Hth : thresholds (Triage.init (Some given) None None) = given).
  { unfold Triage.init, or_default; cbn [thresholds].
    rewrite bool_decide_eq_false_2 by exact Hne. reflexivity. }
  split; [exact Hth|].
  unfold make_decision, make_decision_try, when_successful.
  assert (Ht : truthy (PDict heart) = true).
  { destruct heart; [discriminate Hok | reflexivity]. }
  rewrite Ht, py_get_dict. cbn [bind]. rewrite Hok.
  unfold _analyze_heart_prediction. rewrite !py_get_dict. cbn [bind].
  rewrite Hnormal. cbn [differs_from_str String.eqb Ascii.eqb Bool.eqb negb].
  change (differs_from_str (PStr "Normal") "Normal") with false. cbv iota.
  rewrite Hth. unfold py_index. rewrite Hmiss. reflexivity.
Qed.

Lemma partial_thresholds_witness :
  dict_get
    (make_decision (Triage.init (Some {[ "temperature_fever" := 39%Q ]}) None None)
       "t" scenario_b_result PNone PNone PNone) "risk_level" = Some (PStr "UNKNOWN").
Proof.
  pose proof (partial_thresholds_fail_closed {[ "temperature_fever" := 39%Q ]}
    [ ("success", PBool true); ("predicted_class", PStr "Normal");
      ("confidence", PFloat (95 # 100)) ] "t" PNone PNone PNone) as H.
  unfold scenario_b_result.
  rewrite (proj2 (H ltac:(vm_compute; discriminate) eq_refl eq_refl eq_refl)).
  reflexivity.
Defined.

Section Fever.

Lemma fever_factor_is_urgent shown :
  existsb (fun keyword => contains keyword (lower ("Fever detected: " ++ shown ++ "°C")))
    urgent_keywords = true.
Proof. reflexivity. Qed.

Lemma urgent_factor_found factors1 factor factors2 :
  existsb (fun keyword => contains keyword (lower factor)) urgent_keywords = true ->
  _determine_urgency "MEDIUM" (factors1 ++ factor :: factors2) = "URGENT".
Proof.
  intros Hf. unfold _determine_urgency.
  change ("MEDIUM" =? "HIGH")%string with false.
  change ("MEDIUM" =? "MEDIUM")%string with true. cbv iota.
  rewrite existsb_app. cbn [existsb]. rewrite Hf, orb_true_l, orb_true_r. reflexivity.
Qed.

(** With a valid temperature at or above the limit, the first finding of the
    vital signs is the fever. *)
Lemma vital_signs_report_fever self ds dt x limit a :
  dict_get ds "temperature" = Some (PDict dt) ->
  truthy (get_or dt "valid" PNone) = true ->
  as_number (get_or dt "celsius" (PInt 0)) = Some x ->
  thresholds self !! "temperature_fever" = Some limit ->
  (limit <= x)%Q ->
  _analyze_vital_signs self (PDict ds) = Ok a ->
  exists shown rest, factors a = ("Fever detected: " ++ shown ++ "°C") :: rest.
Proof.
  intros Ht Hv Hx Hl Hle. unfold _analyze_vital_signs.
  rewrite py_get_dict. unfold get_or at 1. rewrite Ht. cbn [bind].
  rewrite !py_get_dict. cbn [bind]. rewrite Hv.
  unfold py_index. rewrite Hl. cbn [bind].
  unfold py_ge. rewrite Hx. change (as_number (PFloat limit)) with (Some limit).
  cbv iota. cbn [bind].
  apply Qle_bool_iff in Hle. rewrite Hle. cbn [bind].
  rewrite (py_format_fixed_number 1 _ _ Hx). cbn [bind].
  intros H. unbind H; injection H as <-; cbn [factors noting raised app]; eauto.
Qed.

End Fever.

(** X20. A MEDIUM decision taken with a valid temperature at or above the
    fever threshold is URGENT. *)
Theorem fever_makes_medium_urgent self timestamp heart_result lung_result ds dt x
    limit examination_data d :
  dict_get ds "temperature" = Some (PDict dt) ->
  truthy (get_or dt "valid" PNone) = true ->
  as_number (get_or dt "celsius" (PInt 0)) = Some x ->
  thresholds self !! "temperature_fever" = Some limit ->
  (limit <= x)%Q ->
  make_decision_try self timestamp heart_result lung_result (PDict ds)
    examination_data = Ok d ->
  dict_get d "risk_level" = Some (PStr "MEDIUM") ->
  dict_get d "urgency" = Some (PStr "URGENT").
Proof.
  intros Ht Hv Hx Hl Hle. unfold make_decision_try.
  destruct (when_successful heart_result _ _ _) as [ev1|e]; cbn [bind]; [|discriminate].
  destruct (when_successful lung_result _ _ _) as [ev2|e]; cbn [bind]; [|discriminate].
  assert (Htruthy : truthy (PDict ds) = true).
  { destruct ds; [discriminate Ht | reflexivity]. }
  rewrite Htruthy.
  destruct (_analyze_vital_signs self (PDict ds)) as [a|e] eqn:Ha; cbn [bind];
    [|discriminate].
  destruct (vital_signs_report_fever self ds dt x limit a Ht Hv Hx Hl Hle Ha)
    as (shown & rest & Hfactors).
  destruct (_calculate_overall_risk self _) as [r|e]; cbn [bind]; [|discriminate].
  intros [= <-]. cbn [dict_get String.eqb Ascii.eqb Bool.eqb].
  intros [= Hlevel]. rewrite Hlevel.
  cbn [add_evidence collected_factors]. rewrite Hfactors.
  rewrite urgent_factor_found by apply fever_factor_is_urgent. reflexivity.
Qed.

Lemma fever_makes_medium_urgent_witness :
  dict_get (make_decision default_engine "t" PNone
              (PDict [("success", PBool true); ("predicted_class", PStr "Both");
                      ("confidence", PFloat (8 # 10))])
              feverish_sensor PNone) "urgency" = Some (PStr "URGENT").
Proof.
  unfold make_decision.
  destruct (make_decision_try default_engine "t" PNone
              (PDict [("success", PBool true); ("predicted_class", PStr "Both");
                      ("confidence", PFloat (8 # 10))]) feverish_sensor PNone)
    as [d|e] eqn:Htry; [|vm_compute in Htry; discriminate Htry].
  unfold feverish_sensor in Htry.
  refine (fever_makes_medium_urgent default_engine "t" PNone _
            [ ("temperature", PDict [("valid", PBool true); ("celsius", PFloat (77 # 2))]);
              ("movement", PDict [("detected", PBool false)]);
              ("distance", PDict [("in_range", PBool true)]) ]
            [("valid", PBool true); ("celsius", PFloat (77 # 2))] (77 # 2) 38
            PNone d eq_refl eq_refl eq_refl eq_refl _ Htry _).
  - discriminate.
  - vm_compute in Htry. injection Htry as <-. reflexivity.
Defined.

(* ===================================================================== *)
(** * Properties of the examination controller                            *)
(* ===================================================================== *)

Section ControllerFrames.

Lemma machine_note level msg st : machine (note level msg st) = machine st.
Proof. reflexivity. Qed.

Lemma machine_send message st : machine (send message st) = machine st.
Proof.
  unfold machine, send, with_manager; cbn [manager]. apply state_machine_send_message.
Qed.

Lemma machine_with_machine f st : machine (with_machine f st) = f (machine st).
Proof. reflexivity. Qed.

Lemma machine_happen h st : machine (happen h st) = machine st.
Proof. reflexivity. Qed.

Lemma machine_with_stats s st : machine (with_stats s st) = machine st.
Proof. reflexivity. Qed.

Lemma machine_with_clock t st : machine (with_clock t st) = machine st.
Proof. reflexivity. Qed.

Lemma serial_note level msg st :
  serial_manager (manager (note level msg st)) = serial_manager (manager st).
Proof. reflexivity. Qed.

Lemma serial_with_machine f st :
  serial_manager (manager (with_machine f st)) = serial_manager (manager st).
Proof. reflexivity. Qed.

Lemma serial_happen h st :
  serial_manager (manager (happen h st)) = serial_manager (manager st).
Proof. reflexivity. Qed.

Lemma capture_send message st :
  audio_capture (manager (send message st)) = audio_capture (manager st).
Proof.
  unfold send, with_manager, send_message; cbn [manager].
  destruct (serial_manager (manager st)); reflexivity.
Qed.

Lemma sent_note level msg st : sent (note level msg st) = sent st.
Proof. reflexivity. Qed.

Lemma sent_with_machine f st : sent (with_machine f st) = sent st.
Proof. reflexivity. Qed.

Lemma sent_happen h st : sent (happen h st) = sent st.
Proof. reflexivity. Qed.

Lemma sent_with_stats s st : sent (with_stats s st) = sent st.
Proof. reflexivity. Qed.

Lemma sent_with_clock t st : sent (with_clock t st) = sent st.
Proof. reflexivity. Qed.

Lemma sent_send message st :
  sent (send message st) =
  match serial_manager (manager st) with
  | Some _ => (sent st ++ [message])%list
  | None => []
  end.
Proof.
  unfold sent, send, with_manager, send_message; cbn [manager].
  destruct (serial_manager (manager st)) eqn:E; cbn [serial_manager]; rewrite ?E;
    reflexivity.
Qed.

Lemma happened_note level msg st : happened (note level msg st) = happened st.
Proof. reflexivity. Qed.

Lemma happened_send message st : happened (send message st) = happened st.
Proof. reflexivity. Qed.

Lemma happened_with_machine f st : happened (with_machine f st) = happened st.
Proof. reflexivity. Qed.

Lemma happened_happen h st : happened (happen h st) = (happened st ++ [h])%list.
Proof. reflexivity. Qed.

Lemma clock_note level msg st : clock (note level msg st) = clock st.
Proof. reflexivity. Qed.

Lemma clock_send message st : clock (send message st) = clock st.
Proof. reflexivity. Qed.

Lemma clock_with_machine f st : clock (with_machine f st) = clock st.
Proof. reflexivity. Qed.

Lemma clock_happen h st : clock (happen h st) = clock st.
Proof. reflexivity. Qed.

Lemma config_note level msg st : config (note level msg st) = config st.
Proof. reflexivity. Qed.

Lemma config_send message st : config (send message st) = config st.
Proof. reflexivity. Qed.

Lemma config_with_machine f st : config (with_machine f st) = config st.
Proof. reflexivity. Qed.

(** Asking for IDLE: where the machine ends. *)
Lemma request_idle_state m now :
  current_state (snd (transition_to m IDLE None now)) =
  if idle_is_next (current_state m) ||
     (bool_decide (current_state m = ERROR) &&
      truthy (get_data m "error_resolved" (PBool false)))
  then IDLE else current_state m.
Proof.
  destruct (fst (transition_to m IDLE None now)) eqn:Hok.
  - pose proof Hok as Hiff. apply transition_to_true_iff in Hiff as [Hedge Hguard].
    apply transition_to_accepted, control_eq in Hok as (Hc & _). rewrite Hc.
    destruct (current_state m) eqn:Hs; try reflexivity;
      try (apply (bool_decide_pack _) in Hedge; vm_compute in Hedge; contradiction).
    change (truthy (get_data m "error_resolved" (PBool false)) = true) in Hguard.
    rewrite Hguard. reflexivity.
  - pose proof Hok as Hno. apply transition_to_refused in Hno as [Hf _].
    apply fields_eq in Hf as (Hc & _). rewrite Hc.
    destruct (current_state m) eqn:Hs; try reflexivity;
      try (exfalso; apply not_true_iff_false in Hok; apply Hok;
           apply transition_to_true_iff; rewrite Hs;
           split; [apply (bool_decide_unpack _); vm_compute; exact I | reflexivity]).
    destruct (truthy (get_data m "error_resolved" (PBool false))) eqn:Hflag;
      [|reflexivity].
    exfalso. apply not_true_iff_false in Hok. apply Hok.
    apply transition_to_true_iff. rewrite Hs.
    split; [apply (bool_decide_unpack _); vm_compute; exact I | exact Hflag].
Qed.

End ControllerFrames.

Create Rewrite HintDb station.
#[local] Hint Rewrite machine_note machine_send machine_with_machine machine_happen
  machine_with_stats machine_with_clock serial_note serial_with_machine
  serial_happen capture_send sent_note sent_with_machine sent_happen
  sent_with_stats sent_with_clock happened_note happened_send
  happened_with_machine happened_happen clock_note clock_send clock_with_machine
  clock_happen config_note config_send config_with_machine : station.

(** X21. After [_return_to_idle] the stored examination and its results are
    gone, and the machine is in IDLE only if IDLE could be reached from
    where it was (an ERROR needs [error_resolved]); from PROCESSING it stays
    in PROCESSING. *)
Theorem return_to_idle_outcome st default :
  current_state (machine (_return_to_idle st)) =
    (if idle_is_next (current_state (machine st)) ||
        (bool_decide (current_state (machine st) = ERROR) &&
         truthy (get_data (machine st) "error_resolved" (PBool false)))
     then IDLE else current_state (machine st)) /\
  get_data (machine (_return_to_idle st)) "current_examination" default = default /\
  get_data (machine (_return_to_idle st)) "examination_results" default = default /\
  (current_state (machine st) = PROCESSING ->
   current_state (machine (_return_to_idle st)) = PROCESSING).
Proof.
  unfold _return_to_idle, request. cbn [snd]. rewrite machine_note.
  rewrite machine_with_machine.
  set (st2 := with_machine (clear_data (Some "examination_results"))
                (with_machine (clear_data (Some "current_examination"))
                   (send (reset_command (clock st)) st))).
  assert (Hm2 : machine st2 =
                clear_data (Some "examination_results")
                  (clear_data (Some "current_examination") (machine st))).
  { subst st2. rewrite !machine_with_machine, machine_send. reflexivity. }
  rewrite Hm2. generalize (clock st2) as now. clear st2 Hm2. intros now.
  set (m2 := clear_data (Some "examination_results")
               (clear_data (Some "current_examination") (machine st))).
  assert (Hc2 : current_state m2 = current_state (machine st)) by reflexivity.
  assert (Hflag : get_data m2 "error_resolved" (PBool false) =
                  get_data (machine st) "error_resolved" (PBool false)).
  { subst m2. rewrite !get_clear_data.
    rewrite !bool_decide_eq_false_2 by discriminate. reflexivity. }
  assert (Hk1 : get_data m2 "current_examination" default = default).
  { subst m2. rewrite get_clear_data, bool_decide_eq_false_2 by discriminate.
    rewrite get_clear_data, bool_decide_eq_true_2 by reflexivity. reflexivity. }
  assert (Hk2 : get_data m2 "examination_results" default = default).
  { subst m2. rewrite get_clear_data, bool_decide_eq_true_2 by reflexivity.
    reflexivity. }
  clearbody m2.
  pose proof (request_idle_state m2 now) as Hstate. rewrite Hc2, Hflag in Hstate.
  pose proof (transition_to_keeps_default m2 IDLE None now "current_examination"
                default ltac:(discriminate) ltac:(discriminate) Hk1) as Hd1.
  pose proof (transition_to_keeps_default m2 IDLE None now "examination_results"
                default ltac:(discriminate) ltac:(discriminate) Hk2) as Hd2.
  split; [exact Hstate|]. split; [exact Hd1|]. split; [exact Hd2|].
  intros Hp. rewrite Hstate, Hp. reflexivity.
Qed.

Section Starting.

Variable isoformat : Q -> string.
Variable start_capture : pyval -> Station -> Station.

(** The request for EXAMINING of [start_examination], from IDLE. *)
Lemma request_examining st :
  current_state (machine st) = IDLE ->
  (examination_ready (latest_sensor_data (machine st)) ->
   request EXAMINING st =
     (Ok true,
      with_machine (fun _ => snd (transition_to (machine st) EXAMINING None (clock st)))
        st) /\
   current_state (snd (transition_to (machine st) EXAMINING None (clock st))) = EXAMINING) /\
  (~ examination_ready (latest_sensor_data (machine st)) ->
   request EXAMINING st =
     (Ok false,
      with_machine (fun _ => snd (transition_to (machine st) EXAMINING None (clock st)))
        st) /\
   fields (snd (transition_to (machine st) EXAMINING None (clock st))) =
   fields (machine st)).
Proof.
  intros Hidle. unfold request.
  pose proof (transition_to_examining (machine st) None (clock st) Hidle) as Hfst.
  pose proof (guard_examining_iff (machine st) None) as Hguard.
  split; intros Hready.
  - apply Hguard in Hready. rewrite Hready in Hfst. rewrite Hfst.
    split; [reflexivity|].
    apply transition_to_accepted, control_eq in Hfst as (Hc & _). exact Hc.
  - assert (Hno : fst (transition_to (machine st) EXAMINING None (clock st)) = false).
    { rewrite Hfst. apply not_true_iff_false. intros H. apply Hready, Hguard, H. }
    rewrite Hno. split; [reflexivity|].
    apply transition_to_refused in Hno as [Hf _]. exact Hf.
Qed.

(** Starting keeps the examination record that was stored. *)
Lemma examination_start_keeps m now :
  get_data (snd (transition_to m EXAMINING None now)) "current_examination" PNone =
  get_data m "current_examination" PNone.
Proof.
  destruct (fst (transition_to m EXAMINING None now)) eqn:Hok.
  - unfold get_data. rewrite (transition_to_data _ _ _ _ Hok).
    destruct (current_state m); try reflexivity.
    unfold execute_action, make_transition; cbn [action].
    change (bool_decide (IDLE = IDLE /\ EXAMINING = EXAMINING)) with true. cbn [action].
    unfold _on_examination_start, set_data, clear_data, with_state_data, log, emit;
      cbn [state_data].
    rewrite !lookup_delete_ne, lookup_insert_ne by discriminate. reflexivity.
  - apply transition_to_refused in Hok as [Hf _].
    apply fields_eq in Hf as (_ & _ & Hd & _). unfold get_data. rewrite Hd. reflexivity.
Qed.

End Starting.

(** X22. Unless the machine is in IDLE and the sensor snapshot is ready,
    [start_examination] answers a failure, and neither the machine's fields
    nor the serial queue change and no task is started. *)
Theorem start_examination_refused isoformat start_capture mode st :
  current_state (machine st) <> IDLE \/
  ~ examination_ready (latest_sensor_data (machine st)) ->
  (exists reason,
      fst (start_examination isoformat start_capture mode st) =
      PDict [("success", PBool false); ("error", PStr reason)]) /\
  fields (machine (snd (start_examination isoformat start_capture mode st))) =
    fields (machine st) /\
  sent (snd (start_examination isoformat start_capture mode st)) = sent st /\
  happened (snd (start_examination isoformat start_capture mode st)) = happened st.
Proof.
  intros Hwhy.
  cbv beta iota delta [start_examination try_except start_examination_try then_ step].
  rewrite machine_note.
  destruct (decide (current_state (machine st) = IDLE)) as [Hidle|Hbusy].
  - destruct Hwhy as [Hbusy|Hnot]; [contradiction|].
    rewrite bool_decide_eq_true_2 by exact Hidle. cbv beta iota delta [negb].
    destruct (proj2 (request_examining
               (note LInfo ("Starting examination in " ++ py_str mode ++ " mode") st)
               Hidle) Hnot)
      as (-> & Hf).
    cbv beta iota delta [negb ret]. cbn [fst snd]. split; [eauto|].
    autorewrite with station in *. split; [exact Hf|]. split; reflexivity.
  - rewrite bool_decide_eq_false_2 by exact Hbusy.
    cbv beta iota delta [negb ret]. cbn [fst snd].
    split; [eauto|]. repeat split; reflexivity.
Qed.

Lemma start_examination_refused_witness :
  fst (start_examination (fun _ => "now") (fun _ st => st) (PStr "heart") busy_station) =
  PDict [("success", PBool false);
         ("error", PStr "Cannot start examination in PROCESSING state")].
Proof.
  assert (Hbusy : current_state (machine busy_station) <> IDLE)
    by (intros H; vm_compute in H; discriminate H).
  destruct (proj1 (start_examination_refused (fun _ => "now") (fun _ st => st)
                     (PStr "heart") busy_station (or_introl Hbusy))) as (reason & H).
  rewrite H. vm_compute in H. injection H as <-. reflexivity.
Defined.

(** X23. From IDLE with a ready snapshot, and with the audio disabled or no
    capture device, [start_examination] answers success with the start time
    as id, moves the machine to EXAMINING, stores mode, start time, duration
    and sample rate under [current_examination], queues the start command
    and starts the simulated examination task. *)
Theorem start_examination_simulated isoformat start_capture mode st duration
    sample_rate :
  current_state (machine st) = IDLE ->
  examination_ready (latest_sensor_data (machine st)) ->
  config_get st "examination" "duration" (PFloat 8) = Ok duration ->
  config_get st "audio" "sample_rate" (PInt 8000) = Ok sample_rate ->
  audio_enabled st = false \/ audio_capture (manager st) = None ->
  fst (start_examination isoformat start_capture mode st) =
    PDict [ ("success", PBool true);
            ("examination_id", PStr (isoformat (clock st)));
            ("duration", duration) ] /\
  current_state (machine (snd (start_examination isoformat start_capture mode st))) =
    EXAMINING /\
  get_data (machine (snd (start_examination isoformat start_capture mode st)))
    "current_examination" PNone =
    PDict [ ("mode", mode); ("start_time", PStr (isoformat (clock st)));
            ("duration", duration); ("sample_rate", sample_rate) ] /\
  happened (snd (start_examination isoformat start_capture mode st)) =
    (happened st ++ [Spawned "_run_simulated_examination" duration])%list /\
  sent (snd (start_examination isoformat start_capture mode st)) =
    match serial_manager (manager st) with
    | Some _ => (sent st ++ [start_command (clock st)])%list
    | None => []
    end.
Proof.
  intros Hidle Hready Hdur Hrate Hsim.
  cbv beta iota delta [start_examination try_except start_examination_try then_ step].
  rewrite machine_note, bool_decide_eq_true_2 by exact Hidle.
  cbv beta iota delta [negb].
  destruct (proj1 (request_examining
             (note LInfo ("Starting examination in " ++ py_str mode ++ " mode") st)
             Hidle) Hready) as (-> & Hex).
  autorewrite with station in Hex.
  cbv beta iota delta [negb lift].
  unfold config_get in *. autorewrite with station.
  rewrite Hdur, Hrate. cbv beta iota.
  assert (Hbranch : forall x y : Station,
            audio_enabled x = audio_enabled st ->
            audio_capture (manager y) = audio_capture (manager st) ->
            audio_enabled x && bool_decide (is_Some (audio_capture (manager y))) = false).
  { intros x y -> ->. destruct Hsim as [-> | ->]; [reflexivity|].
    apply andb_false_intro2, bool_decide_eq_false_2. intros [? H]; discriminate H. }
  rewrite Hbranch by (rewrite ?capture_send; reflexivity).
  cbv beta iota delta [ret]. cbn [fst snd].
  autorewrite with station.
  split; [reflexivity|].
  split; [exact Hex|].
  split; [rewrite get_set_data, bool_decide_eq_true_2 by reflexivity; reflexivity|].
  split; [reflexivity|].
  rewrite sent_send. autorewrite with station. reflexivity.
Qed.

Lemma start_examination_simulated_witness :
  current_state
    (machine (snd (start_examination (fun _ => "now") (fun _ st => st) (PStr "heart")
                     (simulated_station demo_idle (PDict []))))) = EXAMINING.
Proof.
  refine (proj1 (proj2 (start_examination_simulated (fun _ => "now") (fun _ st => st)
            (PStr "heart") (simulated_station demo_idle (PDict [])) (PFloat 8)
            (PInt 8000) _ _ eq_refl eq_refl (or_introl eq_refl)))).
  - vm_compute. reflexivity.
  - apply (guard_examining_iff (machine (simulated_station demo_idle (PDict []))) None).
    vm_compute. reflexivity.
Defined.

(** X24. When reading the configuration raises, [start_examination] answers
    the failure only after the transition: the machine is left in EXAMINING
    with no start command sent and [current_examination] not written. *)
Theorem start_examination_bad_config isoformat start_capture mode st e :
  current_state (machine st) = IDLE ->
  examination_ready (latest_sensor_data (machine st)) ->
  config_get st "examination" "duration" (PFloat 8) = Raise e ->
  fst (start_examination isoformat start_capture mode st) =
    PDict [("success", PBool false); ("error", PStr (exn_str e))] /\
  current_state (machine (snd (start_examination isoformat start_capture mode st))) =
    EXAMINING /\
  get_data (machine (snd (start_examination isoformat start_capture mode st)))
    "current_examination" PNone = get_data (machine st) "current_examination" PNone /\
  sent (snd (start_examination isoformat start_capture mode st)) = sent st.
Proof.
  intros Hidle Hready Hdur.
  cbv beta iota delta [start_examination try_except start_examination_try then_ step].
  rewrite machine_note, bool_decide_eq_true_2 by exact Hidle.
  cbv beta iota delta [negb].
  destruct (proj1 (request_examining
             (note LInfo ("Starting examination in " ++ py_str mode ++ " mode") st)
             Hidle) Hready) as (-> & Hex).
  autorewrite with station in Hex.
  pose proof (examination_start_keeps (machine st) (clock st)) as Hkeep.
  cbv beta iota delta [negb lift].
  unfold config_get in *. autorewrite with station.
  rewrite Hdur. cbv beta iota delta [ret]. cbn [fst snd].
  autorewrite with station.
  split; [reflexivity|]. split; [exact Hex|]. split; [|reflexivity].
  apply Hkeep.
Qed.

Lemma start_examination_bad_config_witness :
  current_state
    (machine (snd (start_examination (fun _ => "now") (fun _ st => st) (PStr "heart")
                     (simulated_station demo_idle broken_config)))) = EXAMINING.
Proof.
  refine (proj1 (proj2 (start_examination_bad_config (fun _ => "now") (fun _ st => st)
            (PStr "heart") (simulated_station demo_idle broken_config)
            (AttributeError "'str' object has no attribute 'get'") _ _ eq_refl))).
  - vm_compute. reflexivity.
  - apply (guard_examining_iff
             (machine (simulated_station demo_idle broken_config)) None).
    vm_compute. reflexivity.
Defined.

Section Running.

Lemma then_step {B} f (k : unit -> Run B) st : then_ (step f) k st = k tt (f st).
Proof. reflexivity. Qed.

Lemma then_ret {A B} (a : A) (k : A -> Run B) st : then_ (ret a) k st = k a st.
Proof. reflexivity. Qed.

Lemma then_lift_ok {A B} (a : A) (k : A -> Run B) st :
  then_ (lift (Ok a)) k st = k a st.
Proof. reflexivity. Qed.

Lemma then_request {B} s (k : bool -> Run B) st :
  then_ (request s) k st =
  k (fst (transition_to (machine st) s None (clock st)))
    (with_machine (fun _ => snd (transition_to (machine st) s None (clock st))) st).
Proof. reflexivity. Qed.

Lemma try_step {B} f (k : unit -> Run B) h st :
  try_except (then_ (step f) k) h st = try_except (k tt) h (f st).
Proof. reflexivity. Qed.

Lemma try_request {B} s (k : bool -> Run B) h st :
  try_except (then_ (request s) k) h st =
  try_except (k (fst (transition_to (machine st) s None (clock st)))) h
    (with_machine (fun _ => snd (transition_to (machine st) s None (clock st))) st).
Proof. reflexivity. Qed.

Lemma then_sleep {B} meanwhile delay d (k : unit -> Run B) st :
  as_number delay = Some d ->
  then_ (sleep meanwhile delay) k st = k tt (meanwhile d st).
Proof. intros H. unfold then_, sleep. rewrite H. reflexivity. Qed.

Variable P : Station -> Prop.

Lemma keeps_ret {A} (a : A) : keeps P (ret a).
Proof. intros st H. exact H. Qed.

Lemma keeps_lift {A} (r : result A) : keeps P (lift r).
Proof. intros st H. exact H. Qed.

Lemma keeps_step f : (forall st, P st -> P (f st)) -> keeps P (step f).
Proof. intros Hf st H. apply Hf, H. Qed.

Lemma keeps_then {A B} (c : Run A) (k : A -> Run B) :
  keeps P c -> (forall a, keeps P (k a)) -> keeps P (then_ c k).
Proof.
  intros Hc Hk st H. unfold then_. specialize (Hc st H).
  destruct (c st) as [[a|e] st']; cbn [snd] in Hc |- *; [apply Hk|]; exact Hc.
Qed.

Lemma keeps_try {A} (body : Run A) handler :
  keeps P body -> (forall e, keeps P (handler e)) -> keeps P (try_except body handler).
Proof.
  intros Hc Hk st H. unfold try_except. specialize (Hc st H).
  destruct (body st) as [[a|e] st']; cbn [snd] in Hc |- *; [|apply Hk]; exact Hc.
Qed.

Lemma keeps_reading {A} (c : Station -> Run A) :
  (forall st0, keeps P (c st0)) -> keeps P (fun st => c st st).
Proof. intros Hc st H. apply (Hc st st H). Qed.

End Running.

Section Stall.

Variable isoformat : Q -> string.
Variable meanwhile : Q -> Station -> Station.
Variable classify_heart_sound : Audio -> Run pyval.
Variable classify_lung_sound : Audio -> Run pyval.

Hypothesis meanwhile_phase : forall d st, phase (meanwhile d st) = phase st.
Hypothesis heart_phase : forall a st, phase (snd (classify_heart_sound a st)) = phase st.
Hypothesis lung_phase : forall a st, phase (snd (classify_lung_sound a st)) = phase st.

Lemma unflagged_phase s st st' : phase st' = phase st -> unflagged s st -> unflagged s st'.
Proof.
  unfold phase, unflagged. intros [= Hc Hd] [H1 H2]. rewrite Hc, Hd. split; assumption.
Qed.

Lemma unflagged_machine s st st' :
  machine st' = machine st -> unflagged s st -> unflagged s st'.
Proof. intros H. apply unflagged_phase. unfold phase. rewrite H. reflexivity. Qed.

Lemma unflagged_set s key value st :
  key <> "processing_complete" ->
  unflagged s st -> unflagged s (with_machine (set_data key value) st).
Proof.
  intros Hk [H1 H2]. split; [exact H1|].
  rewrite machine_with_machine, get_set_data, bool_decide_eq_false_2 by exact Hk.
  exact H2.
Qed.

Lemma unflagged_clear s key st :
  unflagged s st -> unflagged s (with_machine (clear_data (Some key)) st).
Proof.
  intros [H1 H2]. split; [exact H1|].
  rewrite machine_with_machine, get_clear_data.
  destruct (bool_decide (key = "processing_complete")); [reflexivity | exact H2].
Qed.

(** Out of PROCESSING only the flag, an error or the shutdown lead. *)
Lemma processing_refuses m s c now :
  current_state m = PROCESSING ->
  truthy (get_data m "processing_complete" (PBool false)) = false ->
  s <> ERROR -> s <> SHUTDOWN ->
  fst (transition_to m s c now) = false.
Proof.
  intros Hp Hflag He Hs.
  apply not_true_iff_false. rewrite transition_to_true_iff, Hp. intros [Hedge Hg].
  destruct s; try (apply (bool_decide_pack _) in Hedge; vm_compute in Hedge;
                   contradiction); try contradiction.
  change (truthy (get_data m "processing_complete" (PBool false)) = true) in Hg.
  rewrite Hflag in Hg. discriminate Hg.
Qed.

Lemma processing_holds m s c now :
  current_state m = PROCESSING ->
  truthy (get_data m "processing_complete" (PBool false)) = false ->
  s <> ERROR -> s <> SHUTDOWN ->
  fields (snd (transition_to m s c now)) = fields m.
Proof.
  intros Hp Hflag He Hs.
  pose proof (processing_refuses m s c now Hp Hflag He Hs) as Hno.
  apply transition_to_refused in Hno as [Hf _]. exact Hf.
Qed.

Lemma unflagged_request s st :
  s <> ERROR -> s <> SHUTDOWN ->
  unflagged PROCESSING st -> unflagged PROCESSING (snd (request s st)).
Proof.
  intros He Hs [H1 H2]. unfold request. cbn [snd].
  pose proof (processing_holds (machine st) s None (clock st) H1 H2 He Hs) as Hf.
  apply fields_eq in Hf as (Hc & _ & Hd & _).
  split; rewrite machine_with_machine.
  - rewrite Hc. exact H1.
  - unfold get_data. rewrite Hd. exact H2.
Qed.

Lemma keeps_request s :
  s <> ERROR -> s <> SHUTDOWN -> keeps (unflagged PROCESSING) (request s).
Proof. intros He Hs st H. apply unflagged_request; assumption. Qed.

Lemma keeps_sleep s delay : keeps (unflagged s) (sleep meanwhile delay).
Proof.
  intros st H. unfold sleep. destruct (as_number delay); cbn [snd]; [|exact H].
  apply (unflagged_phase s st); [apply meanwhile_phase | exact H].
Qed.

Lemma unflagged_return_to_idle st :
  unflagged PROCESSING st -> unflagged PROCESSING (_return_to_idle st).
Proof.
  intros H. unfold _return_to_idle. cbv zeta.
  eapply unflagged_machine; [apply machine_note|].
  apply unflagged_request; [discriminate | discriminate |].
  do 2 apply unflagged_clear.
  eapply unflagged_machine; [apply machine_send | exact H].
Qed.

Lemma keeps_send s (message : Station -> pyval) :
  keeps (unflagged s) (step (fun st => send (message st) st)).
Proof.
  apply keeps_step. intros st H. eapply unflagged_machine; [apply machine_send | exact H].
Qed.

Lemma keeps_note s level msg : keeps (unflagged s) (step (note level msg)).
Proof.
  apply keeps_step. intros st H. eapply unflagged_machine; [apply machine_note | exact H].
Qed.

Lemma keeps_beeps s count frequency duration :
  keeps (unflagged s) (beeps meanwhile count frequency duration).
Proof.
  induction count as [|count IH]; cbn [beeps]; [apply keeps_ret|].
  apply keeps_then; [apply keeps_send | intros _].
  apply keeps_then; [apply keeps_sleep | intros _]. exact IH.
Qed.

Lemma keeps_display_results_try results :
  keeps (unflagged PROCESSING) (display_results_try meanwhile results).
Proof.
  unfold display_results_try.
  apply keeps_then; [apply keeps_lift | intros triage_result].
  apply keeps_then; [apply keeps_lift | intros risk_level].
  destruct (display_pattern risk_level) as [[[angle frequency] duration] count].
  apply keeps_then; [apply keeps_send | intros _].
  apply keeps_then; [apply keeps_beeps | intros _].
  apply keeps_then; [apply keeps_request; discriminate | intros _].
  apply (keeps_reading _ (fun st0 => then_ _ _)). intros st0.
  apply keeps_then; [apply keeps_lift | intros display_duration].
  apply keeps_then; [apply keeps_sleep | intros _].
  apply keeps_step, unflagged_return_to_idle.
Qed.

Lemma unflagged_display_results results st :
  unflagged PROCESSING st -> unflagged PROCESSING (_display_results meanwhile results st).
Proof.
  unfold _display_results.
  apply (keeps_try _ _ _ (keeps_display_results_try results)).
  intros e. apply keeps_note.
Qed.

Lemma keeps_handle_processing_error error_message :
  keeps (unflagged PROCESSING) (_handle_processing_error meanwhile error_message).
Proof.
  unfold _handle_processing_error.
  apply keeps_then; [apply keeps_note | intros _].
  apply keeps_then; [apply keeps_send | intros _].
  apply keeps_then; [apply keeps_sleep | intros _].
  apply keeps_step, unflagged_return_to_idle.
Qed.

Lemma keeps_classifier (classify : Audio -> Run pyval) audio :
  (forall a st, phase (snd (classify a st)) = phase st) ->
  keeps (unflagged PROCESSING) (classify audio).
Proof. intros Hc st H. eapply unflagged_phase; [apply Hc | exact H]. Qed.

(** EXAMINING -> PROCESSING is free, and leaves the store alone. *)
Lemma examining_to_processing m c now :
  current_state m = EXAMINING ->
  current_state (snd (transition_to m PROCESSING c now)) = PROCESSING /\
  state_data (snd (transition_to m PROCESSING c now)) = state_data m.
Proof.
  intros He.
  assert (Hok : fst (transition_to m PROCESSING c now) = true).
  { apply transition_to_true_iff. rewrite He.
    split; [apply (bool_decide_unpack _); vm_compute; exact I | reflexivity]. }
  split.
  - apply transition_to_accepted, control_eq in Hok as (Hc & _). exact Hc.
  - rewrite (transition_to_data _ _ _ _ Hok), He. reflexivity.
Qed.

Ltac resume H :=
  cbv zeta beta;
  match goal with
  | |- ?Q (snd (?c ?st)) => refine ((_ : keeps Q c) st H)
  end.

(** Once in PROCESSING with no flag up, the pipeline stays there. *)
Lemma process_captured_audio_awaits audio st :
  unflagged EXAMINING st ->
  unflagged PROCESSING
    (_process_captured_audio isoformat meanwhile classify_heart_sound
       classify_lung_sound audio st).
Proof.
  intros [Hex Hflag].
  unfold _process_captured_audio, process_captured_audio_try.
  rewrite try_step, try_request.
  refine (keeps_try (unflagged PROCESSING) _ _ _ _ _ _).
  - intros st0 H0. resume H0.
    apply keeps_then; [apply keeps_lift | intros mode].
    apply keeps_then.
    { intros st1 H1. cbv beta.
      destruct (audio_enabled st1); cbn [negb]; [|exact H1].
      resume H1.
      apply keeps_then.
      { destruct (is_str mode "heart" || is_str mode "both");
          [apply keeps_classifier, heart_phase | apply keeps_ret]. }
      intros heart_result. apply keeps_then.
      { destruct (is_str mode "lung" || is_str mode "both");
          [apply keeps_classifier, lung_phase | apply keeps_ret]. }
      intros lung_result st2 H2. exact H2. }
    intros [[heart_result lung_result] inference_time] st1 H1. resume H1.
    apply keeps_then; [apply keeps_lift | intros triage_result].
    apply keeps_then.
    { apply keeps_step. intros st2. apply unflagged_set. discriminate. }
    intros _. apply keeps_then; [apply keeps_step, unflagged_display_results | intros _].
    apply keeps_then; [|intros _; apply keeps_note].
    apply keeps_step. intros st2 H2. exact H2.
  - intros e. apply keeps_then; [apply keeps_note | intros _].
    apply keeps_handle_processing_error.
  - rewrite machine_note, clock_note.
    destruct (examining_to_processing (machine st) None (clock st) Hex) as [Hc Hd].
    split; rewrite machine_with_machine; [exact Hc|].
    unfold get_data. rewrite Hd. exact Hflag.
Qed.

Lemma callback_below audio progress st :
  Qle_bool 1 progress = false ->
  _audio_capture_callback isoformat meanwhile classify_heart_sound classify_lung_sound
    audio progress st =
  send (progress_command (clock st) (py_int (fmul progress 180))) st.
Proof. intros H. unfold _audio_capture_callback. cbv zeta. rewrite H. reflexivity. Qed.

Lemma callback_complete progress st :
  Qle_bool 1 progress = true ->
  unflagged EXAMINING st ->
  unflagged PROCESSING
    (_audio_capture_callback isoformat meanwhile classify_heart_sound
       classify_lung_sound None progress st).
Proof.
  intros Hp H. unfold _audio_capture_callback. cbv zeta. rewrite Hp.
  apply process_captured_audio_awaits.
  eapply unflagged_machine; [apply machine_send | exact H].
Qed.

(** The steps of the simulated capture before the last one. *)
Lemma simulated_steps_prefix todo rest steps step_duration st :
  Forall (fun i => Qle_bool 1 (fdiv (inject_Z i) (inject_Z steps)) = false) todo ->
  unflagged EXAMINING st ->
  exists st',
    simulated_steps isoformat meanwhile classify_heart_sound classify_lung_sound
      (todo ++ rest) steps step_duration st =
    simulated_steps isoformat meanwhile classify_heart_sound classify_lung_sound
      rest steps step_duration st' /\
    unflagged EXAMINING st'.
Proof.
  intros Hall. revert st. induction Hall as [|i todo Hi Hall IH]; intros st H.
  - exists st. split; [reflexivity | exact H].
  - cbn [app simulated_steps].
    rewrite bool_decide_eq_true_2 by exact (proj1 H). cbn [negb].
    rewrite then_step, (then_sleep _ _ step_duration) by reflexivity.
    rewrite callback_below by exact Hi.
    apply IH.
    eapply unflagged_phase; [apply meanwhile_phase|].
    eapply unflagged_machine; [apply machine_send | exact H].
Qed.

Lemma simulated_steps_last steps step_duration st :
  Qle_bool 1 (fdiv (inject_Z steps) (inject_Z steps)) = true ->
  unflagged EXAMINING st ->
  exists st',
    simulated_steps isoformat meanwhile classify_heart_sound classify_lung_sound
      [steps] steps step_duration st = (Ok tt, st') /\
    unflagged PROCESSING st'.
Proof.
  intros Hp H. cbn [simulated_steps].
  rewrite bool_decide_eq_true_2 by exact (proj1 H). cbn [negb].
  rewrite then_step, (then_sleep _ _ step_duration) by reflexivity.
  eexists. split; [reflexivity|].
  eapply unflagged_phase; [apply meanwhile_phase|].
  apply callback_complete; assumption.
Qed.

Lemma run_simulated_examination_awaits duration d st :
  as_number duration = Some d ->
  unflagged EXAMINING st ->
  exists st',
    _run_simulated_examination isoformat meanwhile classify_heart_sound
      classify_lung_sound duration st = (Ok tt, st') /\
    unflagged PROCESSING st'.
Proof.
  intros Hd H. unfold _run_simulated_examination. cbv zeta. rewrite Hd.
  change (map Z.of_nat (seq 0 (Z.to_nat (20 + 1))))
    with (map Z.of_nat (seq 0 20) ++ [20%Z])%list.
  destruct (simulated_steps_prefix (map Z.of_nat (seq 0 20)) [20%Z] 20
              (fdiv d (inject_Z 20)) st) as (st1 & -> & H1); [|exact H|].
  { let l := eval vm_compute in (map Z.of_nat (seq 0 20)) in
    change (map Z.of_nat (seq 0 20)) with l.
    repeat (constructor; [vm_compute; reflexivity|]). constructor. }
  apply simulated_steps_last; [vm_compute; reflexivity | exact H1].
Qed.

End Stall.

(** A start in any state but IDLE is answered with the name of the state. *)
Lemma start_examination_busy isoformat start_capture mode st :
  current_state (machine st) <> IDLE ->
  start_examination isoformat start_capture mode st =
  (PDict [ ("success", PBool false);
           ("error", PStr ("Cannot start examination in "
                           ++ state_name (current_state (machine st)) ++ " state")) ],
   note LInfo ("Starting examination in " ++ py_str mode ++ " mode") st).
Proof.
  intros Hbusy.
  cbv beta iota delta [start_examination try_except start_examination_try then_ step].
  rewrite machine_note, bool_decide_eq_false_2 by exact Hbusy.
  reflexivity.
Qed.

(** X25. Once the capture is complete the machine is in PROCESSING for good:
    if no [processing_complete] flag is up when [_process_captured_audio]
    starts in EXAMINING, and nothing else moves the machine or raises the
    flag meanwhile, then however the processing goes the machine ends in
    PROCESSING, where requests for SHOWING_RESULTS and IDLE are refused and
    [process] does nothing. *)
Theorem processing_is_never_left isoformat meanwhile classify_heart_sound
    classify_lung_sound audio st :
  (forall d st, phase (meanwhile d st) = phase st) ->
  (forall a st, phase (snd (classify_heart_sound a st)) = phase st) ->
  (forall a st, phase (snd (classify_lung_sound a st)) = phase st) ->
  current_state (machine st) = EXAMINING ->
  truthy (get_data (machine st) "processing_complete" (PBool false)) = false ->
  let st' := _process_captured_audio isoformat meanwhile classify_heart_sound
               classify_lung_sound audio st in
  current_state (machine st') = PROCESSING /\
  (forall now, fst (transition_to (machine st') SHOWING_RESULTS None now) = false) /\
  (forall now, fst (transition_to (machine st') IDLE None now) = false) /\
  (forall now, process (machine st') now = machine st').
Proof.
  intros Hm Hh Hl Hex Hflag. cbv zeta.
  destruct (process_captured_audio_awaits isoformat meanwhile classify_heart_sound
              classify_lung_sound Hm Hh Hl audio st (conj Hex Hflag)) as [Hp Hf].
  revert Hp Hf.
  generalize (_process_captured_audio isoformat meanwhile classify_heart_sound
                classify_lung_sound audio st).
  intros st' Hp Hf.
  split; [exact Hp|].
  split; [intros now; apply processing_refuses; [exact Hp | exact Hf | | ]; discriminate|].
  split; [intros now; apply processing_refuses; [exact Hp | exact Hf | | ]; discriminate|].
  intros now. apply process_idle_unless_showing. rewrite Hp. discriminate.
Qed.

Lemma processing_is_never_left_witness :
  current_state
    (machine (_process_captured_audio (fun _ => "now") (fun _ st => st)
                (fun _ => ret PNone) (fun _ => ret PNone) [] examining_station))
  = PROCESSING.
Proof.
  refine (proj1 (processing_is_never_left (fun _ => "now") (fun _ st => st)
                   (fun _ => ret PNone) (fun _ => ret PNone) [] examining_station
                   (fun _ _ => eq_refl) (fun _ _ => eq_refl) (fun _ _ => eq_refl) _ _)).
  - vm_compute. reflexivity.
  - vm_compute. reflexivity.
Defined.

(** X26. A simulated examination that runs to its end returns normally and
    leaves the machine in PROCESSING, so that the next [start_examination]
    is refused. *)
Theorem simulated_examination_stalls isoformat start_capture meanwhile
    classify_heart_sound classify_lung_sound duration d st :
  (forall d st, phase (meanwhile d st) = phase st) ->
  (forall a st, phase (snd (classify_heart_sound a st)) = phase st) ->
  (forall a st, phase (snd (classify_lung_sound a st)) = phase st) ->
  as_number duration = Some d ->
  current_state (machine st) = EXAMINING ->
  truthy (get_data (machine st) "processing_complete" (PBool false)) = false ->
  let run := _run_simulated_examination isoformat meanwhile classify_heart_sound
               classify_lung_sound duration st in
  fst run = Ok tt /\
  current_state (machine (snd run)) = PROCESSING /\
  forall mode,
    fst (start_examination isoformat start_capture mode (snd run)) =
    PDict [ ("success", PBool false);
            ("error", PStr "Cannot start examination in PROCESSING state") ].
Proof.
  intros Hm Hh Hl Hd Hex Hflag. cbv zeta.
  destruct (run_simulated_examination_awaits isoformat meanwhile classify_heart_sound
              classify_lung_sound Hm Hh Hl duration d st Hd (conj Hex Hflag))
    as (st' & -> & Hp & _).
  cbn [fst snd].
  split; [reflexivity|]. split; [exact Hp|].
  intros mode. rewrite start_examination_busy by (rewrite Hp; discriminate).
  cbn [fst]. rewrite Hp. reflexivity.
Qed.

Lemma simulated_examination_stalls_witness :
  current_state
    (machine (snd (_run_simulated_examination (fun _ => "now") (fun _ st => st)
                     (fun _ => ret PNone) (fun _ => ret PNone) (PFloat 8)
                     examining_station)))
  = PROCESSING.
Proof.
  refine (proj1 (proj2 (simulated_examination_stalls (fun _ => "now") (fun _ st => st)
                   (fun _ st => st) (fun _ => ret PNone) (fun _ => ret PNone)
                   (PFloat 8) 8 examining_station
                   (fun _ _ => eq_refl) (fun _ _ => eq_refl) (fun _ _ => eq_refl)
                   eq_refl _ _))).
  - vm_compute. reflexivity.
  - vm_compute. reflexivity.
Defined.

Section Display.

Variable meanwhile : Q -> Station -> Station.
Hypothesis quiet : undisturbed meanwhile.

Lemma sent_meanwhile d st : sent (meanwhile d st) = sent st.
Proof. unfold sent. rewrite (proj1 (quiet d st)). reflexivity. Qed.

Lemma serial_meanwhile d st :
  serial_manager (manager (meanwhile d st)) = serial_manager (manager st).
Proof. rewrite (proj1 (quiet d st)). reflexivity. Qed.

Lemma config_meanwhile d st : config (meanwhile d st) = config st.
Proof. apply (proj2 (quiet d st)). Qed.

Lemma serial_send message st :
  is_Some (serial_manager (manager st)) ->
  is_Some (serial_manager (manager (send message st))) /\
  sent (send message st) = (sent st ++ [message])%list.
Proof.
  intros [link Hlink]. rewrite sent_send.
  unfold send, with_manager, send_message; cbn [manager]. rewrite Hlink.
  cbn [serial_manager]. split; [eexists; reflexivity | reflexivity].
Qed.

(** The beeps, one message each. *)
Lemma beeps_sent count frequency duration st :
  is_Some (serial_manager (manager st)) ->
  exists times st',
    beeps meanwhile count frequency duration st = (Ok tt, st') /\
    length times = count /\
    sent st' =
      (sent st ++ map (fun t => buzzer_command t frequency duration) times)%list /\
    is_Some (serial_manager (manager st')) /\
    config st' = config st.
Proof.
  revert st. induction count as [|count IH]; intros st Hlink.
  - exists [], st. cbn [beeps map length]. rewrite app_nil_r. repeat split; assumption.
  - cbn [beeps]. rewrite then_step, (then_sleep _ _ (4 # 10)) by reflexivity.
    destruct (serial_send (buzzer_command (clock st) frequency duration) st Hlink)
      as [Hlink' Hsent].
    destruct (IH (meanwhile (4 # 10)
                    (send (buzzer_command (clock st) frequency duration) st)))
      as (times & st' & Hrun & Hlen & Hs & Hl & Hc).
    { rewrite serial_meanwhile. exact Hlink'. }
    exists (clock st :: times), st'. rewrite Hrun.
    split; [reflexivity|]. split; [cbn [length]; rewrite Hlen; reflexivity|].
    split; [|split; [exact Hl|]].
    + rewrite Hs, sent_meanwhile, Hsent, <- app_assoc. reflexivity.
    + rewrite Hc, config_meanwhile. reflexivity.
Qed.

Lemma return_to_idle_sent st :
  is_Some (serial_manager (manager st)) ->
  sent (_return_to_idle st) = (sent st ++ [reset_command (clock st)])%list.
Proof.
  intros Hlink. unfold _return_to_idle, request. cbv zeta. cbn [snd].
  rewrite sent_note, !sent_with_machine.
  apply (serial_send _ _ Hlink).
Qed.

Lemma display_results_sent results triage_result risk_level display_duration d st :
  is_Some (serial_manager (manager st)) ->
  py_item results "triage_result" = Ok triage_result ->
  py_item triage_result "risk_level" = Ok risk_level ->
  config_get st "examination" "result_display_time" (PFloat 10) = Ok display_duration ->
  as_number display_duration = Some d ->
  exists shown beeped reset_at,
    sent (_display_results meanwhile results st) =
      (sent st
       ++ display_command shown risk_level
          :: map (fun t => buzzer_command t (snd (fst (fst (display_pattern risk_level))))
                             (snd (fst (display_pattern risk_level))))
               beeped
       ++ [reset_command reset_at])%list /\
    length beeped = snd (display_pattern risk_level).
Proof.
  intros Hlink Htriage Hlevel Hconfig Hd.
  unfold _display_results, display_results_try, try_except.
  rewrite Htriage, then_lift_ok, Hlevel, then_lift_ok.
  destruct (display_pattern risk_level) as [[[angle frequency] duration] count].
  cbn [fst snd]. rewrite then_step.
  destruct (serial_send (display_command (clock st) risk_level) st Hlink)
    as [Hlink1 Hsent1].
  destruct (beeps_sent count frequency duration
              (send (display_command (clock st) risk_level) st) Hlink1)
    as (times & st2 & Hrun & Hlen & Hs2 & Hl2 & Hc2).
  unfold then_ at 1. rewrite Hrun. rewrite then_request.
  unfold config_get in *. rewrite config_with_machine, Hc2, config_send, Hconfig.
  rewrite then_lift_ok, (then_sleep _ _ d) by exact Hd.
  cbv beta iota delta [step]. cbn [snd].
  exists (clock st), times.
  eexists. split; [|exact Hlen].
  rewrite return_to_idle_sent
    by (rewrite serial_meanwhile, serial_with_machine; exact Hl2).
  rewrite sent_meanwhile, sent_with_machine, Hs2, Hsent1.
  rewrite <- !app_assoc. reflexivity.
Qed.

End Display.



Section SensorData.

Lemma machine_emit_event event_type data st :
  machine (_emit_event event_type data st) = machine st.
Proof.
  unfold _emit_event. destruct (event_handlers st !! event_type) as [handlers|];
    [|reflexivity].
  revert st. induction handlers as [|h handlers IH]; intros st; [reflexivity|].
  cbn [fold_left]. rewrite IH. unfold run_handler.
  destruct (handler_raises h data); reflexivity.
Qed.

Lemma sent_emit_event event_type data st :
  sent (_emit_event event_type data st) = sent st.
Proof.
  unfold _emit_event. destruct (event_handlers st !! event_type) as [handlers|];
    [|reflexivity].
  revert st. induction handlers as [|h handlers IH]; intros st; [reflexivity|].
  cbn [fold_left]. rewrite IH. unfold run_handler.
  destruct (handler_raises h data); reflexivity.
Qed.

Lemma try_lift_ok {A B} (a : A) (k : A -> Run B) h st :
  try_except (then_ (lift (Ok a)) k) h st = try_except (k a) h st.
Proof. reflexivity. Qed.

Variable sensor_data : pyval.
Variable st : Station.

Lemma stored_machine st1 st2 :
  machine st2 = machine st1 -> sent st2 = sent st1 -> stored sensor_data st st1 -> stored sensor_data st st2.
Proof. unfold stored. intros -> ->. exact id. Qed.

Lemma stored_emit event_type data : keeps (stored sensor_data st) (step (_emit_event event_type data)).
Proof.
  apply keeps_step. intros st1.
  apply stored_machine; [apply machine_emit_event | apply sent_emit_event].
Qed.

Lemma stored_knob mode :
  keeps (stored sensor_data st) (step (with_machine (set_data "last_knob_mode" mode))).
Proof.
  apply keeps_step. intros st1 (Hl & Hc & Hs & Hk).
  split; [|split; [exact Hc | split; [exact Hs|]]].
  - unfold latest_sensor_data. rewrite machine_with_machine, get_set_data.
    rewrite bool_decide_eq_false_2 by discriminate. exact Hl.
  - intros key default H1 H2. rewrite machine_with_machine, get_set_data.
    rewrite bool_decide_eq_false_2 by (intros E; apply H2; symmetry; exact E).
    apply Hk; assumption.
Qed.

Lemma handle_sensor_data_stored message :
  py_get message "data" (PDict []) = Ok sensor_data ->
  stored sensor_data st (_handle_sensor_data message st).
Proof.
  intros Hdata. unfold _handle_sensor_data, handle_sensor_data_try.
  rewrite Hdata, try_lift_ok, try_step.
  refine (keeps_try (stored sensor_data st) _ _ _ _ _ _).
  - intros st0 H0. cbv beta.
    destruct (current_state (machine st0)); try exact H0.
    + refine ((_ : keeps (stored sensor_data st) _) st0 H0).
      apply keeps_then; [apply keeps_lift | intros knob_data].
      apply keeps_then; [apply keeps_lift | intros mode].
      intros st1 H1. cbv beta.
      destruct (py_ne mode (get_data (machine st1) "last_knob_mode" (PInt (-1))));
        [|exact H1].
      refine ((_ : keeps (stored sensor_data st) _) st1 H1).
      apply keeps_then; [apply stored_knob | intros _; apply stored_emit].
    + refine ((_ : keeps (stored sensor_data st) _) st0 H0).
      apply keeps_then; [apply keeps_lift | intros movement_data].
      apply keeps_then; [apply keeps_lift | intros detected].
      apply keeps_then.
      { destruct (truthy detected); [apply stored_emit | apply keeps_ret]. }
      intros _. apply keeps_then; [apply keeps_lift | intros distance_data].
      apply keeps_then; [apply keeps_lift | intros in_range].
      destruct (negb (truthy in_range)); [apply stored_emit | apply keeps_ret].
  - intros e. apply keeps_step. intros st1.
    apply stored_machine; reflexivity.
  - split; [|split; [reflexivity | split; [reflexivity|]]].
    + unfold latest_sensor_data. rewrite machine_with_machine, get_set_data.
      rewrite bool_decide_eq_true_2 by reflexivity. reflexivity.
    + intros key default H1 H2. rewrite machine_with_machine, get_set_data.
      rewrite bool_decide_eq_false_2 by (intros E; apply H1; symmetry; exact E).
      reflexivity.
Qed.

End SensorData.

(** X28. A sensor message replaces the stored snapshot by its [data] entry,
    whatever the state and even if handling it fails later; it never
    changes the state, the history or the state clock, sends nothing, and
    writes no other key than [last_knob_mode]. *)
Theorem handle_sensor_data_stores message sensor_data st :
  py_get message "data" (PDict []) = Ok sensor_data ->
  latest_sensor_data (machine (_handle_sensor_data message st)) = sensor_data /\
  control (machine (_handle_sensor_data message st)) = control (machine st) /\
  sent (_handle_sensor_data message st) = sent st /\
  forall key default,
    key <> "latest_sensor_data" -> key <> "last_knob_mode" ->
    get_data (machine (_handle_sensor_data message st)) key default =
    get_data (machine st) key default.
Proof.
  intros Hdata. exact (handle_sensor_data_stored sensor_data st message Hdata).
Qed.

Lemma handle_sensor_data_stores_witness :
  latest_sensor_data
    (machine (_handle_sensor_data (PDict [("data", out_of_range_snapshot)])
                (simulated_station demo_idle (PDict [])))) = out_of_range_snapshot.
Proof.
  exact (proj1 (handle_sensor_data_stores (PDict [("data", out_of_range_snapshot)])
                  out_of_range_snapshot (simulated_station demo_idle (PDict []))
                  eq_refl)).
Defined.

(** X29. A sensor message that is no dictionary is logged as an error and
    changes nothing else. *)
Theorem handle_sensor_data_rejects message st :
  (forall d, message <> PDict d) ->
  machine (_handle_sensor_data message st) = machine st /\
  sent (_handle_sensor_data message st) = sent st /\
  happened (_handle_sensor_data message st) = happened st /\
  logged (manager (_handle_sensor_data message st)) =
    (logged (manager st)
     ++ [(LError, ("Error handling sensor data: '" ++ type_name message
                   ++ "' object has no attribute 'get'")%string)])%list.
Proof.
  intros Hno. unfold _handle_sensor_data, handle_sensor_data_try.
  destruct message as [| | | | | |d]; try (repeat split; reflexivity).
  contradiction (Hno d). reflexivity.
Qed.

Lemma handle_sensor_data_rejects_witness :
  machine (_handle_sensor_data (PStr "noise") busy_station) = machine busy_station.
Proof.
  refine (proj1 (handle_sensor_data_rejects (PStr "noise") busy_station _)).
  intros d H. discriminate H.
Defined.

(** X30. With no capture running, [stop_examination] called in EXAMINING
    answers success and returns the machine to IDLE with one more history
    record; the data store, the stored examination included, is left as it
    was. *)
Theorem stop_examination_while_examining stop_running_capture sm now :
  current_state (state_machine sm) = EXAMINING ->
  (forall c, audio_capture sm = Some c -> capturing c = false) ->
  fst (stop_examination stop_running_capture sm now) = PDict [("success", PBool true)] /\
  current_state (state_machine (snd (stop_examination stop_running_capture sm now)))
    = IDLE /\
  state_data (state_machine (snd (stop_examination stop_running_capture sm now)))
    = state_data (state_machine sm) /\
  state_history (state_machine (snd (stop_examination stop_running_capture sm now)))
    = (state_history (state_machine sm)
       ++ [transition_record EXAMINING IDLE now None])%list.
Proof.
  intros Hex Hquiet. unfold stop_examination. cbn [fst snd].
  split; [reflexivity|].
  assert (Hquiet' : forall c,
             audio_capture (manager_log LInfo "Stopping examination" sm) = Some c ->
             capturing c = false) by exact Hquiet.
  rewrite (stop_capture_idle stop_running_capture _ Hquiet').
  cbn [state_machine manager_log with_state_machine].
  rewrite state_machine_send_message. cbn [state_machine manager_log].
  assert (Hok : fst (transition_to (state_machine sm) IDLE None now) = true).
  { apply transition_to_true_iff. rewrite Hex.
    split; [apply (bool_decide_unpack _); vm_compute; exact I | reflexivity]. }
  pose proof (transition_to_data _ _ _ _ Hok) as Hd. rewrite Hex in Hd.
  apply transition_to_accepted, control_eq in Hok as (Hc & _ & Hh & _).
  rewrite Hex in Hh.
  split; [exact Hc|]. split; [exact Hd | exact Hh].
Qed.

Lemma stop_examination_while_examining_witness :
  current_state
    (state_machine (snd (stop_examination (fun sm => sm) examining_manager 9))) = IDLE.
Proof.
  refine (proj1 (proj2 (stop_examination_while_examining (fun sm => sm)
                          examining_manager 9 _ _))).
  - vm_compute. reflexivity.
  - intros c H. discriminate H.
Defined.
